(** * MTProto instance core ([mtproto/mtp_instance.cpp]): a shallow embedding

    The request id allocator, the request table, the delayed scheduler, the
    error policy engine ([onErrorDefault]), the configuration controller and
    the key destroyer of [Instance::Private], written as functions over an
    explicit state record, with the calls made to collaborators (sessions,
    persistence, signals) recorded in an event trace. *)

From Stdlib Require Import ZArith Lia List Bool String Ascii.
From stdpp Require Import base option list gmap sorting.

Local Open Scope Z_scope.

(** ** Machine integers *)

(** [std::numeric_limits<int>::max()] for the 32-bit [int] of the targets. *)
Definition INT_MAX : Z := 2147483647.

(** Two's complement wrap-around of a 32-bit signed integer. *)
Definition wrap32 (x : Z) : Z := (x + 2147483648) mod 4294967296 - 2147483648.

(** ** 4.A Request id allocator *)

Module Allocator.

(** [internal::GetNextRequestId]: the argument is the value of
    [GlobalAtomicRequestId] before the call, the result is the returned id
    and the value of the counter after the call. *)
Definition GetNextRequestId (counter : Z) : Z * Z :=
  let result := wrap32 (counter + 1) in
  if result =? Z.quot INT_MAX 2 then (result, 0) else (result, result).

(** [n] consecutive allocations: the ids in the order they were returned,
    and the counter left behind. *)
Fixpoint allocate (n : nat) (counter : Z) : list Z * Z :=
  match n with
  | O => ([], counter)
  | S n' =>
      let '(id, counter') := GetNextRequestId counter in
      let '(ids, counter'') := allocate n' counter' in
      (id :: ids, counter'')
  end.

End Allocator.

(** ** Errors and the two patterns [onErrorDefault] matches them against *)

(** [RPCError]: the numeric code and the type string of an error frame. *)
Record RPCError := mkRPCError { err_code : Z; err_type : string }.

Definition is_digit (c : ascii) : bool :=
  let n := nat_of_ascii c in (48 <=? n)%nat && (n <=? 57)%nat.

(** The longest run of ASCII digits at the head of [s], and what follows. *)
Fixpoint span_digits (s : string) : string * string :=
  match s with
  | EmptyString => (EmptyString, EmptyString)
  | String c s' =>
      if is_digit c
      then let '(d, r) := span_digits s' in (String c d, r)
      else (EmptyString, s)
  end.

(** [(\d+)$]: one digit or more up to the end of the subject; [$] also
    matches before a line feed that is the last character. *)
Definition captured_digits (s : string) : option string :=
  let '(d, r) := span_digits s in
  match d, r with
  | EmptyString, _ => None
  | _, EmptyString => Some d
  | _, String c EmptyString => if Ascii.eqb c "010"%char then Some d else None
  | _, _ => None
  end.

Fixpoint decimal_value (acc : Z) (s : string) : Z :=
  match s with
  | EmptyString => acc
  | String c s' => decimal_value (10 * acc + (Z.of_nat (nat_of_ascii c) - 48)) s'
  end.

(** [QString::toInt] on a string of digits: the value, or 0 when it does not
    fit an [int]. *)
Definition toInt (digits : string) : Z :=
  let v := decimal_value 0 digits in
  if v <=? INT_MAX then v else 0.

Fixpoint strip_prefix (p s : string) : option string :=
  match p, s with
  | EmptyString, _ => Some s
  | String a p', String b s' => if Ascii.eqb a b then strip_prefix p' s' else None
  | String _ _, EmptyString => None
  end.

Definition match_after (prefix : string) (err : string) : option Z :=
  match strip_prefix prefix err with
  | Some rest => option_map toInt (captured_digits rest)
  | None => None
  end.

Definition first_match (a b : option Z) : option Z :=
  match a with Some _ => a | None => b end.

(** [^(FILE|PHONE|NETWORK|USER)_MIGRATE_(\d+)$]: [m.captured(2).toInt()]
    when the error type matches. *)
Definition match_migrate (err : string) : option Z :=
  first_match (match_after "FILE_MIGRATE_" err)
    (first_match (match_after "PHONE_MIGRATE_" err)
      (first_match (match_after "NETWORK_MIGRATE_" err)
        (match_after "USER_MIGRATE_" err))).

(** [^FLOOD_WAIT_(\d+)$]: [m.captured(1).toInt()] when the type matches. *)
Definition match_flood_wait (err : string) : option Z :=
  match_after "FLOOD_WAIT_" err.

(** ** Data model *)

(** [Instance::Mode]. *)
Inductive Mode := Normal | KeysDestroyer.

(** [AuthKeyPtr] is a shared pointer: [key_addr] is the address of the key
    object (pointers compare by it), [key_dcId] what [key->dcId()] returns.
    A null pointer is [None]. *)
Record AuthKey := mkAuthKey { key_addr : positive; key_dcId : Z }.

Definition AuthKeyPtr := option AuthKey.

(** [==] on two [AuthKeyPtr]. *)
Definition ptr_eqb (a b : AuthKeyPtr) : bool :=
  match a, b with
  | None, None => true
  | Some x, Some y => Pos.eqb (key_addr x) (key_addr y)
  | _, _ => false
  end.

(** [Dcenter(dcId, key)]. *)
Record Dcenter := mkDcenter { dc_id : Z; dc_key : AuthKeyPtr }.

(** A [Session] object: its address and the shifted DC id it was built
    with, which is what [getDcWithShift()] returns. *)
Record Session := mkSession { sess_ptr : nat; getDcWithShift : Z }.

(** The requests the core sends on its own behalf. *)
Inductive MTPMethod :=
  | MTPauth_ExportAuthorization (dc : Z)
  | MTPauth_LogOut
  | MTPDestroy_auth_key
  | MTPhelp_GetCdnConfig.

(** The closures stored in an [RPCResponseHandler]: the ones the core builds
    and the ones of its callers, told apart by a tag. *)
Inductive Callback :=
  | ExportCallback
  | LogoutCallback (shiftedDcId : Z)
  | DestroyCallback (shiftedDcId : Z)
  | CdnConfigCallback
  | UserCallback (tag : nat).

Record RPCResponseHandler := mkHandler {
  onDone : option Callback;
  onFail : option Callback
}.

(** The object behind a [SerializedRequest]: the serialized buffer and the
    fields the core writes.  [after] points to another stored request; the
    core reads only that request's [requestId] through it. *)
Record SerializedRequest := mkRequest {
  req_data : list Byte.byte;
  req_requestId : Z;
  req_needsLayer : bool;
  req_after : option Z;
  req_lastSentTime : Z
}.


(** Calls made to the collaborators, in the order they are made. *)
Inductive Event :=
  | SessionStart (session : Session)
  | SessionKill (session : Session)
  | SessionSendPrepared (session : Session) (request : SerializedRequest) (msCanWait : Z)
  | SessionCancel (session : Session) (requestId msgId : Z)
  | TemporaryKeyChangedFired (dcId : Z)
  | AllKeysDestroyedFired
  | WriteMtpData
  | WriteSettings
  | SetCDNConfig
  | ConfigLoaderLoad
  | GlobalFailCalled (requestId : Z) (error : RPCError)
  | DoneCalled (requestId : Z) (callback : Callback)
  | FailCalled (requestId : Z) (callback : Callback) (error : RPCError)
  | LangResetToDefault
  | TimerCallOnce (timeout : Z)
  | InvokeQueuedClearSessions
  | InvokeQueuedCompletedKeyDestroy (shiftedDcId : Z)
  | DcOptionsSetFromList
  | ConfigUpdated
  | CallDelayedRequestConfigIfExpired (timeout : Z)
  | RequestCancellingDiscard.

(** The state of [Instance::Private], together with the file's atomic
    counter [GlobalAtomicRequestId], the clock ([crl::now()] returns
    [clock ticks] and moves [ticks] on), whether [Main::Session::Exists()],
    the next free address for a session or loader object, the number of
    [ConfigLoader] objects alive, the number of CDN configuration requests
    in flight, and the calls made to collaborators so far.
    [_globalHandler_onFail] tells whether a global fail handler is set. *)
Record Private := mkPrivate {
  _mode : Mode;
  _mainDcId : Z;
  _mainDcIdForced : bool;
  _dcenters : gmap Z Dcenter;
  _dcentersToDestroy : list Dcenter;
  _mainSession : option Session;
  _sessions : gmap Z Session;
  _sessionsToDestroy : list Session;
  _configLoader : option nat;
  _cdnConfigLoadRequestId : Z;
  _lastConfigLoadedTime : Z;
  _configExpiresAt : Z;
  _keysForWrite : gmap Z AuthKey;
  _requestsByDc : gmap Z Z;
  _authExportRequests : gmap Z Z;
  _parserMap : gmap Z RPCResponseHandler;
  _requestMap : gmap Z SerializedRequest;
  _delayedRequests : list (Z * Z);
  _requestsDelays : gmap Z Z;
  _badGuestDcRequests : gset Z;
  _authWaiters : gmap Z (list Z);
  _globalHandler_onFail : bool;
  GlobalAtomicRequestId : Z;
  sessionExists : bool;
  clock : nat -> Z;
  ticks : nat;
  nextPtr : nat;
  liveConfigLoaders : nat;
  liveCdnConfigRequests : nat;
  trace : list Event
}.

(** Field updates. *)

Definition set_mainDcId (v : Z) (st : Private) : Private :=
  mkPrivate (_mode st) v (_mainDcIdForced st) (_dcenters st)
    (_dcentersToDestroy st) (_mainSession st) (_sessions st)
    (_sessionsToDestroy st) (_configLoader st) (_cdnConfigLoadRequestId st)
    (_lastConfigLoadedTime st) (_configExpiresAt st) (_keysForWrite st)
    (_requestsByDc st) (_authExportRequests st) (_parserMap st)
    (_requestMap st) (_delayedRequests st) (_requestsDelays st)
    (_badGuestDcRequests st) (_authWaiters st) (_globalHandler_onFail st)
    (GlobalAtomicRequestId st) (sessionExists st) (clock st) (ticks st)
    (nextPtr st) (liveConfigLoaders st) (liveCdnConfigRequests st) (trace st).

Definition set_mainDcIdForced (v : bool) (st : Private) : Private :=
  mkPrivate (_mode st) (_mainDcId st) v (_dcenters st) (_dcentersToDestroy st)
    (_mainSession st) (_sessions st) (_sessionsToDestroy st)
    (_configLoader st) (_cdnConfigLoadRequestId st) (_lastConfigLoadedTime st)
    (_configExpiresAt st) (_keysForWrite st) (_requestsByDc st)
    (_authExportRequests st) (_parserMap st) (_requestMap st)
    (_delayedRequests st) (_requestsDelays st) (_badGuestDcRequests st)
    (_authWaiters st) (_globalHandler_onFail st) (GlobalAtomicRequestId st)
    (sessionExists st) (clock st) (ticks st) (nextPtr st)
    (liveConfigLoaders st) (liveCdnConfigRequests st) (trace st).

Definition set_dcenters (v : gmap Z Dcenter) (st : Private) : Private :=
  mkPrivate (_mode st) (_mainDcId st) (_mainDcIdForced st) v
    (_dcentersToDestroy st) (_mainSession st) (_sessions st)
    (_sessionsToDestroy st) (_configLoader st) (_cdnConfigLoadRequestId st)
    (_lastConfigLoadedTime st) (_configExpiresAt st) (_keysForWrite st)
    (_requestsByDc st) (_authExportRequests st) (_parserMap st)
    (_requestMap st) (_delayedRequests st) (_requestsDelays st)
    (_badGuestDcRequests st) (_authWaiters st) (_globalHandler_onFail st)
    (GlobalAtomicRequestId st) (sessionExists st) (clock st) (ticks st)
    (nextPtr st) (liveConfigLoaders st) (liveCdnConfigRequests st) (trace st).

Definition set_dcentersToDestroy (v : list Dcenter) (st : Private) : Private :=
  mkPrivate (_mode st) (_mainDcId st) (_mainDcIdForced st) (_dcenters st) v
    (_mainSession st) (_sessions st) (_sessionsToDestroy st)
    (_configLoader st) (_cdnConfigLoadRequestId st) (_lastConfigLoadedTime st)
    (_configExpiresAt st) (_keysForWrite st) (_requestsByDc st)
    (_authExportRequests st) (_parserMap st) (_requestMap st)
    (_delayedRequests st) (_requestsDelays st) (_badGuestDcRequests st)
    (_authWaiters st) (_globalHandler_onFail st) (GlobalAtomicRequestId st)
    (sessionExists st) (clock st) (ticks st) (nextPtr st)
    (liveConfigLoaders st) (liveCdnConfigRequests st) (trace st).

Definition set_mainSession (v : option Session) (st : Private) : Private :=
  mkPrivate (_mode st) (_mainDcId st) (_mainDcIdForced st) (_dcenters st)
    (_dcentersToDestroy st) v (_sessions st) (_sessionsToDestroy st)
    (_configLoader st) (_cdnConfigLoadRequestId st) (_lastConfigLoadedTime st)
    (_configExpiresAt st) (_keysForWrite st) (_requestsByDc st)
    (_authExportRequests st) (_parserMap st) (_requestMap st)
    (_delayedRequests st) (_requestsDelays st) (_badGuestDcRequests st)
    (_authWaiters st) (_globalHandler_onFail st) (GlobalAtomicRequestId st)
    (sessionExists st) (clock st) (ticks st) (nextPtr st)
    (liveConfigLoaders st) (liveCdnConfigRequests st) (trace st).

Definition set_sessions (v : gmap Z Session) (st : Private) : Private :=
  mkPrivate (_mode st) (_mainDcId st) (_mainDcIdForced st) (_dcenters st)
    (_dcentersToDestroy st) (_mainSession st) v (_sessionsToDestroy st)
    (_configLoader st) (_cdnConfigLoadRequestId st) (_lastConfigLoadedTime st)
    (_configExpiresAt st) (_keysForWrite st) (_requestsByDc st)
    (_authExportRequests st) (_parserMap st) (_requestMap st)
    (_delayedRequests st) (_requestsDelays st) (_badGuestDcRequests st)
    (_authWaiters st) (_globalHandler_onFail st) (GlobalAtomicRequestId st)
    (sessionExists st) (clock st) (ticks st) (nextPtr st)
    (liveConfigLoaders st) (liveCdnConfigRequests st) (trace st).

Definition set_sessionsToDestroy (v : list Session) (st : Private) : Private :=
  mkPrivate (_mode st) (_mainDcId st) (_mainDcIdForced st) (_dcenters st)
    (_dcentersToDestroy st) (_mainSession st) (_sessions st) v
    (_configLoader st) (_cdnConfigLoadRequestId st) (_lastConfigLoadedTime st)
    (_configExpiresAt st) (_keysForWrite st) (_requestsByDc st)
    (_authExportRequests st) (_parserMap st) (_requestMap st)
    (_delayedRequests st) (_requestsDelays st) (_badGuestDcRequests st)
    (_authWaiters st) (_globalHandler_onFail st) (GlobalAtomicRequestId st)
    (sessionExists st) (clock st) (ticks st) (nextPtr st)
    (liveConfigLoaders st) (liveCdnConfigRequests st) (trace st).

Definition set_configLoader (v : option nat) (st : Private) : Private :=
  mkPrivate (_mode st) (_mainDcId st) (_mainDcIdForced st) (_dcenters st)
    (_dcentersToDestroy st) (_mainSession st) (_sessions st)
    (_sessionsToDestroy st) v (_cdnConfigLoadRequestId st)
    (_lastConfigLoadedTime st) (_configExpiresAt st) (_keysForWrite st)
    (_requestsByDc st) (_authExportRequests st) (_parserMap st)
    (_requestMap st) (_delayedRequests st) (_requestsDelays st)
    (_badGuestDcRequests st) (_authWaiters st) (_globalHandler_onFail st)
    (GlobalAtomicRequestId st) (sessionExists st) (clock st) (ticks st)
    (nextPtr st) (liveConfigLoaders st) (liveCdnConfigRequests st) (trace st).

Definition set_cdnConfigLoadRequestId (v : Z) (st : Private) : Private :=
  mkPrivate (_mode st) (_mainDcId st) (_mainDcIdForced st) (_dcenters st)
    (_dcentersToDestroy st) (_mainSession st) (_sessions st)
    (_sessionsToDestroy st) (_configLoader st) v (_lastConfigLoadedTime st)
    (_configExpiresAt st) (_keysForWrite st) (_requestsByDc st)
    (_authExportRequests st) (_parserMap st) (_requestMap st)
    (_delayedRequests st) (_requestsDelays st) (_badGuestDcRequests st)
    (_authWaiters st) (_globalHandler_onFail st) (GlobalAtomicRequestId st)
    (sessionExists st) (clock st) (ticks st) (nextPtr st)
    (liveConfigLoaders st) (liveCdnConfigRequests st) (trace st).

Definition set_lastConfigLoadedTime (v : Z) (st : Private) : Private :=
  mkPrivate (_mode st) (_mainDcId st) (_mainDcIdForced st) (_dcenters st)
    (_dcentersToDestroy st) (_mainSession st) (_sessions st)
    (_sessionsToDestroy st) (_configLoader st) (_cdnConfigLoadRequestId st) v
    (_configExpiresAt st) (_keysForWrite st) (_requestsByDc st)
    (_authExportRequests st) (_parserMap st) (_requestMap st)
    (_delayedRequests st) (_requestsDelays st) (_badGuestDcRequests st)
    (_authWaiters st) (_globalHandler_onFail st) (GlobalAtomicRequestId st)
    (sessionExists st) (clock st) (ticks st) (nextPtr st)
    (liveConfigLoaders st) (liveCdnConfigRequests st) (trace st).

Definition set_configExpiresAt (v : Z) (st : Private) : Private :=
  mkPrivate (_mode st) (_mainDcId st) (_mainDcIdForced st) (_dcenters st)
    (_dcentersToDestroy st) (_mainSession st) (_sessions st)
    (_sessionsToDestroy st) (_configLoader st) (_cdnConfigLoadRequestId st)
    (_lastConfigLoadedTime st) v (_keysForWrite st) (_requestsByDc st)
    (_authExportRequests st) (_parserMap st) (_requestMap st)
    (_delayedRequests st) (_requestsDelays st) (_badGuestDcRequests st)
    (_authWaiters st) (_globalHandler_onFail st) (GlobalAtomicRequestId st)
    (sessionExists st) (clock st) (ticks st) (nextPtr st)
    (liveConfigLoaders st) (liveCdnConfigRequests st) (trace st).

Definition set_keysForWrite (v : gmap Z AuthKey) (st : Private) : Private :=
  mkPrivate (_mode st) (_mainDcId st) (_mainDcIdForced st) (_dcenters st)
    (_dcentersToDestroy st) (_mainSession st) (_sessions st)
    (_sessionsToDestroy st) (_configLoader st) (_cdnConfigLoadRequestId st)
    (_lastConfigLoadedTime st) (_configExpiresAt st) v (_requestsByDc st)
    (_authExportRequests st) (_parserMap st) (_requestMap st)
    (_delayedRequests st) (_requestsDelays st) (_badGuestDcRequests st)
    (_authWaiters st) (_globalHandler_onFail st) (GlobalAtomicRequestId st)
    (sessionExists st) (clock st) (ticks st) (nextPtr st)
    (liveConfigLoaders st) (liveCdnConfigRequests st) (trace st).

Definition set_requestsByDc (v : gmap Z Z) (st : Private) : Private :=
  mkPrivate (_mode st) (_mainDcId st) (_mainDcIdForced st) (_dcenters st)
    (_dcentersToDestroy st) (_mainSession st) (_sessions st)
    (_sessionsToDestroy st) (_configLoader st) (_cdnConfigLoadRequestId st)
    (_lastConfigLoadedTime st) (_configExpiresAt st) (_keysForWrite st) v
    (_authExportRequests st) (_parserMap st) (_requestMap st)
    (_delayedRequests st) (_requestsDelays st) (_badGuestDcRequests st)
    (_authWaiters st) (_globalHandler_onFail st) (GlobalAtomicRequestId st)
    (sessionExists st) (clock st) (ticks st) (nextPtr st)
    (liveConfigLoaders st) (liveCdnConfigRequests st) (trace st).

Definition set_authExportRequests (v : gmap Z Z) (st : Private) : Private :=
  mkPrivate (_mode st) (_mainDcId st) (_mainDcIdForced st) (_dcenters st)
    (_dcentersToDestroy st) (_mainSession st) (_sessions st)
    (_sessionsToDestroy st) (_configLoader st) (_cdnConfigLoadRequestId st)
    (_lastConfigLoadedTime st) (_configExpiresAt st) (_keysForWrite st)
    (_requestsByDc st) v (_parserMap st) (_requestMap st)
    (_delayedRequests st) (_requestsDelays st) (_badGuestDcRequests st)
    (_authWaiters st) (_globalHandler_onFail st) (GlobalAtomicRequestId st)
    (sessionExists st) (clock st) (ticks st) (nextPtr st)
    (liveConfigLoaders st) (liveCdnConfigRequests st) (trace st).

Definition set_parserMap (v : gmap Z RPCResponseHandler) (st : Private) : Private :=
  mkPrivate (_mode st) (_mainDcId st) (_mainDcIdForced st) (_dcenters st)
    (_dcentersToDestroy st) (_mainSession st) (_sessions st)
    (_sessionsToDestroy st) (_configLoader st) (_cdnConfigLoadRequestId st)
    (_lastConfigLoadedTime st) (_configExpiresAt st) (_keysForWrite st)
    (_requestsByDc st) (_authExportRequests st) v (_requestMap st)
    (_delayedRequests st) (_requestsDelays st) (_badGuestDcRequests st)
    (_authWaiters st) (_globalHandler_onFail st) (GlobalAtomicRequestId st)
    (sessionExists st) (clock st) (ticks st) (nextPtr st)
    (liveConfigLoaders st) (liveCdnConfigRequests st) (trace st).

Definition set_requestMap (v : gmap Z SerializedRequest) (st : Private) : Private :=
  mkPrivate (_mode st) (_mainDcId st) (_mainDcIdForced st) (_dcenters st)
    (_dcentersToDestroy st) (_mainSession st) (_sessions st)
    (_sessionsToDestroy st) (_configLoader st) (_cdnConfigLoadRequestId st)
    (_lastConfigLoadedTime st) (_configExpiresAt st) (_keysForWrite st)
    (_requestsByDc st) (_authExportRequests st) (_parserMap st) v
    (_delayedRequests st) (_requestsDelays st) (_badGuestDcRequests st)
    (_authWaiters st) (_globalHandler_onFail st) (GlobalAtomicRequestId st)
    (sessionExists st) (clock st) (ticks st) (nextPtr st)
    (liveConfigLoaders st) (liveCdnConfigRequests st) (trace st).

Definition set_delayedRequests (v : list (Z * Z)) (st : Private) : Private :=
  mkPrivate (_mode st) (_mainDcId st) (_mainDcIdForced st) (_dcenters st)
    (_dcentersToDestroy st) (_mainSession st) (_sessions st)
    (_sessionsToDestroy st) (_configLoader st) (_cdnConfigLoadRequestId st)
    (_lastConfigLoadedTime st) (_configExpiresAt st) (_keysForWrite st)
    (_requestsByDc st) (_authExportRequests st) (_parserMap st)
    (_requestMap st) v (_requestsDelays st) (_badGuestDcRequests st)
    (_authWaiters st) (_globalHandler_onFail st) (GlobalAtomicRequestId st)
    (sessionExists st) (clock st) (ticks st) (nextPtr st)
    (liveConfigLoaders st) (liveCdnConfigRequests st) (trace st).

Definition set_requestsDelays (v : gmap Z Z) (st : Private) : Private :=
  mkPrivate (_mode st) (_mainDcId st) (_mainDcIdForced st) (_dcenters st)
    (_dcentersToDestroy st) (_mainSession st) (_sessions st)
    (_sessionsToDestroy st) (_configLoader st) (_cdnConfigLoadRequestId st)
    (_lastConfigLoadedTime st) (_configExpiresAt st) (_keysForWrite st)
    (_requestsByDc st) (_authExportRequests st) (_parserMap st)
    (_requestMap st) (_delayedRequests st) v (_badGuestDcRequests st)
    (_authWaiters st) (_globalHandler_onFail st) (GlobalAtomicRequestId st)
    (sessionExists st) (clock st) (ticks st) (nextPtr st)
    (liveConfigLoaders st) (liveCdnConfigRequests st) (trace st).

Definition set_badGuestDcRequests (v : gset Z) (st : Private) : Private :=
  mkPrivate (_mode st) (_mainDcId st) (_mainDcIdForced st) (_dcenters st)
    (_dcentersToDestroy st) (_mainSession st) (_sessions st)
    (_sessionsToDestroy st) (_configLoader st) (_cdnConfigLoadRequestId st)
    (_lastConfigLoadedTime st) (_configExpiresAt st) (_keysForWrite st)
    (_requestsByDc st) (_authExportRequests st) (_parserMap st)
    (_requestMap st) (_delayedRequests st) (_requestsDelays st) v
    (_authWaiters st) (_globalHandler_onFail st) (GlobalAtomicRequestId st)
    (sessionExists st) (clock st) (ticks st) (nextPtr st)
    (liveConfigLoaders st) (liveCdnConfigRequests st) (trace st).

Definition set_authWaiters (v : gmap Z (list Z)) (st : Private) : Private :=
  mkPrivate (_mode st) (_mainDcId st) (_mainDcIdForced st) (_dcenters st)
    (_dcentersToDestroy st) (_mainSession st) (_sessions st)
    (_sessionsToDestroy st) (_configLoader st) (_cdnConfigLoadRequestId st)
    (_lastConfigLoadedTime st) (_configExpiresAt st) (_keysForWrite st)
    (_requestsByDc st) (_authExportRequests st) (_parserMap st)
    (_requestMap st) (_delayedRequests st) (_requestsDelays st)
    (_badGuestDcRequests st) v (_globalHandler_onFail st)
    (GlobalAtomicRequestId st) (sessionExists st) (clock st) (ticks st)
    (nextPtr st) (liveConfigLoaders st) (liveCdnConfigRequests st) (trace st).

Definition set_GlobalAtomicRequestId (v : Z) (st : Private) : Private :=
  mkPrivate (_mode st) (_mainDcId st) (_mainDcIdForced st) (_dcenters st)
    (_dcentersToDestroy st) (_mainSession st) (_sessions st)
    (_sessionsToDestroy st) (_configLoader st) (_cdnConfigLoadRequestId st)
    (_lastConfigLoadedTime st) (_configExpiresAt st) (_keysForWrite st)
    (_requestsByDc st) (_authExportRequests st) (_parserMap st)
    (_requestMap st) (_delayedRequests st) (_requestsDelays st)
    (_badGuestDcRequests st) (_authWaiters st) (_globalHandler_onFail st) v
    (sessionExists st) (clock st) (ticks st) (nextPtr st)
    (liveConfigLoaders st) (liveCdnConfigRequests st) (trace st).

Definition set_ticks (v : nat) (st : Private) : Private :=
  mkPrivate (_mode st) (_mainDcId st) (_mainDcIdForced st) (_dcenters st)
    (_dcentersToDestroy st) (_mainSession st) (_sessions st)
    (_sessionsToDestroy st) (_configLoader st) (_cdnConfigLoadRequestId st)
    (_lastConfigLoadedTime st) (_configExpiresAt st) (_keysForWrite st)
    (_requestsByDc st) (_authExportRequests st) (_parserMap st)
    (_requestMap st) (_delayedRequests st) (_requestsDelays st)
    (_badGuestDcRequests st) (_authWaiters st) (_globalHandler_onFail st)
    (GlobalAtomicRequestId st) (sessionExists st) (clock st) v (nextPtr st)
    (liveConfigLoaders st) (liveCdnConfigRequests st) (trace st).

Definition set_nextPtr (v : nat) (st : Private) : Private :=
  mkPrivate (_mode st) (_mainDcId st) (_mainDcIdForced st) (_dcenters st)
    (_dcentersToDestroy st) (_mainSession st) (_sessions st)
    (_sessionsToDestroy st) (_configLoader st) (_cdnConfigLoadRequestId st)
    (_lastConfigLoadedTime st) (_configExpiresAt st) (_keysForWrite st)
    (_requestsByDc st) (_authExportRequests st) (_parserMap st)
    (_requestMap st) (_delayedRequests st) (_requestsDelays st)
    (_badGuestDcRequests st) (_authWaiters st) (_globalHandler_onFail st)
    (GlobalAtomicRequestId st) (sessionExists st) (clock st) (ticks st) v
    (liveConfigLoaders st) (liveCdnConfigRequests st) (trace st).

Definition set_liveConfigLoaders (v : nat) (st : Private) : Private :=
  mkPrivate (_mode st) (_mainDcId st) (_mainDcIdForced st) (_dcenters st)
    (_dcentersToDestroy st) (_mainSession st) (_sessions st)
    (_sessionsToDestroy st) (_configLoader st) (_cdnConfigLoadRequestId st)
    (_lastConfigLoadedTime st) (_configExpiresAt st) (_keysForWrite st)
    (_requestsByDc st) (_authExportRequests st) (_parserMap st)
    (_requestMap st) (_delayedRequests st) (_requestsDelays st)
    (_badGuestDcRequests st) (_authWaiters st) (_globalHandler_onFail st)
    (GlobalAtomicRequestId st) (sessionExists st) (clock st) (ticks st)
    (nextPtr st) v (liveCdnConfigRequests st) (trace st).

Definition set_liveCdnConfigRequests (v : nat) (st : Private) : Private :=
  mkPrivate (_mode st) (_mainDcId st) (_mainDcIdForced st) (_dcenters st)
    (_dcentersToDestroy st) (_mainSession st) (_sessions st)
    (_sessionsToDestroy st) (_configLoader st) (_cdnConfigLoadRequestId st)
    (_lastConfigLoadedTime st) (_configExpiresAt st) (_keysForWrite st)
    (_requestsByDc st) (_authExportRequests st) (_parserMap st)
    (_requestMap st) (_delayedRequests st) (_requestsDelays st)
    (_badGuestDcRequests st) (_authWaiters st) (_globalHandler_onFail st)
    (GlobalAtomicRequestId st) (sessionExists st) (clock st) (ticks st)
    (nextPtr st) (liveConfigLoaders st) v (trace st).

Definition set_trace (v : list Event) (st : Private) : Private :=
  mkPrivate (_mode st) (_mainDcId st) (_mainDcIdForced st) (_dcenters st)
    (_dcentersToDestroy st) (_mainSession st) (_sessions st)
    (_sessionsToDestroy st) (_configLoader st) (_cdnConfigLoadRequestId st)
    (_lastConfigLoadedTime st) (_configExpiresAt st) (_keysForWrite st)
    (_requestsByDc st) (_authExportRequests st) (_parserMap st)
    (_requestMap st) (_delayedRequests st) (_requestsDelays st)
    (_badGuestDcRequests st) (_authWaiters st) (_globalHandler_onFail st)
    (GlobalAtomicRequestId st) (sessionExists st) (clock st) (ticks st)
    (nextPtr st) (liveConfigLoaders st) (liveCdnConfigRequests st) v.
(** ** State passing, with a failed [Assert] or [Expects] as [None] *)

Definition M (A : Type) : Type := Private -> option (A * Private).

Definition ret {A : Type} (a : A) : M A := fun st => Some (a, st).

Definition bind {A B : Type} (m : M A) (k : A -> M B) : M B :=
  fun st => match m st with
            | Some (a, st') => k a st'
            | None => None
            end.

Notation "x <- m ;; k" := (bind m (fun x => k))
  (at level 100, m at next level, right associativity).
Notation "m ;; k" := (bind m (fun _ => k))
  (at level 100, right associativity).

Definition failed {A : Type} : M A := fun _ => None.

Definition gets {A : Type} (f : Private -> A) : M A := fun st => Some (f st, st).

Definition modify (f : Private -> Private) : M unit := fun st => Some (tt, f st).

Definition emit (e : Event) : M unit :=
  modify (fun st => set_trace (trace st ++ [e]) st).

(** [Assert(b)], [Expects(b)]. *)
Definition Assert (b : bool) : M unit := if b then ret tt else failed.

Definition when (b : bool) (m : M unit) : M unit := if b then m else ret tt.

(** A pointer, a handler or an iterator that is not null (not [end()]). *)
Definition notNull {A : Type} (o : option A) : bool :=
  match o with Some _ => true | None => false end.

(** [crl::now()]. *)
Definition crl_now : M Z :=
  fun st => Some (clock st (ticks st), set_ticks (S (ticks st)) st).

(** [std::map::emplace]: the value is stored only under a key not yet
    present. *)
Definition emplace {V : Type} (k : Z) (v : V) (m : gmap Z V) : gmap Z V :=
  match m !! k with
  | Some _ => m
  | None => <[k := v]> m
  end.

(** ** Collaborators declared outside this file

    The layout of a shifted DC id ([BareDcId], [ShiftDcId], [GetDcIdShift],
    [destroyKeyNextDcId], the temporary ids), the [Config] constants, the DC
    address book's CDN test, the error predicate, the codec, what a closure
    returns when it is called, a locally built error, and the [needsLayer]
    flag the facade's [send] passes on. *)
Class Collaborators := {
  BareDcId : Z -> Z;
  ShiftDcId : Z -> Z -> Z;
  GetDcIdShift : Z -> Z;
  destroyKeyNextDcId : Z -> Z;
  isTemporaryDcId : Z -> bool;
  getRealIdFromTemporaryDcId : Z -> Z;
  kNoneMainDc : Z;
  kNotSetMainDc : Z;
  dcTypeIsCdn : Z -> bool;
  isDefaultHandledError : RPCError -> bool;
  Serialize : MTPMethod -> list Byte.byte;
  doneResult : Callback -> Z -> list Z -> bool;
  failResult : Callback -> Z -> RPCError -> bool;
  RPCError_Local : string -> RPCError;
  sendNeedsLayer : bool
}.

Section Instance.

Context `{collab : Collaborators}.

Definition isKeysDestroyer : M bool :=
  gets (fun st => match _mode st with KeysDestroyer => true | Normal => false end).

(** ** 4.B Request table *)

Definition queryRequestByDc (requestId : Z) : M (option Z) :=
  gets (fun st => _requestsByDc st !! requestId).

Definition changeRequestByDc (requestId newdc : Z) : M (option Z) :=
  it <- gets (fun st => _requestsByDc st !! requestId);;
  match it with
  | Some second =>
      let second' :=
        if second <? 0 then - newdc
        else ShiftDcId newdc (GetDcIdShift second) in
      modify (fun st => set_requestsByDc (<[requestId := second']> (_requestsByDc st)) st);;
      ret (Some second')
  | None => ret None
  end.

Definition registerRequest (requestId shiftedDcId : Z) : M unit :=
  modify (fun st => set_requestsByDc (<[requestId := shiftedDcId]> (_requestsByDc st)) st).

Definition unregisterRequest (requestId : Z) : M unit :=
  modify (fun st => set_requestsDelays (delete requestId (_requestsDelays st)) st);;
  modify (fun st => set_requestMap (delete requestId (_requestMap st)) st);;
  modify (fun st => set_requestsByDc (delete requestId (_requestsByDc st)) st).

Definition storeRequest (requestId : Z) (request : SerializedRequest)
    (callbacks : RPCResponseHandler) : M unit :=
  when (notNull (onDone callbacks) || notNull (onFail callbacks))
    (modify (fun st => set_parserMap (emplace requestId callbacks (_parserMap st)) st));;
  modify (fun st => set_requestMap (emplace requestId request (_requestMap st)) st).

Definition getRequest (requestId : Z) : M (option SerializedRequest) :=
  gets (fun st => _requestMap st !! requestId).

(** ** 4.D DC registry *)

Definition findDc (shiftedDcId : Z) : M (option Dcenter) :=
  gets (fun st => _dcenters st !! shiftedDcId).

Definition addDc (shiftedDcId : Z) (key : AuthKeyPtr) : M Dcenter :=
  let dcId := BareDcId shiftedDcId in
  modify (fun st => set_dcenters (emplace shiftedDcId (mkDcenter dcId key) (_dcenters st)) st);;
  found <- findDc shiftedDcId;;
  match found with
  | Some dc => ret dc
  | None => failed
  end.

Definition removeDc (shiftedDcId : Z) : M unit :=
  i <- findDc shiftedDcId;;
  match i with
  | Some dc =>
      modify (fun st => set_dcentersToDestroy (_dcentersToDestroy st ++ [dc]) st);;
      modify (fun st => set_dcenters (delete shiftedDcId (_dcenters st)) st)
  | None => ret tt
  end.

Definition getDcById (shiftedDcId : Z) : M Dcenter :=
  result <- findDc shiftedDcId;;
  match result with
  | Some dc => ret dc
  | None =>
      let result := BareDcId shiftedDcId in
      let dcId :=
        if isTemporaryDcId result
        then let realDcId := getRealIdFromTemporaryDcId result in
             if realDcId =? 0 then result else realDcId
        else result in
      again <- (if dcId =? shiftedDcId then ret None else findDc dcId);;
      match again with
      | Some dc => ret dc
      | None => addDc dcId None
      end
  end.

(** ** 4.E Session registry, and the facade's [send] *)

Definition findSession (shiftedDcId : Z) : M (option Session) :=
  gets (fun st => _sessions st !! shiftedDcId).

(** The main session, asserted present. *)
Definition mainSessionAsserted : M Session :=
  main <- gets _mainSession;;
  match main with
  | Some session => ret session
  | None => failed
  end.

(** [getSession] starts a session, a started session of the key destroyer
    sends a request, and sending asks [getSession] for the session again:
    the functions between are written over that last [getSession]. *)
Section OverGetSession.

Variable getSession : Z -> M Session.

Definition sendRequest_over (requestId : Z) (request : SerializedRequest)
    (callbacks : RPCResponseHandler) (shiftedDcId msCanWait : Z)
    (needsLayer : bool) (afterRequestId : Z) : M unit :=
  session <- getSession shiftedDcId;;
  let request1 :=
    mkRequest (req_data request) requestId (req_needsLayer request)
      (req_after request) (req_lastSentTime request) in
  stored <- gets (fun st => negb (notNull (_requestMap st !! requestId)));;
  storeRequest requestId request1 callbacks;;
  let toMainDc := shiftedDcId =? 0 in
  let realShiftedDcId := getDcWithShift session in
  let signedDcId := if toMainDc then - realShiftedDcId else realShiftedDcId in
  registerRequest requestId signedDcId;;
  after <- (if afterRequestId =? 0 then ret (req_after request1)
            else found <- getRequest afterRequestId;;
                 ret (option_map req_requestId found));;
  now <- crl_now;;
  let request2 := mkRequest (req_data request) requestId needsLayer after now in
  (* [request] is the object just stored, unless the id was taken. *)
  when stored
    (modify (fun st => set_requestMap (<[requestId := request2]> (_requestMap st)) st));;
  emit (SessionSendPrepared session request2 msCanWait).

(** Modelled from the spec: [Instance::send] of mtp_instance.h (4.J: allocate
    an id, store payload and handlers, compute the routing, hand the payload
    to the session, return the id), over [sendRequest] of this file. *)
Definition send_over (data : list Byte.byte) (callbacks : RPCResponseHandler)
    (shiftedDcId msCanWait : Z) (needsLayer : bool) (afterRequestId : Z) : M Z :=
  counter <- gets GlobalAtomicRequestId;;
  let '(requestId, counter') := Allocator.GetNextRequestId counter in
  modify (set_GlobalAtomicRequestId counter');;
  sendRequest_over requestId (mkRequest data 0 false None 0) callbacks
    shiftedDcId msCanWait needsLayer afterRequestId;;
  ret requestId.

Definition performKeyDestroy_over (shiftedDcId : Z) : M unit :=
  destroyer <- isKeysDestroyer;;
  Assert destroyer;;
  send_over (Serialize MTPDestroy_auth_key)
    (mkHandler (Some (DestroyCallback shiftedDcId)) (Some (DestroyCallback shiftedDcId)))
    shiftedDcId 0 sendNeedsLayer 0;;
  ret tt.

Definition scheduleKeyDestroy_over (shiftedDcId : Z) : M unit :=
  destroyer <- isKeysDestroyer;;
  Assert destroyer;;
  if dcTypeIsCdn shiftedDcId
  then performKeyDestroy_over shiftedDcId
  else
    send_over (Serialize MTPauth_LogOut)
      (mkHandler (Some (LogoutCallback shiftedDcId)) (Some (LogoutCallback shiftedDcId)))
      shiftedDcId 0 sendNeedsLayer 0;;
    ret tt.

Definition startSession_over (shiftedDcId : Z) : M Session :=
  Assert (negb (BareDcId shiftedDcId =? 0));;
  getDcById shiftedDcId;;
  present <- findSession shiftedDcId;;
  result <- match present with
            | Some session => ret session
            | None =>
                ptr <- gets nextPtr;;
                let session := mkSession ptr shiftedDcId in
                modify (set_nextPtr (S ptr));;
                modify (fun st => set_sessions (<[shiftedDcId := session]> (_sessions st)) st);;
                ret session
            end;;
  emit (SessionStart result);;
  destroyer <- isKeysDestroyer;;
  when destroyer (scheduleKeyDestroy_over shiftedDcId);;
  ret result.

End OverGetSession.

(** [getSession], with the depth of the calls back into itself as fuel:
    with none left it still finds a session that is there. *)
Fixpoint getSession_fuel (fuel : nat) (shiftedDcId : Z) : M Session :=
  if shiftedDcId =? 0 then mainSessionAsserted
  else
    shiftedDcId' <- (if BareDcId shiftedDcId =? 0
                     then main <- mainSessionAsserted;;
                          ret (shiftedDcId + BareDcId (getDcWithShift main))
                     else ret shiftedDcId);;
    found <- findSession shiftedDcId';;
    match found with
    | Some session => ret session
    | None =>
        match fuel with
        | O => failed
        | S fuel' => startSession_over (getSession_fuel fuel') shiftedDcId'
        end
    end.

(** One level is enough: the session a started session asks for is the one
    just stored ([getSession_fuel_enough] below). *)
Definition getSession : Z -> M Session := getSession_fuel 1.

Definition sendRequest := sendRequest_over getSession.
Definition send := send_over getSession.
Definition performKeyDestroy := performKeyDestroy_over getSession.
Definition scheduleKeyDestroy := scheduleKeyDestroy_over getSession.
Definition startSession := startSession_over getSession.

Definition removeSession (shiftedDcId : Z) : M (option Session) :=
  i <- findSession shiftedDcId;;
  match i with
  | None => ret None
  | Some session =>
      emit (SessionKill session);;
      modify (fun st => set_sessionsToDestroy (_sessionsToDestroy st ++ [session]) st);;
      modify (fun st => set_sessions (delete shiftedDcId (_sessions st)) st);;
      ret (Some session)
  end.

(** [removed == _mainSession] on the two pointers. *)
Definition isSession (removed : Session) (main : option Session) : bool :=
  match main with
  | Some session => Nat.eqb (sess_ptr removed) (sess_ptr session)
  | None => false
  end.

Definition checkIfMainAndKill (shiftedDcId : Z) : M bool :=
  removed <- removeSession shiftedDcId;;
  match removed with
  | Some session => main <- gets _mainSession;; ret (isSession session main)
  | None => ret false
  end.

Definition killSession (shiftedDcId : Z) : M unit :=
  wasMain <- checkIfMainAndKill shiftedDcId;;
  when wasMain
    (mainDcId <- gets _mainDcId;;
     checkIfMainAndKill mainDcId;;
     session <- startSession mainDcId;;
     modify (set_mainSession (Some session)));;
  emit InvokeQueuedClearSessions.

Definition setMainDcId (mainDcId : Z) : M unit :=
  main <- gets _mainSession;;
  match main with
  | None => ret tt
  | Some session =>
      modify (set_mainDcIdForced true);;
      let oldMainDcId := getDcWithShift session in
      modify (set_mainDcId mainDcId);;
      when (negb (oldMainDcId =? mainDcId)) (killSession oldMainDcId);;
      emit WriteMtpData
  end.

Definition mainDcId : M Z :=
  main <- gets _mainDcId;;
  Assert (negb (main =? kNoneMainDc));;
  ret main.

Definition hasAuthorization : M bool := gets sessionExists.

(** ** 4.F Delayed scheduler *)

(** The body of the loop of [checkDelayedRequests] for the entry popped. *)
Definition resendDelayed (requestId : Z) : M unit :=
  shiftedDcId <- queryRequestByDc requestId;;
  match shiftedDcId with
  | None => ret tt
  | Some dcWithShift =>
      it <- gets (fun st => _requestMap st !! requestId);;
      match it with
      | None => ret tt
      | Some request =>
          session <- getSession (Z.abs dcWithShift);;
          emit (SessionSendPrepared session request 0)
      end
  end.

(** The loop of [checkDelayedRequests] over the queue as it stands when the
    loop is entered; the body leaves the queue alone. *)
Fixpoint drainDelayed (now : Z) (queue : list (Z * Z)) : M unit :=
  match queue with
  | [] => ret tt
  | (requestId, due) :: rest =>
      if now >=? due
      then modify (set_delayedRequests rest);;
           resendDelayed requestId;;
           drainDelayed now rest
      else ret tt
  end.

Definition checkDelayedRequests : M unit :=
  now <- crl_now;;
  queue <- gets _delayedRequests;;
  drainDelayed now queue;;
  left <- gets _delayedRequests;;
  match left with
  | [] => ret tt
  | (_, due) :: _ => emit (TimerCallOnce (due - now))
  end.

(** The loop of [onErrorDefault] that looks for the place of a new entry:
    [None] when it meets [requestId] first (the function returns there),
    else the queue with the entry put before the first one due later. *)
Fixpoint insertDelayed (requestId sendAt : Z) (queue : list (Z * Z))
    : option (list (Z * Z)) :=
  match queue with
  | [] => Some [(requestId, sendAt)]
  | (first, second) :: rest =>
      if first =? requestId then None
      else if second >? sendAt then Some ((requestId, sendAt) :: queue)
      else option_map (cons (first, second)) (insertDelayed requestId sendAt rest)
  end.

(** The loop of the [MSG_WAIT_FAILED] branch: [None] when it meets
    [requestId] first, else the queue with [requestId] put before the entry
    of the request it depends on, with that entry's time (unchanged when
    there is no such entry). *)
Fixpoint insertBeforeAfter (requestId afterRequestId : Z) (queue : list (Z * Z))
    : option (list (Z * Z)) :=
  match queue with
  | [] => Some []
  | (first, second) :: rest =>
      if first =? requestId then None
      else if first =? afterRequestId then Some ((requestId, second) :: queue)
      else option_map (cons (first, second)) (insertBeforeAfter requestId afterRequestId rest)
  end.

(** ** 4.G Error policy engine *)

(** [auto &waiters(_authWaiters[newdc])]: [operator[]] makes an empty entry
    when there is none. *)
Definition authWaitersRef (newdc : Z) : M (list Z) :=
  modify (fun st => set_authWaiters (emplace newdc [] (_authWaiters st)) st);;
  gets (fun st => default [] (_authWaiters st !! newdc)).

Definition pushWaiter (newdc requestId : Z) : M unit :=
  modify (fun st => set_authWaiters
    (<[newdc := default [] (_authWaiters st !! newdc) ++ [requestId]]> (_authWaiters st)) st).

(** The [_MIGRATE_] branch; [newdc] is [m.captured(2).toInt()]. *)
Definition onErrorDefault_migrate (requestId newdc : Z) : M bool :=
  if requestId =? 0 then ret false
  else
    shiftedDcId <- queryRequestByDc requestId;;
    let dcWithShift := default 0 shiftedDcId in
    if (dcWithShift =? 0) || (newdc =? 0) then ret false
    else
      newdcWithShift <- (if dcWithShift <? 0
                         then setMainDcId newdc;; ret newdc
                         else ret (ShiftDcId newdc (GetDcIdShift dcWithShift)));;
      it <- gets (fun st => _requestMap st !! requestId);;
      match it with
      | None => ret false
      | Some request =>
          session <- getSession newdcWithShift;;
          registerRequest requestId
            (if dcWithShift <? 0 then - newdcWithShift else newdcWithShift);;
          emit (SessionSendPrepared session request 0);;
          ret true
      end.

(** [secs] of the transient branch when [code < 0 || code >= 500]. *)
Definition nextRequestDelay (requestId : Z) : M Z :=
  it <- gets (fun st => _requestsDelays st !! requestId);;
  match it with
  | Some second =>
      if second >? 60 then ret second
      else
        let doubled := wrap32 (second * 2) in
        modify (fun st => set_requestsDelays (<[requestId := doubled]> (_requestsDelays st)) st);;
        ret doubled
  | None =>
      modify (fun st => set_requestsDelays (emplace requestId 1 (_requestsDelays st)) st);;
      ret 1
  end.

(** The branch taken when [code < 0 || code >= 500] or the type is
    [FLOOD_WAIT_(\d+)]; [flood] is the number captured by that pattern, read
    only when the code is neither. *)
Definition onErrorDefault_delay (requestId code : Z) (flood : option Z) : M bool :=
  if requestId =? 0 then ret false
  else
    secs <- (if (code <? 0) || (code >=? 500)
             then nextRequestDelay requestId
             else ret (default 1 flood));;
    now <- crl_now;;
    let sendAt := now + wrap32 (secs * 1000) + 10 in
    queue <- gets _delayedRequests;;
    match insertDelayed requestId sendAt queue with
    | None => ret true
    | Some queue' =>
        modify (set_delayedRequests queue');;
        checkDelayedRequests;;
        ret true
    end.

(** The branch of code 401 and of [FILE_ID_INVALID]. *)
Definition onErrorDefault_unauthorized (requestId : Z) (error : RPCError)
    (badGuestDc : bool) : M bool :=
  shiftedDcId <- queryRequestByDc requestId;;
  let dcWithShift := default 0 shiftedDcId in
  let newdc := BareDcId (Z.abs dcWithShift) in
  surface <- (if newdc =? 0 then ret true
              else main <- mainDcId;;
                   if newdc =? main then ret true
                   else authorized <- hasAuthorization;; ret (negb authorized));;
  if (surface : bool) then
    globalFail <- gets _globalHandler_onFail;;
    when (negb badGuestDc && globalFail) (emit (GlobalFailCalled requestId error));;
    ret false
  else
    waiters <- authWaitersRef newdc;;
    when (Nat.eqb (length waiters) 0)
      (exportRequestId <- send (Serialize (MTPauth_ExportAuthorization newdc))
                            (mkHandler (Some ExportCallback) (Some ExportCallback))
                            0 0 sendNeedsLayer 0;;
       modify (fun st => set_authExportRequests
         (emplace exportRequestId (Z.abs dcWithShift) (_authExportRequests st)) st));;
    pushWaiter newdc requestId;;
    when badGuestDc
      (modify (fun st => set_badGuestDcRequests ({[requestId]} ∪ _badGuestDcRequests st) st));;
    ret true.

(** [request->needsLayer = true] on the stored object. *)
Definition setNeedsLayer (request : SerializedRequest) : SerializedRequest :=
  mkRequest (req_data request) (req_requestId request) true
    (req_after request) (req_lastSentTime request).

(** [request->after = SerializedRequest()] on the stored object. *)
Definition clearAfter (request : SerializedRequest) : SerializedRequest :=
  mkRequest (req_data request) (req_requestId request) (req_needsLayer request)
    None (req_lastSentTime request).

Definition alterRequest (f : SerializedRequest -> SerializedRequest) (requestId : Z) : M unit :=
  modify (fun st => set_requestMap (alter f requestId (_requestMap st)) st).

(** The branch of [CONNECTION_NOT_INITED] and [CONNECTION_LAYER_INVALID]. *)
Definition onErrorDefault_layer (requestId : Z) : M bool :=
  it <- gets (fun st => _requestMap st !! requestId);;
  match it with
  | None => ret false
  | Some request =>
      shiftedDcId <- queryRequestByDc requestId;;
      let dcWithShift := default 0 shiftedDcId in
      if dcWithShift =? 0 then ret false
      else
        session <- getSession (Z.abs dcWithShift);;
        alterRequest setNeedsLayer requestId;;
        emit (SessionSendPrepared session (setNeedsLayer request) 0);;
        ret true
  end.

(** The branch of [MSG_WAIT_FAILED]. *)
Definition onErrorDefault_waitFailed (requestId : Z) : M bool :=
  it <- gets (fun st => _requestMap st !! requestId);;
  match it with
  | None => ret false
  | Some request =>
      match req_after request with
      | None => ret false
      | Some afterRequestId =>
          shiftedDcId <- queryRequestByDc requestId;;
          afterDcId <- (if notNull shiftedDcId then queryRequestByDc afterRequestId
                        else ret None);;
          let dcWithShift :=
            match shiftedDcId, afterDcId with
            | Some shifted, Some _ => shifted
            | _, _ => 0
            end in
          let dropped :=
            match shiftedDcId, afterDcId with
            | Some shifted, Some afterDc => negb (shifted =? afterDc)
            | _, _ => false
            end in
          when dropped (alterRequest clearAfter requestId);;
          if dcWithShift =? 0 then ret false
          else if dropped then
            session <- getSession (Z.abs dcWithShift);;
            alterRequest setNeedsLayer requestId;;
            emit (SessionSendPrepared session (setNeedsLayer (clearAfter request)) 0);;
            ret true
          else
            let newdc := BareDcId (Z.abs dcWithShift) in
            waiters <- authWaitersRef newdc;;
            if bool_decide (afterRequestId ∈ waiters) then
              when (negb (bool_decide (requestId ∈ waiters))) (pushWaiter newdc requestId);;
              modify (fun st =>
                if bool_decide (afterRequestId ∈ _badGuestDcRequests st)
                then set_badGuestDcRequests ({[requestId]} ∪ _badGuestDcRequests st) st
                else st);;
              ret true
            else
              queue <- gets _delayedRequests;;
              match insertBeforeAfter requestId afterRequestId queue with
              | None => ret true
              | Some queue' =>
                  modify (set_delayedRequests queue');;
                  checkDelayedRequests;;
                  ret true
              end
      end
  end.

Definition onErrorDefault (requestId : Z) (error : RPCError) : M bool :=
  let err := err_type error in
  let code := err_code error in
  let badGuestDc := (code =? 400) && String.eqb err "FILE_ID_INVALID" in
  let fallthrough :=
    when badGuestDc
      (modify (fun st => set_badGuestDcRequests (_badGuestDcRequests st ∖ {[requestId]}) st));;
    ret false in
  match match_migrate err with
  | Some newdc => onErrorDefault_migrate requestId newdc
  | None =>
      let flood := match_flood_wait err in
      if (code <? 0) || (code >=? 500) || notNull flood
      then onErrorDefault_delay requestId code flood
      else
        known <- gets (fun st => bool_decide (requestId ∈ _badGuestDcRequests st));;
        if ((code =? 401) && negb (String.eqb err "AUTH_KEY_PERM_EMPTY"))
           || (badGuestDc && negb known)
        then onErrorDefault_unauthorized requestId error badGuestDc
        else if String.eqb err "CONNECTION_NOT_INITED"
                || String.eqb err "CONNECTION_LAYER_INVALID"
        then onErrorDefault_layer requestId
        else if String.eqb err "CONNECTION_LANG_CODE_INVALID"
        then emit LangResetToDefault;; fallthrough
        else if String.eqb err "MSG_WAIT_FAILED"
        then onErrorDefault_waitFailed requestId
        else fallthrough
  end.

(** ** Handlers: [rpcErrorOccured], [clearCallbacks], [execCallback]

    A closure that is called is recorded in the trace; what it returns comes
    from the collaborators. *)

Definition callFail (requestId : Z) (onFail : option Callback) (err : RPCError) : M bool :=
  match onFail with
  | Some callback =>
      emit (FailCalled requestId callback err);;
      ret (failResult callback requestId err)
  | None => ret false
  end.

Definition rpcErrorOccured (requestId : Z) (onFail : option Callback) (err : RPCError)
    : M bool :=
  handled <- (if isDefaultHandledError err then callFail requestId onFail err
              else ret false);;
  if (handled : bool) then ret true
  else
    policy <- onErrorDefault requestId err;;
    if (policy : bool) then ret false
    else callFail requestId onFail err;; ret true.

Definition clearCallbacks (requestId errorCode : Z) : M unit :=
  it <- gets (fun st => _parserMap st !! requestId);;
  modify (fun st => set_parserMap (delete requestId (_parserMap st)) st);;
  match it with
  | Some h =>
      if errorCode =? 0 then ret tt
      else
        rpcErrorOccured requestId (onFail h) (RPCError_Local "CLEAR_CALLBACK");;
        ret tt
  | None => ret tt
  end.


(** ** 4.J Facade: [cancel] *)

Definition byteAt (data : list Byte.byte) (i : nat) : Z :=
  Z.of_N (Byte.to_N (nth i data Byte.x00)).

(** [*(mtpMsgId* )(constData() + 4)]: the 64-bit message id that starts at
    offset 4 of the buffer.  Modelled from the spec: the buffer type is
    declared outside this file; the spec's payload framing makes the offset
    a byte offset (bytes 4..12), read here in little-endian order. *)
Definition msgIdAt4 (data : list Byte.byte) : Z :=
  byteAt data 4 + 256 * (byteAt data 5 + 256 * (byteAt data 6 + 256 * (byteAt data 7
    + 256 * (byteAt data 8 + 256 * (byteAt data 9 + 256 * (byteAt data 10
    + 256 * byteAt data 11)))))).

Definition cancel (requestId : Z) : M unit :=
  if requestId =? 0 then ret tt
  else
    shiftedDcId <- queryRequestByDc requestId;;
    it <- gets (fun st => _requestMap st !! requestId);;
    let msgId := match it with
                 | Some request => msgIdAt4 (req_data request)
                 | None => 0
                 end in
    modify (fun st => set_requestMap (delete requestId (_requestMap st)) st);;
    unregisterRequest requestId;;
    match shiftedDcId with
    | Some shifted =>
        session <- getSession (Z.abs shifted);;
        emit (SessionCancel session requestId msgId)
    | None => ret tt
    end;;
    clearCallbacks requestId 0.

(** ** 4.C Key registry *)

Definition dcTemporaryKeyChanged (dcId : Z) : M unit :=
  emit (TemporaryKeyChangedFired dcId).

Definition dcPersistentKeyChanged (dcId : Z) (persistentKey : AuthKeyPtr) : M unit :=
  dcTemporaryKeyChanged dcId;;
  if isTemporaryDcId dcId then ret tt
  else
    i <- gets (fun st => _keysForWrite st !! dcId);;
    if notNull i && ptr_eqb i persistentKey then ret tt
    else if negb (notNull i) && negb (notNull persistentKey) then ret tt
    else
      match persistentKey with
      | None => modify (fun st => set_keysForWrite (delete dcId (_keysForWrite st)) st)
      | Some key => modify (fun st => set_keysForWrite (<[dcId := key]> (_keysForWrite st)) st)
      end;;
      emit WriteMtpData.

(** ** 4.H Config controller *)

(** Assignment to the [std::unique_ptr] [_configLoader] ([reset()] assigns
    null): the loader it held is destroyed. *)
Definition assignConfigLoader (loader : option nat) : M unit :=
  modify (fun st =>
    set_liveConfigLoaders
      (liveConfigLoaders st - (if notNull (_configLoader st) then 1 else 0))%nat
      (set_configLoader loader st)).

(** [std::make_unique<ConfigLoader>(...)]: a new loader, at a new address. *)
Definition makeConfigLoader : M nat :=
  ptr <- gets nextPtr;;
  modify (set_nextPtr (S ptr));;
  modify (fun st => set_liveConfigLoaders (S (liveConfigLoaders st)) st);;
  ret ptr.

Definition requestConfig : M unit :=
  loader <- gets _configLoader;;
  destroyer <- isKeysDestroyer;;
  if notNull loader || destroyer then ret tt
  else
    ptr <- makeConfigLoader;;
    assignConfigLoader (Some ptr);;
    emit ConfigLoaderLoad.

Definition requestConfigIfOld (blockedMode : bool) : M unit :=
  let timeout := if blockedMode then 8 * 1000 else 2 * 60 * 1000 in
  now <- crl_now;;
  last <- gets _lastConfigLoadedTime;;
  if now - last >=? timeout then requestConfig else ret tt.

Definition requestConfigIfExpired : M unit :=
  expires <- gets _configExpiresAt;;
  now <- crl_now;;
  let requestIn := expires - now in
  if requestIn >? 0
  then emit (CallDelayedRequestConfigIfExpired (Z.min requestIn (3600 * 1000)))
  else requestConfig.

(** [configLoadDone]: [emptyOptions] tells whether the DC list received is
    empty, [expiresIn] is [data.vexpires().v - base::unixtime::now()].  The
    writes to the global settings are left out. *)
Definition configLoadDone (emptyOptions : bool) (expiresIn : Z) : M unit :=
  assignConfigLoader None;;
  loaded <- crl_now;;
  modify (set_lastConfigLoadedTime loaded);;
  when (negb emptyOptions) (emit DcOptionsSetFromList);;
  emit ConfigUpdated;;
  emit WriteSettings;;
  now <- crl_now;;
  modify (set_configExpiresAt (now + expiresIn * 1000));;
  requestConfigIfExpired.

(** Modelled from the spec: the request builder of mtproto/sender.h used by
    [requestCDNConfig] sends through the facade's [send] to the main DC. *)
Definition requestCDNConfig : M unit :=
  pending <- gets _cdnConfigLoadRequestId;;
  main <- gets _mainDcId;;
  if negb (pending =? 0) || (main =? kNoneMainDc) then ret tt
  else
    requestId <- send (Serialize MTPhelp_GetCdnConfig)
                   (mkHandler (Some CdnConfigCallback) (Some CdnConfigCallback))
                   0 0 sendNeedsLayer 0;;
    modify (fun st => set_liveCdnConfigRequests (S (liveCdnConfigRequests st)) st);;
    modify (set_cdnConfigLoadRequestId requestId).

(** The [done] closure of [requestCDNConfig], run when the request that is
    in flight is answered. *)
Definition cdnConfigDone : M unit :=
  modify (fun st => set_liveCdnConfigRequests (liveCdnConfigRequests st - 1)%nat st);;
  modify (set_cdnConfigLoadRequestId 0);;
  emit SetCDNConfig;;
  emit WriteSettings.

(** ** 4.I Key destroyer mode, and [start] *)

(** The loop that looks for a shifted DC id with no key yet; with no fuel
    left the search is given up ([None]). *)
Fixpoint freeDestroyDcId (fuel : nat) (keys : gmap Z AuthKey) (shiftedDcId : Z)
    : option Z :=
  match keys !! shiftedDcId with
  | None => Some shiftedDcId
  | Some _ =>
      match fuel with
      | O => None
      | S fuel' => freeDestroyDcId fuel' keys (destroyKeyNextDcId shiftedDcId)
      end
  end.

(** The body of the loop of [start] over [config.keys]. *)
Definition placeKey (key : AuthKey) : M unit :=
  let dcId := key_dcId key in
  destroyer <- isKeysDestroyer;;
  shiftedDcId <- (if (destroyer : bool) then
                    keys <- gets _keysForWrite;;
                    match freeDestroyDcId (size keys) keys (destroyKeyNextDcId dcId) with
                    | Some free => ret free
                    | None => failed
                    end
                  else ret dcId);;
  modify (fun st => set_keysForWrite (<[shiftedDcId := key]> (_keysForWrite st)) st);;
  addDc shiftedDcId (Some key);;
  ret tt.

Fixpoint forEach {A : Type} (f : A -> M unit) (l : list A) : M unit :=
  match l with
  | [] => ret tt
  | x :: rest => f x;; forEach f rest
  end.

(** The keys of [_dcenters] in the order the flat map keeps them. *)
Definition dcentersKeys (st : Private) : list Z :=
  merge_sort Z.le (map fst (map_to_list (_dcenters st))).

(** [start]; of [Config] the keys and [mainDcId] are used here. *)
Definition start (keys : list AuthKey) (configMainDcId : Z) : M unit :=
  forEach placeKey keys;;
  when (negb (configMainDcId =? kNotSetMainDc))
    (modify (set_mainDcId configMainDcId);; modify (set_mainDcIdForced true));;
  destroyer <- isKeysDestroyer;;
  main <- gets _mainDcId;;
  (if (destroyer : bool) then
     shifted <- gets dcentersKeys;;
     forEach (fun shiftedDcId => startSession shiftedDcId;; ret tt) shifted
   else if negb (main =? kNoneMainDc) then
     session <- startSession main;;
     modify (set_mainSession (Some session))
   else ret tt);;
  Assert (eqb (main =? kNoneMainDc) destroyer);;
  requestConfig.

Definition keyWasPossiblyDestroyed (shiftedDcId : Z) : M unit :=
  destroyer <- isKeysDestroyer;;
  Assert destroyer;;
  emit (InvokeQueuedCompletedKeyDestroy shiftedDcId).

Definition completedKeyDestroy (shiftedDcId : Z) : M unit :=
  destroyer <- isKeysDestroyer;;
  Assert destroyer;;
  removeDc shiftedDcId;;
  modify (fun st => set_keysForWrite (delete shiftedDcId (_keysForWrite st)) st);;
  killSession shiftedDcId;;
  empty <- gets (fun st => bool_decide (_dcenters st = ∅));;
  when empty (emit AllKeysDestroyedFired).

End Instance.

(** ** Collaborators used by the examples

    A shifted DC id is the bare id plus 10000 times the shift, temporary
    ids start at 1000, and keys to destroy start at shift 256. *)
Definition exampleCollaborators : Collaborators := {|
  BareDcId := fun shiftedDcId => Z.rem shiftedDcId 10000;
  ShiftDcId := fun dcId value => dcId + 10000 * value;
  GetDcIdShift := fun shiftedDcId => Z.quot shiftedDcId 10000;
  destroyKeyNextDcId := fun shiftedDcId =>
    let shift := Z.quot shiftedDcId 10000 in
    Z.rem shiftedDcId 10000 + 10000 * (if shift =? 0 then 256 else shift + 1);
  isTemporaryDcId := fun shiftedDcId => Z.rem shiftedDcId 10000 >=? 1000;
  getRealIdFromTemporaryDcId := fun dcId => if dcId >=? 1000 then dcId - 1000 else 0;
  kNoneMainDc := -1;
  kNotSetMainDc := 0;
  dcTypeIsCdn := fun _ => false;
  isDefaultHandledError := fun _ => false;
  Serialize := fun _ => [];
  doneResult := fun _ _ _ => true;
  failResult := fun _ _ _ => false;
  RPCError_Local := fun type => mkRPCError 0 type;
  sendNeedsLayer := true
|}.

(** An instance before [start]: nothing stored, the clock at 1000 ms per
    reading, the user logged in and a global fail handler set. *)
Definition freshPrivate (mode : Mode) (mainDcId : Z) : Private :=
  mkPrivate mode mainDcId false ∅ [] None ∅ [] None 0 0 0 ∅ ∅ ∅ ∅ ∅ [] ∅ ∅ ∅
    true 0 true (fun n => 1000 * Z.of_nat n) 0 0 0 0 [].

(** The state a computation leaves, or the state it started from when an
    assertion failed. *)
Definition stateAfter {A : Type} (m : M A) (st : Private) : Private :=
  match m st with
  | Some (_, st') => st'
  | None => st
  end.

(** ** Reasoning about state passing *)

(** [m] leaves [f] of the state as it was. *)
Definition keeps {A B : Type} (f : Private -> B) (m : M A) : Prop :=
  forall st a st', m st = Some (a, st') -> f st' = f st.

(** [f] does not read the field that [set] writes. *)
Definition ignores {B V : Type} (f : Private -> B) (set : V -> Private -> Private) : Prop :=
  forall v st, f (set v st) = f st.

(** * What the properties are stated with

    The predicates, the reference functions and the example instances
    that the lemmas below are about. *)

Section Blindness.

Context {C : Type} (f : Private -> C).

(** [f] reads none of the fields written when a request is stored and
    handed to a session. *)
Record requestBlind : Prop := {
  blind_trace : ignores f set_trace;
  blind_ticks : ignores f set_ticks;
  blind_counter : ignores f set_GlobalAtomicRequestId;
  blind_parserMap : ignores f set_parserMap;
  blind_requestMap : ignores f set_requestMap;
  blind_requestsByDc : ignores f set_requestsByDc
}.

(** [f] reads none of the fields written on the way from [getSession] to
    [sendRequest]. *)
Record sessionBlind : Prop := {
  blind_request : requestBlind;
  blind_sessions : ignores f set_sessions;
  blind_dcenters : ignores f set_dcenters;
  blind_nextPtr : ignores f set_nextPtr
}.

End Blindness.

(** The entries at the head of the queue that are due at [t] or before. *)
Fixpoint dueUpTo (t : Z) (queue : list (Z * Z)) : list (Z * Z) :=
  match queue with
  | [] => []
  | (first, second) :: rest =>
      if second >? t then [] else (first, second) :: dueUpTo t rest
  end.

(** The queue from its first entry due later than [t]. *)
Fixpoint dueAfter (t : Z) (queue : list (Z * Z)) : list (Z * Z) :=
  match queue with
  | [] => []
  | (first, second) :: rest => if second >? t then queue else dueAfter t rest
  end.

Definition hasRequest (requestId : Z) (entries : list (Z * Z)) : bool :=
  existsb (fun entry => fst entry =? requestId) entries.

(** The queue is in the order of its due times. *)
Fixpoint sortedByDue (queue : list (Z * Z)) : bool :=
  match queue with
  | [] => true
  | (_, second) :: rest =>
      forallb (fun entry => second <=? snd entry) rest && sortedByDue rest
  end.

(** The insertion as the specification words it, to compare with
    [insertDelayed]: the entry goes to the first position whose due time is
    at least [sendAt]. *)
Fixpoint insertDelayed_specified (requestId sendAt : Z) (queue : list (Z * Z))
    : option (list (Z * Z)) :=
  match queue with
  | [] => Some [(requestId, sendAt)]
  | (first, second) :: rest =>
      if first =? requestId then None
      else if second >=? sendAt then Some ((requestId, sendAt) :: queue)
      else option_map (cons (first, second))
             (insertDelayed_specified requestId sendAt rest)
  end.

Section SchedulerDefinitions.

Context `{collab : Collaborators}.

(** The entries [entries] resent one after the other, each taken off the
    queue first; [rest] is what stays behind them. *)
Fixpoint resendEach (entries rest : list (Z * Z)) : M unit :=
  match entries with
  | [] => ret tt
  | (requestId, _) :: more =>
      modify (set_delayedRequests (more ++ rest));;
      resendDelayed requestId;;
      resendEach more rest
  end.

End SchedulerDefinitions.

(** The delay [nextRequestDelay] returns, from the delay stored before. *)
Definition nextDelay (stored : option Z) : Z :=
  match stored with
  | None => 1
  | Some second => if second >? 60 then second else second * 2
  end.

(** The delay of error number [n + 1] in a row. *)
Fixpoint backoffSeconds (n : nat) : Z :=
  match n with
  | O => nextDelay None
  | S n' => nextDelay (Some (backoffSeconds n'))
  end.

(** [m] run [n] times in a row. *)
Fixpoint repeatM {A : Type} (n : nat) (m : M A) : M unit :=
  match n with
  | O => ret tt
  | S n' => m;; repeatM n' m
  end.

Section BackoffDefinitions.

Context `{collab : Collaborators}.

(** Error number [n + 1] in a row on [requestId]: the first one finds no
    retry delay stored, each next one finds the delay its predecessor left
    (whatever else happened in between); [last] is the state the error is
    handled in and the final state the one it leaves. *)
Inductive consecutiveErrors (requestId : Z) (error : RPCError)
    : nat -> Private -> Private -> Prop :=
  | consecutive_first last handled st' :
      _requestsDelays last !! requestId = None ->
      onErrorDefault requestId error last = Some (handled, st') ->
      consecutiveErrors requestId error 0 last st'
  | consecutive_next n before st1 last handled st' :
      consecutiveErrors requestId error n before st1 ->
      _requestsDelays last !! requestId = _requestsDelays st1 !! requestId ->
      onErrorDefault requestId error last = Some (handled, st') ->
      consecutiveErrors requestId error (S n) last st'.

End BackoffDefinitions.

(** The example instance after [start] with no keys: the main session is the
    one of DC 2. *)
Definition startedPrivate : Private :=
  stateAfter (@start exampleCollaborators [] 0) (freshPrivate Normal 2).

(** The calls that reach the config controller: the requests, and the
    answers to the loader and to the CDN configuration request. *)
Inductive ConfigOp :=
  | OpRequestConfig
  | OpRequestConfigIfOld (blockedMode : bool)
  | OpRequestConfigIfExpired
  | OpConfigLoadDone (emptyOptions : bool) (expiresIn : Z)
  | OpRequestCDNConfig
  | OpCdnConfigDone.

(** The loader and the CDN configuration request as the state records them
    agree with the objects alive and the requests in flight, and the
    allocator's counter is in its range. *)
Definition configInvariant (st : Private) : Prop :=
  liveConfigLoaders st = (if notNull (_configLoader st) then 1 else 0)%nat
  /\ (liveCdnConfigRequests st
      <= (if Z.eqb (_cdnConfigLoadRequestId st) 0 then 0 else 1))%nat
  /\ 0 <= GlobalAtomicRequestId st < Z.quot INT_MAX 2.

Section ConfigDefinitions.

Context `{collab : Collaborators}.

Definition runConfigOp (op : ConfigOp) : M unit :=
  match op with
  | OpRequestConfig => requestConfig
  | OpRequestConfigIfOld blockedMode => requestConfigIfOld blockedMode
  | OpRequestConfigIfExpired => requestConfigIfExpired
  | OpConfigLoadDone emptyOptions expiresIn => configLoadDone emptyOptions expiresIn
  | OpRequestCDNConfig => requestCDNConfig
  | OpCdnConfigDone => cdnConfigDone
  end.

(** One step of the instance as the config controller sees it: one of its
    own calls, or anything else that leaves its fields alone and the counter
    in its range. *)
Inductive configStep : Private -> Private -> Prop :=
  | configStep_op op st st' :
      runConfigOp op st = Some (tt, st') -> configStep st st'
  | configStep_other st st' :
      _configLoader st' = _configLoader st ->
      liveConfigLoaders st' = liveConfigLoaders st ->
      _cdnConfigLoadRequestId st' = _cdnConfigLoadRequestId st ->
      liveCdnConfigRequests st' = liveCdnConfigRequests st ->
      0 <= GlobalAtomicRequestId st' < Z.quot INT_MAX 2 ->
      configStep st st'.

End ConfigDefinitions.

Section SendCancelDefinitions.

Context `{collab : Collaborators}.

(** The shifted DC id that [getSession] looks up for a [shiftedDcId] other
    than 0: a shift with no DC in it is applied to the main DC. *)
Definition resolvedDcId (st : Private) (shiftedDcId : Z) : Z :=
  if BareDcId shiftedDcId =? 0
  then shiftedDcId + BareDcId (from_option getDcWithShift 0 (_mainSession st))
  else shiftedDcId.

(** Every session is stored under the shifted DC id it was built with, a
    positive one with a bare DC id in it, and the main session is one of the
    sessions stored. *)
Definition sessionsStored (st : Private) : Prop :=
  (forall shiftedDcId session,
     _sessions st !! shiftedDcId = Some session ->
     getDcWithShift session = shiftedDcId /\ 0 < shiftedDcId
     /\ BareDcId shiftedDcId <> 0)
  /\ (forall main,
        _mainSession st = Some main ->
        _sessions st !! getDcWithShift main = Some main).




End SendCancelDefinitions.

(** The payload of the examples: sixteen bytes, the message id in bytes
    4..12. *)
Definition examplePayload : list Byte.byte :=
  [Byte.x00; Byte.x00; Byte.x00; Byte.x00;
   Byte.x2a; Byte.x01; Byte.x00; Byte.x00; Byte.x00; Byte.x00; Byte.x00; Byte.x00;
   Byte.x05; Byte.x06; Byte.x07; Byte.x08].

(** How many times [allKeysDestroyed] fired in a trace. *)
Definition isAllKeysDestroyed (e : Event) : bool :=
  match e with
  | AllKeysDestroyedFired => true
  | _ => false
  end.

Definition firedCount (events : list Event) : nat :=
  length (List.filter isAllKeysDestroyed events).

(** What starting and killing sessions in key-destroyer mode leaves alone. *)
Definition destroyerFrame (st : Private) :=
  (_mode st, _keysForWrite st, _mainSession st, _mainDcId st, _mainDcIdForced st,
   _configLoader st, _dcentersToDestroy st).

Section KeyDestroyerDefinitions.

Context `{collab : Collaborators}.

(** What [start] relies on in [destroyKeyNextDcId], declared outside this
    file: from a positive shifted DC id it gives a larger one of the same
    DC. *)
Definition nextDcIdAdvances : Prop :=
  forall shiftedDcId, 0 < shiftedDcId ->
    shiftedDcId < destroyKeyNextDcId shiftedDcId
    /\ BareDcId (destroyKeyNextDcId shiftedDcId) = BareDcId shiftedDcId.

(** [dcenters] holds a DC block for each key of [_keysForWrite], and
    nothing else. *)
Definition keysHaveDcs (st : Private) : Prop :=
  forall shiftedDcId,
    _dcenters st !! shiftedDcId
    = (fun key => mkDcenter (BareDcId shiftedDcId) (Some key))
        <$> (_keysForWrite st !! shiftedDcId).

(** An id for each key: reached from the DC id of the key by
    [destroyKeyNextDcId], applied once at least. *)
Definition placedUnder (shiftedDcId : Z) (key : AuthKey) : Prop :=
  exists n, shiftedDcId = Nat.iter (S n) destroyKeyNextDcId (key_dcId key).

(** The events of one [completedKeyDestroy]: the session of the DC is
    killed if there is one, the sessions to destroy are cleared later, and
    [allKeysDestroyed] fires if no DC is left. *)
Definition completedEvents (shiftedDcId : Z) (st : Private) : list Event :=
  from_option (fun session => [SessionKill session]) [] (_sessions st !! shiftedDcId)
  ++ [InvokeQueuedClearSessions]
  ++ (if bool_decide (delete shiftedDcId (_dcenters st) = ∅)
      then [AllKeysDestroyedFired] else []).

(** One step of an instance in key-destroyer mode after [start]: the
    destruction of a key that has its DC block is completed, or something
    else happens that leaves the DC registry alone and does not fire
    [allKeysDestroyed] (a request is answered, a completion is queued). *)
Inductive destroyerStep (st st' : Private) : Prop :=
  | destroyerStep_completed shiftedDcId :
      is_Some (_dcenters st !! shiftedDcId) ->
      completedKeyDestroy shiftedDcId st = Some (tt, st') ->
      destroyerStep st st'
  | destroyerStep_other events :
      _dcenters st' = _dcenters st ->
      _mode st' = _mode st ->
      _mainSession st' = _mainSession st ->
      trace st' = trace st ++ events ->
      firedCount events = 0%nat ->
      destroyerStep st st'.

Inductive destroyerRun : Private -> Private -> Prop :=
  | destroyerRun_done st : destroyerRun st st
  | destroyerRun_step st st1 st2 :
      destroyerStep st st1 -> destroyerRun st1 st2 -> destroyerRun st st2.

End KeyDestroyerDefinitions.

(** The instance of the examples in key-destroyer mode, before [start], and
    three keys to destroy: two of DC 2 and one of DC 4. *)
Definition destroyerPrivate : Private := freshPrivate KeysDestroyer (-1).

Definition exampleKeys : list AuthKey := [mkAuthKey 1 2; mkAuthKey 2 2; mkAuthKey 3 4].

Section MigrateDefinitions.

Context `{collab : Collaborators}.

(** [f] reads none of the fields written when the main DC changes. *)
Record mainBlind {C : Type} (f : Private -> C) : Prop := {
  mainBlind_trace : ignores f set_trace;
  mainBlind_sessions : ignores f set_sessions;
  mainBlind_nextPtr : ignores f set_nextPtr;
  mainBlind_dcenters : ignores f set_dcenters;
  mainBlind_sessionsToDestroy : ignores f set_sessionsToDestroy;
  mainBlind_mainSession : ignores f set_mainSession;
  mainBlind_mainDcId : ignores f set_mainDcId;
  mainBlind_mainDcIdForced : ignores f set_mainDcIdForced
}.

(** The DC the [_MIGRATE_] branch turns to, and the routing it registers:
    the new DC with the shift of the current routing, negated again for a
    request to the main DC. *)
Definition migrateTarget (newdc dcWithShift : Z) : Z :=
  if dcWithShift <? 0 then newdc else ShiftDcId newdc (GetDcIdShift dcWithShift).

Definition migrateRouting (newdc dcWithShift : Z) : Z :=
  if dcWithShift <? 0 then - migrateTarget newdc dcWithShift
  else migrateTarget newdc dcWithShift.

End MigrateDefinitions.

(** * More of the instance

    The functions of the file that the parts above do not reach. *)

(** The keys of a flat map in the order the map keeps them. *)
Definition keysInOrder {V : Type} (m : gmap Z V) : list Z :=
  merge_sort Z.le (map fst (map_to_list m)).

(** The values of a flat map in the order of their keys. *)
Definition valuesInOrder {V : Type} (m : gmap Z V) : list V :=
  omap (fun k => m !! k) (keysInOrder m).

Section MoreOfInstance.

Context `{collab : Collaborators}.

(** ** 4.E Main DC *)

Definition suggestMainDcId (mainDcId : Z) : M unit :=
  forced <- gets _mainDcIdForced;;
  if (forced : bool) then ret tt else setMainDcId mainDcId.

(** ** 4.C Key registry *)

Definition getKeysForWrite : M (list AuthKey) :=
  gets (fun st => valuesInOrder (_keysForWrite st)).

(** The body of the loop of [addKeysForDestroy]; as in [placeKey] the
    search for a free id is given up when the fuel runs out. *)
Definition addKeyForDestroy (key : AuthKey) : M unit :=
  let dcId := key_dcId key in
  keys <- gets _keysForWrite;;
  match freeDestroyDcId (size keys) keys (destroyKeyNextDcId dcId) with
  | None => failed
  | Some shiftedDcId =>
      modify (fun st => set_keysForWrite (<[shiftedDcId := key]> (_keysForWrite st)) st);;
      addDc shiftedDcId (Some key);;
      startSession shiftedDcId;;
      ret tt
  end.

Definition addKeysForDestroy (keys : list AuthKey) : M unit :=
  destroyer <- isKeysDestroyer;;
  Assert destroyer;;
  forEach addKeyForDestroy keys.

(** ** Handlers *)

Definition hasCallbacks (requestId : Z) : M bool :=
  gets (fun st => notNull (_parserMap st !! requestId)).

(** [clearCallbacks (const std::vector<RPCCallbackClear> &ids)]; an element
    of [ids] is the pair of [requestId] and [errorCode]. *)
Definition clearCallbacks_ids (ids : list (Z * Z)) : M unit :=
  Assert (negb (Nat.eqb (length ids) 0));;
  forEach (fun clearRequest =>
             clearCallbacks (fst clearRequest) (snd clearRequest);;
             unregisterRequest (fst clearRequest))
    ids.

(** ** 4.G Authorization export and import *)

(** The body of the loop of [importDone] over the waiters. *)
Definition resendImported (newdc waitedRequestId : Z) : M unit :=
  it <- gets (fun st => _requestMap st !! waitedRequestId);;
  match it with
  | None => ret tt
  | Some request =>
      shiftedDcId <- changeRequestByDc waitedRequestId newdc;;
      match shiftedDcId with
      | None => ret tt
      | Some shifted =>
          when (shifted <? 0) (setMainDcId newdc);;
          session <- getSession shifted;;
          emit (SessionSendPrepared session request 0)
      end
  end.

Definition importDone (requestId : Z) : M unit :=
  shiftedDcId <- queryRequestByDc requestId;;
  match shiftedDcId with
  | None => ret tt
  | Some shifted =>
      let newdc := BareDcId shifted in
      waiters <- authWaitersRef newdc;;
      when (negb (Nat.eqb (length waiters) 0))
        (forEach (resendImported newdc) waiters;;
         modify (fun st => set_authWaiters (<[newdc := []]> (_authWaiters st)) st))
  end.

Definition importFail (error : RPCError) (requestId : Z) : M bool :=
  if isDefaultHandledError error then ret false else ret true.

Definition exportFail (error : RPCError) (requestId : Z) : M bool :=
  if isDefaultHandledError error then ret false
  else
    it <- gets (fun st => _authExportRequests st !! requestId);;
    match it with
    | Some target =>
        modify (fun st => set_authWaiters (<[BareDcId target := []]> (_authWaiters st)) st)
    | None => ret tt
    end;;
    ret true.

(** ** Shutdown *)

(** [prepareToDestroy]: [base::take] empties [_sessions] before the
    sessions taken are killed, in the order of their ids. *)
Definition prepareToDestroy : M unit :=
  assignConfigLoader None;;
  emit RequestCancellingDiscard;;
  taken <- gets (fun st => valuesInOrder (_sessions st));;
  modify (set_sessions ∅);;
  forEach (fun session => emit (SessionKill session)) taken;;
  modify (set_mainSession None).

End MoreOfInstance.


Section WaitFailedDefinitions.

Context `{collab : Collaborators}.

(** The state in which the branch looks at the delayed queue: the waiters
    of the DC have their entry, empty if there was none. *)
Definition withWaiters (newdc : Z) (st : Private) : Private :=
  set_authWaiters (emplace newdc [] (_authWaiters st)) st.

End WaitFailedDefinitions.

(** The example instance with request 7 stored, dependent on request 5:
    request 7 is routed to DC 2 with shift 3, request 5 as [routing5] says,
    and request 5 is in the delayed queue, due at 9000 ms, when [queued]. *)
Definition dependentExample (routing5 : Z) (queued : bool) : Private :=
  set_delayedRequests (if queued then [(5, 9000)] else [])
    (set_requestMap
       {[ 7 := mkRequest examplePayload 7 false (Some 5) 0;
          5 := mkRequest examplePayload 5 false None 0 ]}
       (set_requestsByDc {[ 7 := 30002; 5 := routing5 ]} startedPrivate)).

(** The collaborators of the examples, with every error of a kind the fail
    handlers may take themselves. *)
Definition strictCollaborators : Collaborators := {|
  BareDcId := @BareDcId exampleCollaborators;
  ShiftDcId := @ShiftDcId exampleCollaborators;
  GetDcIdShift := @GetDcIdShift exampleCollaborators;
  destroyKeyNextDcId := @destroyKeyNextDcId exampleCollaborators;
  isTemporaryDcId := @isTemporaryDcId exampleCollaborators;
  getRealIdFromTemporaryDcId := @getRealIdFromTemporaryDcId exampleCollaborators;
  kNoneMainDc := -1;
  kNotSetMainDc := 0;
  dcTypeIsCdn := fun _ => false;
  isDefaultHandledError := fun _ => true;
  Serialize := fun _ => [];
  doneResult := fun _ _ _ => true;
  failResult := fun _ _ _ => false;
  RPCError_Local := fun type => mkRPCError 0 type;
  sendNeedsLayer := true
|}.

(** The example instance with request 7 stored with handlers, routed to
    DC 2 with shift 3. *)
Definition handledExample : Private :=
  set_parserMap {[ 7 := mkHandler (Some (UserCallback 0)) (Some (UserCallback 1)) ]}
    (set_requestMap {[ 7 := mkRequest examplePayload 7 false None 0 ]}
       (set_requestsByDc {[ 7 := 30002 ]} startedPrivate)).

Section RegistryDefinitions.

Context `{collab : Collaborators}.

(** The id [getDcById] falls back to when a shifted DC id has no block of
    its own: the bare DC id, or the real one behind a temporary id. *)
Definition fallbackDcId (shiftedDcId : Z) : Z :=
  let result := BareDcId shiftedDcId in
  if isTemporaryDcId result
  then let realDcId := getRealIdFromTemporaryDcId result in
       if realDcId =? 0 then result else realDcId
  else result.

End RegistryDefinitions.


(** The payloads handed to sessions, in the order of the calls. *)
Definition sentRequests (events : list Event) : list SerializedRequest :=
  omap (fun e => match e with
                 | SessionSendPrepared _ request _ => Some request
                 | _ => None
                 end) events.

Section ImportDefinitions.

Context `{collab : Collaborators}.

(** The routing [changeRequestByDc] gives a request that is not routed to
    the main DC. *)
Definition importedRouting (newdc routing : Z) : Z :=
  ShiftDcId newdc (GetDcIdShift routing).

(** The payload of a waiter that [importDone] can send again: it is stored
    and it has a routing. *)
Definition resendable (st : Private) (waitedRequestId : Z) : option SerializedRequest :=
  match _requestMap st !! waitedRequestId, _requestsByDc st !! waitedRequestId with
  | Some request, Some _ => Some request
  | _, _ => None
  end.

End ImportDefinitions.

(** The example instance with request 7 as in [handledExample], request 9,
    an authorization import, routed to DC 3, and requests 7 and 8 waiting
    for DC 3; request 8 is not stored. *)
Definition waitingExample : Private :=
  set_authWaiters {[ 3 := [7; 8] ]}
    (set_requestsByDc {[ 7 := 30002; 9 := 3 ]} handledExample).

(** Every session is the session of a key of [_keysForWrite]: what a
    key-destroyer instance keeps between its calls. *)
Definition sessionsUnderKeys (st : Private) : Prop :=
  forall shiftedDcId,
    is_Some (_sessions st !! shiftedDcId) -> is_Some (_keysForWrite st !! shiftedDcId).

(** * The properties

    First what a computation leaves alone, then each part of the instance
    in turn. *)

Section StatePassing.

Context {A B C : Type}.

Lemma bind_Some (m : M A) (k : A -> M B) st b st' :
  bind m k st = Some (b, st') ->
  exists a st1, m st = Some (a, st1) /\ k a st1 = Some (b, st').
Proof.
  unfold bind. destruct (m st) as [[a st1]|] eqn:E; [|discriminate].
  intros Hk. exists a, st1. split; [reflexivity | exact Hk].
Qed.

Lemma bind_eq (m : M A) (k : A -> M B) st a st1 :
  m st = Some (a, st1) -> bind m k st = k a st1.
Proof. intros E. unfold bind. rewrite E. reflexivity. Qed.

Lemma keeps_ret (f : Private -> C) (a : A) : keeps f (ret a).
Proof. intros st x st' E. inversion E. reflexivity. Qed.

Lemma keeps_failed (f : Private -> C) : keeps f (@failed A).
Proof. intros st x st' E. discriminate. Qed.

Lemma keeps_gets (f : Private -> C) (g : Private -> A) : keeps f (gets g).
Proof. intros st x st' E. inversion E. reflexivity. Qed.

Lemma keeps_bind (f : Private -> C) (m : M A) (k : A -> M B) :
  keeps f m -> (forall a, keeps f (k a)) -> keeps f (bind m k).
Proof.
  intros Hm Hk st b st' E.
  apply bind_Some in E as (a & st1 & E1 & E2).
  rewrite (Hk a _ _ _ E2). exact (Hm _ _ _ E1).
Qed.

End StatePassing.

Lemma keeps_modify {C : Type} (f : Private -> C) (g : Private -> Private) :
  (forall st, f (g st) = f st) -> keeps f (modify g).
Proof. intros Hg st x st' E. inversion E. apply Hg. Qed.

Lemma keeps_emit {C : Type} (f : Private -> C) (e : Event) :
  ignores f set_trace -> keeps f (emit e).
Proof. intros Hf. apply keeps_modify. intros st. apply Hf. Qed.

Lemma keeps_Assert {C : Type} (f : Private -> C) (b : bool) : keeps f (Assert b).
Proof. destruct b; [apply keeps_ret | apply keeps_failed]. Qed.

Lemma keeps_when {C : Type} (f : Private -> C) (b : bool) (m : M unit) :
  keeps f m -> keeps f (when b m).
Proof. intros Hm. destruct b; [exact Hm | apply keeps_ret]. Qed.

Lemma keeps_crl_now {C : Type} (f : Private -> C) :
  ignores f set_ticks -> keeps f crl_now.
Proof. intros Hf st x st' E. inversion E. apply Hf. Qed.

Lemma keeps_forEach {A C : Type} (f : Private -> C) (g : A -> M unit) (l : list A) :
  (forall x, keeps f (g x)) -> keeps f (forEach g l).
Proof.
  intros Hg. induction l as [|x l IH]; simpl.
  - apply keeps_ret.
  - apply keeps_bind; [apply Hg | intros _; exact IH].
Qed.

(** Splits a [keeps] goal along the structure of the computation. *)
Ltac keeps_step :=
  first
    [ apply keeps_ret
    | apply keeps_failed
    | apply keeps_gets
    | apply keeps_Assert
    | apply keeps_crl_now; solve [auto]
    | apply keeps_emit; solve [auto]
    | apply keeps_modify; intros; solve [auto]
    | apply keeps_when
    | apply keeps_bind; [| intros ?] ].

Ltac ignored :=
  solve [ reflexivity
        | match goal with H : ignores _ _ |- _ => apply H end
        | intros ? ?; reflexivity ].

Ltac keeps_auto :=
  repeat first
    [ match goal with H : context [keeps] |- _ => simple apply H end
    | simple apply keeps_ret
    | simple apply keeps_failed
    | simple apply keeps_gets
    | simple apply keeps_Assert
    | simple apply keeps_crl_now; ignored
    | simple apply keeps_emit; ignored
    | simple apply keeps_modify; intros; ignored
    | simple apply keeps_when
    | simple apply keeps_bind; [| intros ?]
    | match goal with
      | |- keeps _ (match ?x with _ => _ end) => destruct x
      | |- keeps _ (if ?b then _ else _) => destruct b
      | |- keeps _ (let '(_, _) := ?x in _) => destruct x
      end ].

(** ** What looking up, starting and killing sessions leaves alone *)

Section SessionFrames.

Context `{collab : Collaborators}.
Context {C : Type} (f : Private -> C).

Section Request.

Hypothesis blind : requestBlind f.

Lemma keeps_storeRequest requestId request callbacks :
  keeps f (storeRequest requestId request callbacks).
Proof. destruct blind. unfold storeRequest. keeps_auto. Qed.

Lemma keeps_mainSessionAsserted : keeps f mainSessionAsserted.
Proof. unfold mainSessionAsserted. keeps_auto. Qed.

Variable getSession' : Z -> M Session.
Hypothesis keeps_getSession' : forall shiftedDcId, keeps f (getSession' shiftedDcId).

Lemma keeps_sendRequest_over requestId request callbacks shiftedDcId msCanWait
    needsLayer afterRequestId :
  keeps f (sendRequest_over getSession' requestId request callbacks shiftedDcId
             msCanWait needsLayer afterRequestId).
Proof.
  pose proof keeps_storeRequest as Hs.
  destruct blind. unfold sendRequest_over, registerRequest, getRequest.
  keeps_auto.
Qed.

Lemma keeps_send_over data callbacks shiftedDcId msCanWait needsLayer afterRequestId :
  keeps f (send_over getSession' data callbacks shiftedDcId msCanWait needsLayer
             afterRequestId).
Proof.
  pose proof keeps_sendRequest_over as Hs.
  destruct blind. unfold send_over. keeps_auto.
Qed.

Lemma keeps_scheduleKeyDestroy_over shiftedDcId :
  keeps f (scheduleKeyDestroy_over getSession' shiftedDcId).
Proof.
  pose proof keeps_send_over as Hs.
  unfold scheduleKeyDestroy_over, performKeyDestroy_over, isKeysDestroyer.
  keeps_auto.
Qed.

End Request.

Lemma keeps_getDcById shiftedDcId :
  ignores f set_dcenters -> keeps f (getDcById shiftedDcId).
Proof.
  intros Hd. unfold getDcById, addDc, findDc. keeps_auto.
Qed.

Hypothesis blind : sessionBlind f.

Section Over.

Variable getSession' : Z -> M Session.
Hypothesis keeps_getSession' : forall shiftedDcId, keeps f (getSession' shiftedDcId).

Lemma keeps_startSession_over shiftedDcId :
  keeps f (startSession_over getSession' shiftedDcId).
Proof.
  pose proof (keeps_scheduleKeyDestroy_over (blind_request f blind) _ keeps_getSession') as Hs.
  pose proof (fun s => keeps_getDcById s (blind_dcenters f blind)) as Hd.
  destruct blind as [[] ? ? ?]. unfold startSession_over, findSession, isKeysDestroyer.
  keeps_auto.
Qed.

End Over.

Lemma keeps_getSession_fuel fuel shiftedDcId :
  keeps f (getSession_fuel fuel shiftedDcId).
Proof.
  revert shiftedDcId. induction fuel as [|fuel IH]; intros shiftedDcId; simpl;
    pose proof keeps_mainSessionAsserted as Hm;
    unfold findSession.
  - keeps_auto.
  - pose proof (keeps_startSession_over _ IH) as Hs. keeps_auto.
Qed.

Lemma keeps_getSession shiftedDcId : keeps f (getSession shiftedDcId).
Proof. apply keeps_getSession_fuel. Qed.

Lemma keeps_sendRequest requestId request callbacks shiftedDcId msCanWait
    needsLayer afterRequestId :
  keeps f (sendRequest requestId request callbacks shiftedDcId msCanWait needsLayer
             afterRequestId).
Proof. apply keeps_sendRequest_over; [apply blind | apply keeps_getSession]. Qed.

Lemma keeps_send data callbacks shiftedDcId msCanWait needsLayer afterRequestId :
  keeps f (send data callbacks shiftedDcId msCanWait needsLayer afterRequestId).
Proof. apply keeps_send_over; [apply blind | apply keeps_getSession]. Qed.

Lemma keeps_startSession shiftedDcId : keeps f (startSession shiftedDcId).
Proof. apply keeps_startSession_over, keeps_getSession. Qed.

Lemma keeps_resendDelayed requestId : keeps f (resendDelayed requestId).
Proof.
  pose proof keeps_getSession as Hg.
  destruct blind as [[] ? ? ?]. unfold resendDelayed, queryRequestByDc. keeps_auto.
Qed.

Lemma keeps_drainDelayed now queue :
  ignores f set_delayedRequests -> keeps f (drainDelayed now queue).
Proof.
  intros Hq. pose proof keeps_resendDelayed as Hr.
  induction queue as [|[requestId due] rest IH]; simpl; keeps_auto.
Qed.

Lemma keeps_checkDelayedRequests :
  ignores f set_delayedRequests -> keeps f checkDelayedRequests.
Proof.
  intros Hq. pose proof (fun now queue => keeps_drainDelayed now queue Hq) as Hd.
  destruct blind as [[] ? ? ?]. unfold checkDelayedRequests. keeps_auto.
Qed.

Lemma keeps_removeSession shiftedDcId :
  ignores f set_sessionsToDestroy -> keeps f (removeSession shiftedDcId).
Proof.
  intros Hq. destruct blind as [[] ? ? ?]. unfold removeSession, findSession. keeps_auto.
Qed.

Lemma keeps_killSession shiftedDcId :
  ignores f set_sessionsToDestroy -> ignores f set_mainSession ->
  keeps f (killSession shiftedDcId).
Proof.
  intros Hq Hm. pose proof (fun s => keeps_removeSession s Hq) as Hr.
  pose proof keeps_startSession as Hs.
  destruct blind as [[] ? ? ?]. unfold killSession, checkIfMainAndKill. keeps_auto.
Qed.

Lemma keeps_setMainDcId mainDcId :
  ignores f set_sessionsToDestroy -> ignores f set_mainSession ->
  ignores f set_mainDcId -> ignores f set_mainDcIdForced ->
  keeps f (setMainDcId mainDcId).
Proof.
  intros Hq Hm Hd Hf. pose proof (fun s => keeps_killSession s Hq Hm) as Hk.
  destruct blind as [[] ? ? ?]. unfold setMainDcId. keeps_auto.
Qed.

End SessionFrames.

Ltac blind := repeat (constructor; try (intros ? ?; reflexivity)).

(** Reads of a field through the field updates. *)
Ltac simpl_state :=
  cbn [
    _mode _mainDcId _mainDcIdForced _dcenters _dcentersToDestroy
    _mainSession _sessions _sessionsToDestroy _configLoader
    _cdnConfigLoadRequestId _lastConfigLoadedTime _configExpiresAt
    _keysForWrite _requestsByDc _authExportRequests _parserMap _requestMap
    _delayedRequests _requestsDelays _badGuestDcRequests _authWaiters
    _globalHandler_onFail GlobalAtomicRequestId sessionExists clock ticks
    nextPtr liveConfigLoaders liveCdnConfigRequests trace set_mainDcId
    set_mainDcIdForced set_dcenters set_dcentersToDestroy set_mainSession
    set_sessions set_sessionsToDestroy set_configLoader
    set_cdnConfigLoadRequestId set_lastConfigLoadedTime set_configExpiresAt
    set_keysForWrite set_requestsByDc set_authExportRequests set_parserMap
    set_requestMap set_delayedRequests set_requestsDelays
    set_badGuestDcRequests set_authWaiters set_GlobalAtomicRequestId
    set_ticks set_nextPtr set_liveConfigLoaders set_liveCdnConfigRequests
    set_trace req_data req_requestId req_needsLayer req_after
    req_lastSentTime sess_ptr getDcWithShift ].

Ltac simpl_state_in H :=
  cbn [
    _mode _mainDcId _mainDcIdForced _dcenters _dcentersToDestroy
    _mainSession _sessions _sessionsToDestroy _configLoader
    _cdnConfigLoadRequestId _lastConfigLoadedTime _configExpiresAt
    _keysForWrite _requestsByDc _authExportRequests _parserMap _requestMap
    _delayedRequests _requestsDelays _badGuestDcRequests _authWaiters
    _globalHandler_onFail GlobalAtomicRequestId sessionExists clock ticks
    nextPtr liveConfigLoaders liveCdnConfigRequests trace set_mainDcId
    set_mainDcIdForced set_dcenters set_dcentersToDestroy set_mainSession
    set_sessions set_sessionsToDestroy set_configLoader
    set_cdnConfigLoadRequestId set_lastConfigLoadedTime set_configExpiresAt
    set_keysForWrite set_requestsByDc set_authExportRequests set_parserMap
    set_requestMap set_delayedRequests set_requestsDelays
    set_badGuestDcRequests set_authWaiters set_GlobalAtomicRequestId
    set_ticks set_nextPtr set_liveConfigLoaders set_liveCdnConfigRequests
    set_trace req_data req_requestId req_needsLayer req_after
    req_lastSentTime sess_ptr getDcWithShift ] in H.

(** ** 4.A The request id allocator *)

Lemma wrap32_small x : -2147483648 <= x <= 2147483647 -> wrap32 x = x.
Proof.
  intros Hx. unfold wrap32.
  rewrite Z.mod_small by lia. lia.
Qed.

Lemma GetNextRequestId_in_range counter :
  0 <= counter < Z.quot INT_MAX 2 ->
  let '(id, counter') := Allocator.GetNextRequestId counter in
  id = counter + 1 /\ 0 <= counter' < Z.quot INT_MAX 2 /\
  (counter' = id \/ (id = Z.quot INT_MAX 2 /\ counter' = 0)).
Proof.
  change (Z.quot INT_MAX 2) with 1073741823. intros Hc.
  unfold Allocator.GetNextRequestId.
  change (Z.quot INT_MAX 2) with 1073741823.
  rewrite wrap32_small by lia.
  destruct (Z.eqb_spec (counter + 1) 1073741823) as [E|E]; simpl; lia.
Qed.

Lemma allocate_positive n : forall counter,
  0 <= counter < Z.quot INT_MAX 2 ->
  Forall (fun id => 0 < id) (fst (Allocator.allocate n counter)) /\
  0 <= snd (Allocator.allocate n counter) < Z.quot INT_MAX 2.
Proof.
  induction n as [|n IH]; intros counter Hc; simpl.
  - split; [constructor | exact Hc].
  - pose proof (GetNextRequestId_in_range counter Hc) as Hn.
    destruct (Allocator.GetNextRequestId counter) as [id counter'].
    destruct Hn as (Hid & Hc' & _).
    specialize (IH counter' Hc').
    destruct (Allocator.allocate n counter') as [ids counter''].
    simpl in *. destruct IH as [IH1 IH2].
    split; [constructor; [lia | exact IH1] | exact IH2].
Qed.

Lemma allocate_fresh n : forall counter,
  0 <= counter -> counter + Z.of_nat n < Z.quot INT_MAX 2 ->
  Allocator.allocate n counter = (seqZ (counter + 1) (Z.of_nat n), counter + Z.of_nat n).
Proof.
  change (Z.quot INT_MAX 2) with 1073741823.
  induction n as [|n IH]; intros counter Hc Hn; simpl Allocator.allocate.
  - change (Z.of_nat 0) with 0. rewrite Z.add_0_r. reflexivity.
  - unfold Allocator.GetNextRequestId.
    change (Z.quot INT_MAX 2) with 1073741823.
    rewrite wrap32_small by lia.
    destruct (Z.eqb_spec (counter + 1) 1073741823) as [E|E]; [lia|].
    rewrite IH by lia.
    rewrite (seqZ_cons (counter + 1) (Z.of_nat (S n))) by lia.
    replace (Z.succ (counter + 1)) with (counter + 1 + 1) by lia.
    replace (Z.pred (Z.of_nat (S n))) with (Z.of_nat n) by lia.
    replace (counter + 1 + Z.of_nat n) with (counter + Z.of_nat (S n)) by lia.
    reflexivity.
Qed.

(** C7: the allocator returns positive ids (never 0) however long it
    runs; when the id returned is [INT_MAX / 2] the counter is back at 0,
    so that from counter [INT_MAX / 2 - 1] the next two ids are
    [INT_MAX / 2] and 1; and the ids of [n < INT_MAX / 2] allocations from a
    fresh counter are distinct. *)
Theorem GetNextRequestId_positive_wraps_distinct :
  (forall n, Forall (fun id => 0 < id /\ id <> 0) (fst (Allocator.allocate n 0)))
  /\ (forall counter,
        fst (Allocator.GetNextRequestId counter) = Z.quot INT_MAX 2 ->
        snd (Allocator.GetNextRequestId counter) = 0)
  /\ Allocator.allocate 2 (Z.quot INT_MAX 2 - 1) = ([Z.quot INT_MAX 2; 1], 1)
  /\ (forall n, Z.of_nat n < Z.quot INT_MAX 2 ->
        NoDup (fst (Allocator.allocate n 0))).
Proof.
  split; [|split; [|split]].
  - intros n.
    destruct (allocate_positive n 0) as [Hpos _]; [vm_compute; split; congruence|].
    eapply Forall_impl; [exact Hpos|]. simpl. intros id Hid. lia.
  - intros counter. unfold Allocator.GetNextRequestId.
    destruct (Z.eqb_spec (wrap32 (counter + 1)) (Z.quot INT_MAX 2)) as [E|E]; simpl.
    + reflexivity.
    + intros E'. contradiction.
  - vm_compute. reflexivity.
  - intros n Hn. rewrite allocate_fresh by lia. simpl. apply NoDup_seqZ.
Qed.

(** C7 at five allocations from a fresh counter, and across the wrap. *)
Lemma GetNextRequestId_positive_wraps_distinct_witness :
  Forall (fun id => 0 < id /\ id <> 0) (fst (Allocator.allocate 5 0))
  /\ snd (Allocator.GetNextRequestId 1073741822) = 0
  /\ NoDup (fst (Allocator.allocate 5 0)).
Proof.
  destruct GetNextRequestId_positive_wraps_distinct as (Hpos & Hwrap & _ & Hnodup).
  split; [exact (Hpos 5%nat) | split].
  - apply Hwrap. vm_compute. reflexivity.
  - apply Hnodup. vm_compute. reflexivity.
Defined.

(** ** 4.B, 4.C The request table and the key registry *)

Section TableProperties.

Context `{collab : Collaborators}.

(** C6: for an id in the routing map, [changeRequestByDc] stores
    [-newdc] when the stored value is negative and
    [ShiftDcId newdc (GetDcIdShift stored)] otherwise, returns the value
    stored and changes nothing else; for an id that is not in the map it
    changes nothing and returns no value. *)
Theorem changeRequestByDc_preserves_sign_and_shift (st : Private) (requestId newdc : Z) :
  match _requestsByDc st !! requestId with
  | Some stored =>
      let changed :=
        if stored <? 0 then - newdc else ShiftDcId newdc (GetDcIdShift stored) in
      changeRequestByDc requestId newdc st
      = Some (Some changed,
              set_requestsByDc (<[requestId := changed]> (_requestsByDc st)) st)
  | None => changeRequestByDc requestId newdc st = Some (None, st)
  end.
Proof.
  unfold changeRequestByDc, bind, gets, modify, ret.
  destruct (_requestsByDc st !! requestId) as [stored|]; reflexivity.
Qed.

(** C10: [dcPersistentKeyChanged] always returns, fires the
    temporary-key-changed event for [dcId] first and only once (whatever
    follows is the persistence write), and when [dcId] is temporary, or the
    registry holds the same key pointer for [dcId], or holds none and the key
    is null, the registry is what it was and nothing is written. *)
Theorem dcPersistentKeyChanged_fires_once_and_frames
    (st : Private) (dcId : Z) (persistentKey : AuthKeyPtr) :
  exists st' rest,
    dcPersistentKeyChanged dcId persistentKey st = Some (tt, st')
    /\ trace st' = trace st ++ TemporaryKeyChangedFired dcId :: rest
    /\ (rest = [] \/ rest = [WriteMtpData])
    /\ (isTemporaryDcId dcId = true
        \/ (exists key, _keysForWrite st !! dcId = Some key
                        /\ ptr_eqb (Some key) persistentKey = true)
        \/ (_keysForWrite st !! dcId = None /\ persistentKey = None) ->
        _keysForWrite st' = _keysForWrite st /\ rest = []).
Proof.
  unfold dcPersistentKeyChanged, dcTemporaryKeyChanged, emit, bind, gets, modify, ret.
  simpl_state.
  destruct (isTemporaryDcId dcId) eqn:Etmp; simpl_state.
  { eexists _, []. split; [reflexivity|]. split; [reflexivity|].
    split; [left; reflexivity|]. intros _. split; reflexivity. }
  destruct (_keysForWrite st !! dcId) as [key|] eqn:Ekey;
    simpl_state; cbn [notNull andb negb].
  - destruct (ptr_eqb (Some key) persistentKey) eqn:Eptr; simpl_state.
    { eexists _, []. split; [reflexivity|]. split; [reflexivity|].
      split; [left; reflexivity|]. intros _. split; reflexivity. }
    destruct persistentKey as [new|]; simpl_state;
      (eexists _, [WriteMtpData]; split; [reflexivity|];
       split; [simpl_state; rewrite <- app_assoc; reflexivity|];
       split; [right; reflexivity|];
       intros [Ht|[(key' & Hk & Hp)|[Hn _]]]; [discriminate| |discriminate];
       inversion Hk; subst key'; congruence).
  - destruct persistentKey as [new|]; simpl_state; cbn [notNull andb negb].
    + eexists _, [WriteMtpData]. split; [reflexivity|].
      split; [simpl_state; rewrite <- app_assoc; reflexivity|].
      split; [right; reflexivity|].
      intros [Ht|[(key' & Hk & Hp)|[_ Hn]]]; discriminate.
    + eexists _, []. split; [reflexivity|]. split; [reflexivity|].
      split; [left; reflexivity|]. intros _. split; reflexivity.
Qed.

End TableProperties.

(** C10 on DC 2 with the key the registry already holds for it. *)
Lemma dcPersistentKeyChanged_fires_once_and_frames_witness :
  let st := set_keysForWrite {[ 2 := mkAuthKey 7 2 ]} (freshPrivate Normal 2) in
  exists st',
    @dcPersistentKeyChanged exampleCollaborators 2 (Some (mkAuthKey 7 2)) st = Some (tt, st')
    /\ _keysForWrite st' = _keysForWrite st
    /\ trace st' = [TemporaryKeyChangedFired 2].
Proof.
  intros st.
  destruct (@dcPersistentKeyChanged_fires_once_and_frames exampleCollaborators st 2
              (Some (mkAuthKey 7 2))) as (st' & rest & Hrun & Htrace & _ & Hframe).
  destruct Hframe as [Hkeys Hrest].
  { right. left. exists (mkAuthKey 7 2). split; reflexivity. }
  exists st'. split; [exact Hrun|]. split; [exact Hkeys|].
  rewrite Htrace, Hrest. reflexivity.
Defined.

(** ** 4.F The delayed scheduler: positions in the queue *)

(** ** 4.F The delayed scheduler *)

Lemma insertDelayed_position requestId sendAt queue :
  insertDelayed requestId sendAt queue
  = if hasRequest requestId (dueUpTo sendAt queue ++ take 1 (dueAfter sendAt queue))
    then None
    else Some (dueUpTo sendAt queue ++ (requestId, sendAt) :: dueAfter sendAt queue).
Proof.
  induction queue as [|[first second] rest IH]; simpl; [reflexivity|].
  destruct (first =? requestId) eqn:Efirst.
  - destruct (second >? sendAt); simpl; rewrite Efirst; reflexivity.
  - destruct (second >? sendAt) eqn:Edue; simpl; rewrite Efirst; [reflexivity|].
    rewrite IH. simpl.
    destruct (hasRequest requestId (dueUpTo sendAt rest ++ take 1 (dueAfter sendAt rest)));
      reflexivity.
Qed.

Lemma dueUpTo_dueAfter t queue : dueUpTo t queue ++ dueAfter t queue = queue.
Proof.
  induction queue as [|[first second] rest IH]; simpl; [reflexivity|].
  destruct (second >? t); simpl; [reflexivity|]. rewrite IH. reflexivity.
Qed.

Lemma filter_all {A : Type} (p : A -> bool) (l : list A) :
  forallb p l = true -> List.filter p l = l.
Proof.
  induction l as [|x l IH]; simpl; [reflexivity|].
  intros Hp. apply andb_prop in Hp as [Hx Hl]. rewrite Hx, IH by exact Hl. reflexivity.
Qed.

Lemma filter_none {A : Type} (p : A -> bool) (l : list A) :
  forallb (fun x => negb (p x)) l = true -> List.filter p l = [].
Proof.
  induction l as [|x l IH]; simpl; [reflexivity|].
  intros Hp. apply andb_prop in Hp as [Hx Hl].
  apply negb_true_iff in Hx. rewrite Hx. apply IH, Hl.
Qed.

Lemma forallb_impl {A : Type} (p q : A -> bool) (l : list A) :
  (forall x, p x = true -> q x = true) -> forallb p l = true -> forallb q l = true.
Proof.
  intros Hpq. induction l as [|x l IH]; simpl; [reflexivity|].
  intros Hp. apply andb_prop in Hp as [Hx Hl]. rewrite (Hpq x Hx), IH by exact Hl.
  reflexivity.
Qed.

(** Sorted queues: the head that is due and the rest are the two filters. *)
Lemma sortedByDue_split t queue :
  sortedByDue queue = true ->
  dueUpTo t queue = List.filter (fun entry => snd entry <=? t) queue
  /\ dueAfter t queue = List.filter (fun entry => t <? snd entry) queue.
Proof.
  induction queue as [|[first second] rest IH]; simpl; [auto|].
  intros Hs. apply andb_prop in Hs as [Hall Hrest].
  destruct (IH Hrest) as [IH1 IH2].
  destruct (Z.gtb_spec second t) as [Hlt|Hle].
  - destruct (Z.leb_spec second t); [lia|]. destruct (Z.ltb_spec t second); [|lia].
    split.
    + symmetry. apply filter_none. revert Hall. apply forallb_impl.
      intros entry He. apply Z.leb_le in He. apply negb_true_iff, Z.leb_gt. lia.
    + f_equal. symmetry. apply filter_all. revert Hall. apply forallb_impl.
      intros entry He. apply Z.leb_le in He. apply Z.ltb_lt. lia.
  - destruct (Z.leb_spec second t); [|lia]. destruct (Z.ltb_spec t second); [lia|].
    rewrite IH1, IH2. split; reflexivity.
Qed.

Lemma sortedByDue_app_cons front entry back :
  sortedByDue (front ++ back) = true ->
  forallb (fun e => snd e <=? snd entry) front = true ->
  forallb (fun e => snd entry <=? snd e) back = true ->
  sortedByDue (front ++ entry :: back) = true.
Proof.
  induction front as [|[first second] front IH]; simpl.
  - intros Hs _ Hb. destruct entry as [id due]. simpl in *. rewrite Hb, Hs. reflexivity.
  - intros Hs Hf Hb. apply andb_prop in Hs as [Hall Hrest].
    apply andb_prop in Hf as [Hle Hf].
    rewrite (IH Hrest Hf Hb), andb_true_r.
    rewrite forallb_app in Hall |- *. apply andb_prop in Hall as [Ha1 Ha2].
    rewrite Ha1. simpl. rewrite Hle, Ha2. reflexivity.
Qed.

Lemma dueUpTo_all t (queue : list (Z * Z)) :
  forallb (fun entry => snd entry <=? t) (dueUpTo t queue) = true.
Proof.
  induction queue as [|[first second] rest IH]; simpl; [reflexivity|].
  destruct (Z.gtb_spec second t); simpl; [reflexivity|].
  rewrite IH, andb_true_r. apply Z.leb_le. lia.
Qed.

Lemma filter_later_all t (queue : list (Z * Z)) :
  forallb (fun entry => t <=? snd entry)
    (List.filter (fun entry => t <? snd entry) queue) = true.
Proof.
  induction queue as [|[first second] rest IH]; simpl; [reflexivity|].
  destruct (Z.ltb_spec t second); simpl; [|exact IH].
  rewrite IH, andb_true_r. apply Z.leb_le. lia.
Qed.

Lemma insertDelayed_sorted requestId sendAt queue queue' :
  sortedByDue queue = true ->
  insertDelayed requestId sendAt queue = Some queue' ->
  sortedByDue queue' = true.
Proof.
  intros Hs. rewrite insertDelayed_position.
  destruct (hasRequest _ _); [discriminate|]. intros E. inversion E. subst queue'.
  apply sortedByDue_app_cons.
  - rewrite dueUpTo_dueAfter. exact Hs.
  - apply dueUpTo_all.
  - destruct (sortedByDue_split sendAt queue Hs) as [_ ->]. apply filter_later_all.
Qed.

Section SchedulerProperties.

Context `{collab : Collaborators}.

Lemma drainDelayed_resendEach now queue :
  drainDelayed now queue = resendEach (dueUpTo now queue) (dueAfter now queue).
Proof.
  induction queue as [|[requestId due] rest IH]; simpl; [reflexivity|].
  destruct (Z.geb_spec now due) as [Hle|Hgt].
  - destruct (Z.gtb_spec due now); [lia|]. simpl.
    rewrite dueUpTo_dueAfter, IH. reflexivity.
  - destruct (Z.gtb_spec due now); [|lia]. reflexivity.
Qed.

Lemma drainDelayed_queue now queue st st' :
  _delayedRequests st = queue ->
  drainDelayed now queue st = Some (tt, st') ->
  _delayedRequests st' = dueAfter now queue.
Proof.
  revert st. induction queue as [|[requestId due] rest IH]; simpl; intros st Hq Hrun.
  - inversion Hrun. subst st'. exact Hq.
  - destruct (Z.geb_spec now due) as [Hle|Hgt].
    + destruct (Z.gtb_spec due now); [lia|].
      apply bind_Some in Hrun as ([] & st1 & E1 & Hrun). inversion E1. subst st1.
      apply bind_Some in Hrun as ([] & st2 & E2 & Hrun).
      apply (IH st2); [|exact Hrun].
      rewrite (keeps_resendDelayed _delayedRequests ltac:(blind) _ _ _ _ E2).
      reflexivity.
    + destruct (Z.gtb_spec due now); [|lia].
      inversion Hrun. subst st'. exact Hq.
Qed.

Lemma onErrorDefault_flood (st : Private) (requestId secs : Z) (error : RPCError) :
  requestId <> 0 ->
  match_migrate (err_type error) = None ->
  match_flood_wait (err_type error) = Some secs ->
  0 <= err_code error < 500 ->
  onErrorDefault requestId error st
  = let st1 := set_ticks (S (ticks st)) st in
    let sendAt := clock st (ticks st) + wrap32 (secs * 1000) + 10 in
    match insertDelayed requestId sendAt (_delayedRequests st) with
    | None => Some (true, st1)
    | Some queue' => (checkDelayedRequests;; ret true) (set_delayedRequests queue' st1)
    end.
Proof.
  intros Hid Hmig Hflood Hcode.
  unfold onErrorDefault. rewrite Hmig, Hflood. cbn [notNull]. rewrite orb_true_r.
  unfold onErrorDefault_delay.
  destruct (Z.eqb_spec requestId 0) as [|_]; [contradiction|].
  destruct (Z.ltb_spec (err_code error) 0); [lia|].
  destruct (Z.geb_spec (err_code error) 500); [lia|].
  cbn [orb default]. unfold bind at 1. unfold ret at 1.
  unfold bind at 1. unfold crl_now at 1.
  unfold bind at 1. unfold gets at 1. simpl_state.
  destruct (insertDelayed requestId _ (_delayedRequests st)); [|reflexivity].
  unfold bind at 1. unfold modify at 1. reflexivity.
Qed.

(** C4, amended: a [FLOOD_WAIT_secs] error (code in 0..499, [secs * 1000]
    within [int]) on request [requestId] is due at
    [now + secs * 1000 + 10], 10 ms after [now] when [secs] is 0.  The entry
    is put before the first entry due later than that, behind the entries
    with the same due time, and the queue stays sorted; when the loop meets
    [requestId] up to and including that position, nothing is added and the
    queue is left as it is.  When the timer fires on a sorted queue, the
    entries with [due <= now] are taken off and resent in the order of the
    queue, and the others stay. *)
Theorem delayed_enqueue_position_and_drain
    (st : Private) (requestId secs : Z) (error : RPCError) :
  requestId <> 0 ->
  match_migrate (err_type error) = None ->
  match_flood_wait (err_type error) = Some secs ->
  0 <= err_code error < 500 ->
  0 <= secs * 1000 <= INT_MAX ->
  sortedByDue (_delayedRequests st) = true ->
  let now := clock st (ticks st) in
  let sendAt := now + secs * 1000 + 10 in
  let queue := _delayedRequests st in
  let met := hasRequest requestId (dueUpTo sendAt queue ++ take 1 (dueAfter sendAt queue)) in
  (met = false ->
   exists st1,
     _delayedRequests st1 = dueUpTo sendAt queue ++ (requestId, sendAt) :: dueAfter sendAt queue
     /\ sortedByDue (_delayedRequests st1) = true
     /\ onErrorDefault requestId error st = (checkDelayedRequests;; ret true) st1)
  /\ (met = true ->
      exists st1,
        onErrorDefault requestId error st = Some (true, st1)
        /\ _delayedRequests st1 = queue /\ trace st1 = trace st)
  /\ (secs = 0 -> sendAt = now + 10)
  /\ (forall st0 st',
        sortedByDue (_delayedRequests st0) = true ->
        checkDelayedRequests st0 = Some (tt, st') ->
        let fired := clock st0 (ticks st0) in
        let due := List.filter (fun entry => snd entry <=? fired) (_delayedRequests st0) in
        let later := List.filter (fun entry => fired <? snd entry) (_delayedRequests st0) in
        drainDelayed fired (_delayedRequests st0) = resendEach due later
        /\ _delayedRequests st' = later).
Proof.
  intros Hid Hmig Hflood Hcode Hsecs Hsorted now sendAt queue met.
  pose proof (onErrorDefault_flood st requestId secs error Hid Hmig Hflood Hcode) as Hrun.
  cbv zeta in Hrun. rewrite wrap32_small in Hrun by (unfold INT_MAX in Hsecs; lia).
  fold now sendAt queue in Hrun.
  rewrite insertDelayed_position in Hrun. fold met in Hrun.
  split; [|split; [|split]].
  - intros Hmet. rewrite Hmet in Hrun.
    eexists. split; [|split; [|exact Hrun]]; simpl_state; [reflexivity|].
    apply (insertDelayed_sorted requestId sendAt queue); [exact Hsorted|].
    rewrite insertDelayed_position. fold met. rewrite Hmet. reflexivity.
  - intros Hmet. rewrite Hmet in Hrun.
    eexists. split; [exact Hrun|]. split; reflexivity.
  - intros ->. unfold sendAt. lia.
  - intros st0 st' Hs0 Hcheck fired due later.
    destruct (sortedByDue_split fired (_delayedRequests st0) Hs0) as [Hdue Hlater].
    unfold due, later. rewrite <- Hdue, <- Hlater.
    split; [apply drainDelayed_resendEach|].
    unfold checkDelayedRequests in Hcheck.
    apply bind_Some in Hcheck as (t & st1 & E1 & Hcheck).
    inversion E1. subst t st1. clear E1.
    apply bind_Some in Hcheck as (q & st1 & E1 & Hcheck).
    inversion E1. subst q st1. clear E1. simpl_state_in Hcheck.
    apply bind_Some in Hcheck as ([] & st2 & E2 & Hcheck).
    apply drainDelayed_queue in E2; [|reflexivity].
    unfold fired. rewrite <- E2. unfold bind, gets in Hcheck.
    destruct (_delayedRequests st2) as [|[? ?] ?] eqn:Eq; inversion Hcheck; subst;
      simpl_state; exact Eq.
Qed.

End SchedulerProperties.

(** C4 as worded fails: with an entry due at 5010 in the queue, a
    [FLOOD_WAIT_5] at time 0 puts the new entry, due at 5010 too, behind it,
    and not at the first position whose due time is at least 5010. *)
Lemma delayed_enqueue_behind_equal_due :
  let st := set_delayedRequests [(1, 5010)] (freshPrivate Normal 2) in
  option_map (fun result => _delayedRequests (snd result))
    (@onErrorDefault exampleCollaborators 2 (mkRPCError 420 "FLOOD_WAIT_5") st)
  = Some [(1, 5010); (2, 5010)]
  /\ insertDelayed_specified 2 5010 [(1, 5010)] = Some [(2, 5010); (1, 5010)]
  /\ insertDelayed 2 5010 [(1, 5010)] <> insertDelayed_specified 2 5010 [(1, 5010)].
Proof.
  split; [vm_compute; reflexivity|]. split; [vm_compute; reflexivity|].
  vm_compute. discriminate.
Qed.

(** C4, amended, at [FLOOD_WAIT_0] for request 2 at time 0 with an entry
    due at 10 in the queue: the new entry, due at 10, goes behind it. *)
Lemma delayed_enqueue_position_and_drain_witness :
  let st := set_delayedRequests [(1, 10)] (freshPrivate Normal 2) in
  exists st1,
    _delayedRequests st1 = [(1, 10); (2, 10)]
    /\ @onErrorDefault exampleCollaborators 2 (mkRPCError 420 "FLOOD_WAIT_0") st
       = (@checkDelayedRequests exampleCollaborators;; ret true) st1.
Proof.
  intros st.
  destruct (@delayed_enqueue_position_and_drain exampleCollaborators st 2 0
              (mkRPCError 420 "FLOOD_WAIT_0")) as (Hput & _);
    [ discriminate | reflexivity | reflexivity | simpl; lia | vm_compute; split; discriminate
    | reflexivity | ].
  destruct Hput as (st1 & Hqueue & _ & Hrun); [reflexivity|].
  exists st1. split; [exact Hqueue | exact Hrun].
Defined.

(** ** 4.G Error policy: the backoff of transient errors *)

Lemma backoffSeconds_closed n : backoffSeconds n = Z.min (2 ^ Z.of_nat n) 64.
Proof.
  assert (Hsmall : forall k, (k <= 6)%nat -> backoffSeconds k = 2 ^ Z.of_nat k).
  { intros k Hk. do 7 (destruct k as [|k]; [reflexivity|]). lia. }
  assert (Hlarge : forall k, backoffSeconds (6 + k) = 64).
  { induction k as [|k IH]; [reflexivity|].
    replace (6 + S k)%nat with (S (6 + k)) by lia.
    change (backoffSeconds (S (6 + k)))
      with (nextDelay (Some (backoffSeconds (6 + k)))).
    rewrite IH. reflexivity. }
  destruct (Nat.le_gt_cases n 6) as [Hn|Hn].
  - rewrite Hsmall by exact Hn.
    assert (2 ^ Z.of_nat n <= 2 ^ 6) by (apply Z.pow_le_mono_r; lia). lia.
  - replace n with (6 + (n - 6))%nat by lia. rewrite Hlarge.
    assert (2 ^ 6 <= 2 ^ Z.of_nat (6 + (n - 6))) by (apply Z.pow_le_mono_r; lia). lia.
Qed.

Section BackoffProperties.

Context `{collab : Collaborators}.

Lemma nextRequestDelay_run requestId st :
  (forall second, _requestsDelays st !! requestId = Some second -> 0 <= second <= 64) ->
  exists delays,
    nextRequestDelay requestId st
    = Some (nextDelay (_requestsDelays st !! requestId), set_requestsDelays delays st)
    /\ delays !! requestId = Some (nextDelay (_requestsDelays st !! requestId)).
Proof.
  intros Hstored. unfold nextRequestDelay, bind, gets, nextDelay.
  destruct (_requestsDelays st !! requestId) as [second|] eqn:E.
  - specialize (Hstored second eq_refl).
    destruct (Z.gtb_spec second 60).
    + exists (_requestsDelays st). split; [|exact E].
      unfold ret. destruct st; reflexivity.
    + rewrite wrap32_small by lia. eexists. split; [reflexivity|].
      apply lookup_insert_eq.
  - eexists. split; [reflexivity|]. unfold emplace. rewrite E. apply lookup_insert_eq.
Qed.

Lemma onErrorDefault_transient (st : Private) (requestId : Z) (error : RPCError) :
  requestId <> 0 ->
  match_migrate (err_type error) = None ->
  err_code error < 0 \/ 500 <= err_code error ->
  (forall second, _requestsDelays st !! requestId = Some second -> 0 <= second <= 64) ->
  exists delays,
    let delay := nextDelay (_requestsDelays st !! requestId) in
    let st1 := set_ticks (S (ticks st)) (set_requestsDelays delays st) in
    let sendAt := clock st (ticks st) + delay * 1000 + 10 in
    delays !! requestId = Some delay
    /\ onErrorDefault requestId error st
       = match insertDelayed requestId sendAt (_delayedRequests st) with
         | None => Some (true, st1)
         | Some queue' => (checkDelayedRequests;; ret true) (set_delayedRequests queue' st1)
         end.
Proof.
  intros Hid Hmig Hcode Hstored.
  destruct (nextRequestDelay_run requestId st Hstored) as (delays & Hnext & Hdelay).
  exists delays. cbv zeta. split; [exact Hdelay|].
  assert (Hrange : 0 <= nextDelay (_requestsDelays st !! requestId) <= 128).
  { unfold nextDelay. destruct (_requestsDelays st !! requestId) as [second|]; [|lia].
    specialize (Hstored second eq_refl). destruct (second >? 60); lia. }
  unfold onErrorDefault. rewrite Hmig.
  assert (Hbranch : (err_code error <? 0) || (err_code error >=? 500) = true).
  { destruct Hcode as [Hc|Hc].
    - destruct (Z.ltb_spec (err_code error) 0); [reflexivity | lia].
    - destruct (Z.geb_spec (err_code error) 500); [apply orb_true_r | lia]. }
  rewrite Hbranch. cbn [orb].
  unfold onErrorDefault_delay.
  destruct (Z.eqb_spec requestId 0) as [|_]; [contradiction|].
  rewrite Hbranch.
  rewrite (bind_eq _ _ _ _ _ Hnext).
  unfold bind at 1. unfold crl_now at 1.
  unfold bind at 1. unfold gets at 1. simpl_state.
  rewrite wrap32_small by lia.
  destruct (insertDelayed requestId _ (_delayedRequests st)); [|reflexivity].
  unfold bind at 1. unfold modify at 1. reflexivity.
Qed.

Lemma onErrorDefault_transient_delay (st st' : Private) (requestId : Z)
    (error : RPCError) (handled : bool) :
  requestId <> 0 ->
  match_migrate (err_type error) = None ->
  err_code error < 0 \/ 500 <= err_code error ->
  (forall second, _requestsDelays st !! requestId = Some second -> 0 <= second <= 64) ->
  onErrorDefault requestId error st = Some (handled, st') ->
  handled = true
  /\ _requestsDelays st' !! requestId = Some (nextDelay (_requestsDelays st !! requestId)).
Proof.
  intros Hid Hmig Hcode Hstored Hrun.
  destruct (onErrorDefault_transient st requestId error Hid Hmig Hcode Hstored)
    as (delays & Hdelay & Heq).
  cbv zeta in Heq. rewrite Heq in Hrun. clear Heq.
  destruct (insertDelayed requestId _ (_delayedRequests st)) as [queue'|].
  - apply bind_Some in Hrun as ([] & st2 & Hcheck & Hret).
    inversion Hret. subst. split; [reflexivity|].
    rewrite (keeps_checkDelayedRequests (fun s => _requestsDelays s !! requestId)
               ltac:(blind) ltac:(intros ? ?; reflexivity) _ _ _ Hcheck).
    simpl_state. exact Hdelay.
  - inversion Hrun. subst. split; [reflexivity|]. simpl_state. exact Hdelay.
Qed.

Lemma consecutiveErrors_stored requestId error n last st' :
  requestId <> 0 ->
  match_migrate (err_type error) = None ->
  err_code error < 0 \/ 500 <= err_code error ->
  consecutiveErrors requestId error n last st' ->
  _requestsDelays st' !! requestId = Some (backoffSeconds n)
  /\ _requestsDelays last !! requestId
     = match n with O => None | S n' => Some (backoffSeconds n') end.
Proof.
  intros Hid Hmig Hcode Hrun.
  induction Hrun as [last handled st' Hnone Hcall
                    |n before st1 last handled st' Hprev IH Hsame Hcall].
  - destruct (onErrorDefault_transient_delay last st' requestId error handled
                Hid Hmig Hcode) as [_ Hd]; [rewrite Hnone; discriminate | exact Hcall|].
    rewrite Hd, Hnone. split; reflexivity.
  - destruct IH as [IH _]. rewrite <- Hsame in IH.
    destruct (onErrorDefault_transient_delay last st' requestId error handled
                Hid Hmig Hcode) as [_ Hd]; [|exact Hcall|].
    + rewrite IH. intros second E. inversion E. subst second.
      rewrite backoffSeconds_closed. lia.
    + rewrite Hd, IH. split; reflexivity.
Qed.

(** C1, amended: on error number [n + 1] in a row with code [< 0] or
    [>= 500] for a request id, [onErrorDefault] returns handled and the
    backoff delay in seconds is [min (2 ^ n) 64]: 1 on the first error,
    doubled on each next one while the stored delay is at most 60, so that it
    stops at 64; the request goes to the delayed queue with due time
    [now + delay * 1000 + 10] ms, unless the queue holds its id before that
    place, and [checkDelayedRequests] runs. *)
Theorem transient_backoff_doubles_up_to_64
    (requestId : Z) (error : RPCError) (n : nat) (last st' : Private) :
  requestId <> 0 ->
  match_migrate (err_type error) = None ->
  err_code error < 0 \/ 500 <= err_code error ->
  consecutiveErrors requestId error n last st' ->
  let delay := Z.min (2 ^ Z.of_nat n) 64 in
  let sendAt := clock last (ticks last) + delay * 1000 + 10 in
  1 <= delay <= 64
  /\ _requestsDelays st' !! requestId = Some delay
  /\ exists delays,
       let st1 := set_ticks (S (ticks last)) (set_requestsDelays delays last) in
       delays !! requestId = Some delay
       /\ onErrorDefault requestId error last
          = match insertDelayed requestId sendAt (_delayedRequests last) with
            | None => Some (true, st1)
            | Some queue' =>
                (checkDelayedRequests;; ret true) (set_delayedRequests queue' st1)
            end.
Proof.
  intros Hid Hmig Hcode Hrun delay sendAt.
  destruct (consecutiveErrors_stored requestId error n last st' Hid Hmig Hcode Hrun)
    as [Hafter Hbefore].
  assert (Hdelay : nextDelay (_requestsDelays last !! requestId) = delay).
  { rewrite Hbefore. unfold delay. rewrite <- backoffSeconds_closed.
    destruct n; reflexivity. }
  assert (Hpow : 0 < 2 ^ Z.of_nat n) by (apply Z.pow_pos_nonneg; lia).
  split; [unfold delay; lia|].
  split; [rewrite Hafter; unfold delay; rewrite backoffSeconds_closed; reflexivity|].
  destruct (onErrorDefault_transient last requestId error Hid Hmig Hcode)
    as (delays & Hstored & Heq).
  { rewrite Hbefore. destruct n as [|n']; [discriminate|].
    intros second E. inversion E. subst second. rewrite backoffSeconds_closed. lia. }
  cbv zeta in Heq. rewrite Hdelay in Hstored, Heq.
  exists delays. cbv zeta. split; [exact Hstored | exact Heq].
Qed.

End BackoffProperties.

(** C1 as worded fails: the seventh error in a row with code 500 leaves a
    delay of 64 seconds, above the cap of 60. *)
Lemma transient_backoff_exceeds_60 :
  option_map (fun result => _requestsDelays (snd result) !! 7)
    (repeatM 7 (@onErrorDefault exampleCollaborators 7 (mkRPCError 500 "INTERNAL"))
       (freshPrivate Normal 2))
  = Some (Some 64)
  /\ ~ 64 <= 60.
Proof. split; [vm_compute; reflexivity | lia]. Qed.

(** C1, amended, at the first and the second error in a row for request 7:
    delays of 1 and 2 seconds. *)
Lemma transient_backoff_doubles_up_to_64_witness :
  let error := mkRPCError 500 "INTERNAL" in
  let st0 := freshPrivate Normal 2 in
  let st1 := stateAfter (@onErrorDefault exampleCollaborators 7 error) st0 in
  let st2 := stateAfter (@onErrorDefault exampleCollaborators 7 error) st1 in
  _requestsDelays st1 !! 7 = Some 1 /\ _requestsDelays st2 !! 7 = Some 2.
Proof.
  intros error st0 st1 st2.
  assert (Hfirst : @consecutiveErrors exampleCollaborators 7 error 0 st0 st1).
  { apply (consecutive_first 7 error st0 true); vm_compute; reflexivity. }
  assert (Hsecond : @consecutiveErrors exampleCollaborators 7 error 1 st1 st2).
  { apply (consecutive_next 7 error 0%nat st0 st1 st1 true);
      [exact Hfirst | reflexivity | vm_compute; reflexivity]. }
  split.
  - apply (@transient_backoff_doubles_up_to_64 exampleCollaborators 7 error 0 st0 st1);
      [discriminate | reflexivity | right; simpl; lia | exact Hfirst].
  - apply (@transient_backoff_doubles_up_to_64 exampleCollaborators 7 error 1 st1 st2);
      [discriminate | reflexivity | right; simpl; lia | exact Hsecond].
Defined.

(** Takes a run [m st = Some (a, st')] apart along the structure of [m]. *)
Ltac minv H :=
  lazymatch type of H with
  | bind _ _ _ = Some _ =>
      let a := fresh "a" in
      let s := fresh "st" in
      let E := fresh "E" in
      apply bind_Some in H as (a & s & E & H); minv E; minv H
  | ret _ _ = Some _ => unfold ret in H; inversion H; clear H; subst
  | gets _ _ = Some _ => unfold gets in H; inversion H; clear H; subst
  | modify _ _ = Some _ => unfold modify in H; inversion H; clear H; subst
  | emit _ _ = Some _ => unfold emit, modify in H; inversion H; clear H; subst
  | crl_now _ = Some _ => unfold crl_now in H; inversion H; clear H; subst
  | failed _ = Some _ => discriminate H
  | Assert ?b _ = Some _ =>
      let E := fresh "E" in
      destruct b eqn:E; [unfold Assert in H; minv H | discriminate H]
  | when ?b _ _ = Some _ =>
      let E := fresh "E" in
      destruct b eqn:E; unfold when in H; minv H
  | (if ?b then _ else _) _ = Some _ =>
      let E := fresh "E" in
      destruct b eqn:E; minv H
  | (match ?o with _ => _ end) _ = Some _ =>
      let E := fresh "E" in
      destruct o eqn:E; minv H
  | _ => idtac
  end.

(** ** 4.G Error policy: unauthorized requests *)

Section UnauthorizedProperties.

Context `{collab : Collaborators}.

(** The facade's [send] to the main DC: it needs the main session, takes
    the next id, and hands the request to the main session. *)
Lemma send_to_main data callbacks msCanWait needsLayer st requestId st' :
  send data callbacks 0 msCanWait needsLayer 0 st = Some (requestId, st') ->
  exists main,
    _mainSession st = Some main
    /\ requestId = fst (Allocator.GetNextRequestId (GlobalAtomicRequestId st))
    /\ trace st'
       = trace st ++ [SessionSendPrepared main
                        (mkRequest data requestId needsLayer None (clock st (ticks st)))
                        msCanWait].
Proof.
  unfold send, send_over. intros Hrun.
  apply bind_Some in Hrun as (counter & st0 & E0 & Hrun). minv E0.
  destruct (Allocator.GetNextRequestId (GlobalAtomicRequestId st0)) as [id counter'] eqn:Eid.
  unfold sendRequest_over, getSession in Hrun. simpl getSession_fuel in Hrun.
  unfold mainSessionAsserted, storeRequest, registerRequest, getRequest in Hrun.
  minv Hrun; try discriminate;
    (eexists; split; [reflexivity|]; split; [reflexivity|]; simpl_state; reflexivity).
Qed.

Lemma send_to_main_returns data callbacks msCanWait needsLayer st main :
  _mainSession st = Some main ->
  exists st', send data callbacks 0 msCanWait needsLayer 0 st
              = Some (fst (Allocator.GetNextRequestId (GlobalAtomicRequestId st)), st').
Proof.
  intros Hmain. unfold send, send_over. unfold bind at 1. unfold gets at 1.
  destruct (Allocator.GetNextRequestId (GlobalAtomicRequestId st)) as [id counter'].
  unfold sendRequest_over, getSession. simpl getSession_fuel.
  unfold mainSessionAsserted, storeRequest, registerRequest, getRequest, emit, when.
  unfold bind, gets, modify, ret, crl_now. simpl_state. rewrite Hmain.
  destruct (notNull (onDone callbacks) || notNull (onFail callbacks)); simpl_state;
    destruct (negb (notNull (_requestMap st !! id))); eexists; reflexivity.
Qed.

Lemma onErrorDefault_unauthorized_branch (st : Private) (requestId : Z) (error : RPCError) :
  let err := err_type error in
  let code := err_code error in
  let badGuestDc := (code =? 400) && String.eqb err "FILE_ID_INVALID" in
  match_migrate err = None ->
  match_flood_wait err = None ->
  (code = 401 /\ err <> "AUTH_KEY_PERM_EMPTY"%string)
  \/ (badGuestDc = true /\ requestId ∉ _badGuestDcRequests st) ->
  onErrorDefault requestId error st
  = onErrorDefault_unauthorized requestId error badGuestDc st.
Proof.
  intros err code badGuestDc Hmig Hflood Hcase.
  unfold onErrorDefault. fold err code. rewrite Hmig, Hflood. fold badGuestDc.
  assert (Hcode : (code <? 0) || (code >=? 500) || notNull (@None Z) = false).
  { cbn [notNull]. rewrite orb_false_r.
    destruct Hcase as [[-> _]|[Hbad _]]; [reflexivity|].
    unfold badGuestDc in Hbad. apply andb_prop in Hbad as [Hc _].
    apply Z.eqb_eq in Hc. rewrite Hc. reflexivity. }
  rewrite Hcode. unfold bind at 1. unfold gets at 1.
  assert (Hcond : (code =? 401) && negb (String.eqb err "AUTH_KEY_PERM_EMPTY")
                  || badGuestDc && negb (bool_decide (requestId ∈ _badGuestDcRequests st))
                  = true).
  { destruct Hcase as [[-> Hne]|[-> Hnot]].
    - apply String.eqb_neq in Hne. rewrite Hne. reflexivity.
    - rewrite bool_decide_eq_false_2 by exact Hnot. apply orb_true_r. }
  rewrite Hcond. reflexivity.
Qed.

(** C3, amended: for an error of code 401 (type other than
    [AUTH_KEY_PERM_EMPTY]) or of code 400 and type [FILE_ID_INVALID] on a
    request not yet in the bad-guest-DC set, that is neither a migration nor
    a flood wait: with [newBare = BareDcId |current routing|], when
    [newBare] is 0, is the main DC, or there is no authorization, the error
    is not handled, and the global fail handler is called only for the 401
    error and only when one is set; otherwise the error is handled, the
    request id is appended to the waiters of [newBare], a [FILE_ID_INVALID]
    request enters the bad-guest-DC set, and an export request is sent to the
    main session exactly when there were no waiters, its id being mapped to
    [|current routing|], the shifted DC id, in the table of exports. *)
Theorem unauthorized_surfaces_or_exports
    (st : Private) (requestId : Z) (error : RPCError) :
  let err := err_type error in
  let code := err_code error in
  let badGuestDc := (code =? 400) && String.eqb err "FILE_ID_INVALID" in
  let current := default 0 (_requestsByDc st !! requestId) in
  let newBare := BareDcId (Z.abs current) in
  let waiters := default [] (_authWaiters st !! newBare) in
  match_migrate err = None ->
  match_flood_wait err = None ->
  (code = 401 /\ err <> "AUTH_KEY_PERM_EMPTY"%string)
  \/ (badGuestDc = true /\ requestId ∉ _badGuestDcRequests st) ->
  (newBare = 0
   \/ (_mainDcId st <> kNoneMainDc
       /\ (newBare = _mainDcId st \/ sessionExists st = false)) ->
   onErrorDefault requestId error st
   = Some (false,
           if negb badGuestDc && _globalHandler_onFail st
           then set_trace (trace st ++ [GlobalFailCalled requestId error]) st
           else st))
  /\ (newBare <> 0 -> _mainDcId st <> kNoneMainDc -> newBare <> _mainDcId st ->
      sessionExists st = true ->
      (is_Some (_mainSession st) \/ waiters <> [] ->
       exists st', onErrorDefault requestId error st = Some (true, st'))
      /\ forall handled st',
          onErrorDefault requestId error st = Some (handled, st') ->
          handled = true
          /\ _authWaiters st' = <[newBare := waiters ++ [requestId]]> (_authWaiters st)
          /\ _badGuestDcRequests st'
             = (if badGuestDc then {[requestId]} ∪ _badGuestDcRequests st
                else _badGuestDcRequests st)
          /\ (waiters = [] ->
              exists main exportRequestId,
                _mainSession st = Some main
                /\ exportRequestId
                   = fst (Allocator.GetNextRequestId (GlobalAtomicRequestId st))
                /\ trace st'
                   = trace st ++ [SessionSendPrepared main
                                    (mkRequest (Serialize (MTPauth_ExportAuthorization newBare))
                                       exportRequestId sendNeedsLayer None
                                       (clock st (ticks st)))
                                    0]
                /\ _authExportRequests st'
                   = emplace exportRequestId (Z.abs current) (_authExportRequests st))
          /\ (waiters <> [] ->
              trace st' = trace st
              /\ _authExportRequests st' = _authExportRequests st
              /\ GlobalAtomicRequestId st' = GlobalAtomicRequestId st)).
Proof.
  intros err code badGuestDc current newBare waiters Hmig Hflood Hcase.
  rewrite (onErrorDefault_unauthorized_branch st requestId error Hmig Hflood Hcase).
  fold err code badGuestDc. clear Hcase. clearbody badGuestDc.
  split.
  - intros Hsurface.
    unfold onErrorDefault_unauthorized, queryRequestByDc, mainDcId, hasAuthorization.
    unfold bind at 1. unfold gets at 1. fold current newBare.
    match goal with |- bind ?m _ _ = _ => assert (Hs : m st = Some (true, st)) end.
    { destruct (Z.eqb_spec newBare 0) as [|Hnz]; [reflexivity|].
      destruct Hsurface as [|[Hmain Hsurface]]; [contradiction|].
      unfold bind, gets, Assert.
      destruct (Z.eqb_spec (_mainDcId st) kNoneMainDc); [contradiction|]. cbn [negb].
      unfold ret.
      destruct (Z.eqb_spec newBare (_mainDcId st)) as [|Hne]; [reflexivity|].
      destruct Hsurface as [Heq|Hno]; [contradiction | rewrite Hno; reflexivity]. }
    rewrite (bind_eq _ _ _ _ _ Hs).
    unfold bind, gets, when, emit, modify, ret.
    destruct (negb badGuestDc && _globalHandler_onFail st); reflexivity.
  - intros Hnz Hmain Hne Hauth.
    eassert (Heq : onErrorDefault_unauthorized requestId error badGuestDc st = _).
    { unfold onErrorDefault_unauthorized, queryRequestByDc, mainDcId, hasAuthorization.
      unfold bind at 1. unfold gets at 1. fold current newBare.
      match goal with |- bind ?m _ _ = _ => assert (Hs : m st = Some (false, st)) end.
      { destruct (Z.eqb_spec newBare 0) as [|_]; [contradiction|].
        unfold bind, gets, Assert.
        destruct (Z.eqb_spec (_mainDcId st) kNoneMainDc); [contradiction|]. cbn [negb].
        unfold ret.
        destruct (Z.eqb_spec newBare (_mainDcId st)) as [|_]; [contradiction|].
        rewrite Hauth. reflexivity. }
      rewrite (bind_eq _ _ _ _ _ Hs). reflexivity. }
    rewrite Heq. clear Heq.
    unfold authWaitersRef, pushWaiter.
    assert (Hwaiters : forall v : gmap Z (list Z),
              v = emplace newBare [] (_authWaiters st) ->
              default [] (v !! newBare) = waiters
              /\ <[newBare := default [] (v !! newBare) ++ [requestId]]> v
                 = <[newBare := waiters ++ [requestId]]> (_authWaiters st)).
    { intros v ->. unfold waiters, emplace.
      destruct (_authWaiters st !! newBare) as [w|] eqn:Ew.
      - rewrite Ew. split; reflexivity.
      - rewrite lookup_insert_eq. simpl. split; [reflexivity|].
        apply insert_insert_eq. }
    split.
    + intros Hcan.
      unfold bind at 1. unfold bind at 1. unfold modify at 1. unfold gets at 1.
      simpl_state.
      destruct (Hwaiters _ eq_refl) as [Hw _]. rewrite Hw.
      destruct waiters as [|w ws] eqn:Ewaiters; cbn [length Nat.eqb when].
      * destruct Hcan as [[main Hmainsession]|Hcan]; [|contradiction].
        destruct (send_to_main_returns
                    (Serialize (MTPauth_ExportAuthorization newBare))
                    {| onDone := Some ExportCallback; onFail := Some ExportCallback |}
                    0 sendNeedsLayer
                    (set_authWaiters (emplace newBare [] (_authWaiters st)) st) main
                    Hmainsession) as (st1 & Hsend).
        unfold bind at 1. unfold bind at 1. rewrite Hsend.
        unfold bind, modify, when, ret.
        destruct badGuestDc; eexists; reflexivity.
      * unfold bind, modify, when, ret. destruct badGuestDc; eexists; reflexivity.
    + intros handled st' Hrun.
      apply bind_Some in Hrun as (ws & st1 & E1 & Hrun). minv E1.
      simpl_state_in Hrun.
      destruct (Hwaiters _ eq_refl) as [Hw Hins]. rewrite Hw in Hrun.
      apply bind_Some in Hrun as ([] & st2 & E2 & Hrun).
      apply bind_Some in Hrun as ([] & st3 & E3 & Hrun). minv E3.
      apply bind_Some in Hrun as ([] & st4 & E4 & Hrun).
      inversion Hrun. subst handled st4. clear Hrun.
      destruct waiters as [|w ws] eqn:Ewaiters; cbn [length Nat.eqb when] in E2.
      * apply bind_Some in E2 as (exportRequestId & st5 & E5 & E2). minv E2.
        pose proof (keeps_send (fun s => (_authWaiters s, _badGuestDcRequests s,
                                          _authExportRequests s))
                      ltac:(blind) _ _ _ _ _ _ _ _ _ E5) as Hkept.
        simpl_state_in Hkept. inversion Hkept as [[Hk1 Hk2 Hk3]]. clear Hkept.
        apply send_to_main in E5 as (main & Hmainsession & Hid & Htrace).
        simpl_state_in Hmainsession. simpl_state_in Hid. simpl_state_in Htrace.
        split; [reflexivity|].
        split; [minv E4; simpl_state; rewrite Hk1; exact Hins|].
        split; [minv E4; simpl_state; rewrite Hk2; reflexivity|].
        split; [|intros Hne'; contradiction].
        intros _. exists main, exportRequestId.
        split; [exact Hmainsession|]. split; [exact Hid|].
        split; minv E4; simpl_state;
          [exact Htrace | exact Htrace | rewrite Hk3; reflexivity | rewrite Hk3; reflexivity].
      * minv E2.
        split; [reflexivity|].
        split; [minv E4; simpl_state; exact Hins|].
        split; [minv E4; simpl_state; reflexivity|].
        split; [intros Hnil; discriminate|].
        intros _. minv E4; simpl_state; repeat split; reflexivity.
Qed.

End UnauthorizedProperties.

(** C3 as worded fails twice.  A [FILE_ID_INVALID] error on request 7, routed
    to the main DC, is not handled, and the global fail handler, though set,
    is not called.  A 401 error on request 8, routed to shifted DC 160003
    (bare DC 3), starts export request 1, which the table of exports maps to
    160003 and not to 3. *)
Lemma unauthorized_not_as_worded :
  let st := set_requestsByDc {[ 7 := 2; 8 := 160003 ]} startedPrivate in
  _globalHandler_onFail st = true
  /\ option_map (fun result => (fst result, trace (snd result)))
       (@onErrorDefault exampleCollaborators 7 (mkRPCError 400 "FILE_ID_INVALID") st)
     = Some (false, trace st)
  /\ @BareDcId exampleCollaborators (Z.abs 160003) = 3
  /\ option_map (fun result => (fst result, _authExportRequests (snd result) !! 1))
       (@onErrorDefault exampleCollaborators 8 (mkRPCError 401 "AUTH_KEY_UNREGISTERED") st)
     = Some (true, Some 160003)
  /\ 160003 <> 3.
Proof.
  split; [reflexivity|]. split; [vm_compute; reflexivity|].
  split; [reflexivity|]. split; [vm_compute; reflexivity | lia].
Qed.

(** C3, amended, at a 401 error on request 8 routed to shifted DC 160003
    while DC 2 is the main one: handled, and request 8 waits for DC 3. *)
Lemma unauthorized_surfaces_or_exports_witness :
  let st := set_requestsByDc {[ 7 := 2; 8 := 160003 ]} startedPrivate in
  exists st',
    @onErrorDefault exampleCollaborators 8 (mkRPCError 401 "AUTH_KEY_UNREGISTERED") st
    = Some (true, st')
    /\ _authWaiters st' = <[3 := [8]]> (_authWaiters st).
Proof.
  intros st.
  destruct (@unauthorized_surfaces_or_exports exampleCollaborators st 8
              (mkRPCError 401 "AUTH_KEY_UNREGISTERED")) as [_ Hexport];
    [reflexivity | reflexivity | left; split; [reflexivity | discriminate] |].
  destruct Hexport as [Hreturns Hhandled];
    [vm_compute; discriminate | vm_compute; discriminate | vm_compute; discriminate
    | reflexivity |].
  destruct Hreturns as (st' & Hrun); [left; vm_compute; eexists; reflexivity|].
  exists st'. split; [exact Hrun|].
  destruct (Hhandled true st' Hrun) as (_ & Hwaiters & _). exact Hwaiters.
Defined.

(** ** 4.H The config controller *)

Section ConfigProperties.

Context `{collab : Collaborators}.

Lemma send_to_main_counter data callbacks msCanWait needsLayer st requestId st' :
  send data callbacks 0 msCanWait needsLayer 0 st = Some (requestId, st') ->
  GlobalAtomicRequestId st' = snd (Allocator.GetNextRequestId (GlobalAtomicRequestId st)).
Proof.
  unfold send, send_over. intros Hrun.
  apply bind_Some in Hrun as (counter & st0 & E0 & Hrun). minv E0.
  destruct (Allocator.GetNextRequestId (GlobalAtomicRequestId st0)) as [id counter'] eqn:Eid.
  unfold sendRequest_over, getSession in Hrun. simpl getSession_fuel in Hrun.
  unfold mainSessionAsserted, storeRequest, registerRequest, getRequest in Hrun.
  minv Hrun; try discriminate; simpl_state; reflexivity.
Qed.

Lemma requestConfig_invariant st st' :
  configInvariant st -> requestConfig st = Some (tt, st') -> configInvariant st'.
Proof.
  intros (Hloader & Hcdn & Hcounter) Hrun.
  unfold requestConfig, isKeysDestroyer, makeConfigLoader, assignConfigLoader in Hrun.
  minv Hrun; unfold configInvariant; simpl_state.
  - auto.
  - apply orb_false_elim in E as [Hnull _]. rewrite Hnull in Hloader |- *.
    rewrite Hloader. cbn [notNull]. split; [reflexivity|]. auto.
Qed.

Lemma configStep_invariant st st' :
  configInvariant st -> configStep st st' -> configInvariant st'.
Proof.
  intros Hinv Hstep. destruct Hstep as [op st st' Hrun|st st' H1 H2 H3 H4 H5].
  - destruct op; simpl in Hrun.
    + exact (requestConfig_invariant _ _ Hinv Hrun).
    + unfold requestConfigIfOld in Hrun.
      apply bind_Some in Hrun as (now & st1 & E1 & Hrun). minv E1.
      apply bind_Some in Hrun as (last & st2 & E2 & Hrun). minv E2.
      destruct (_ >=? _).
      * apply (requestConfig_invariant _ _) in Hrun; [exact Hrun|].
        destruct Hinv as (? & ? & ?). unfold configInvariant. simpl_state. auto.
      * minv Hrun. destruct Hinv as (? & ? & ?). unfold configInvariant. simpl_state. auto.
    + unfold requestConfigIfExpired in Hrun.
      apply bind_Some in Hrun as (expires & st1 & E1 & Hrun). minv E1.
      apply bind_Some in Hrun as (now & st2 & E2 & Hrun). minv E2.
      destruct (_ >? _).
      * minv Hrun. destruct Hinv as (? & ? & ?). unfold configInvariant. simpl_state. auto.
      * apply (requestConfig_invariant _ _) in Hrun; [exact Hrun|].
        destruct Hinv as (? & ? & ?). unfold configInvariant. simpl_state. auto.
    + unfold configLoadDone, assignConfigLoader in Hrun.
      apply bind_Some in Hrun as ([] & st1 & E1 & Hrun). minv E1.
      apply bind_Some in Hrun as (loaded & st2 & E2 & Hrun). minv E2.
      apply bind_Some in Hrun as ([] & st3 & E3 & Hrun). minv E3.
      apply bind_Some in Hrun as ([] & st4 & E4 & Hrun).
      apply bind_Some in Hrun as ([] & st5 & E5 & Hrun). minv E5.
      apply bind_Some in Hrun as ([] & st6 & E6 & Hrun). minv E6.
      apply bind_Some in Hrun as (now & st7 & E7 & Hrun). minv E7.
      apply bind_Some in Hrun as ([] & st8 & E8 & Hrun). minv E8.
      assert (Hmid : configInvariant st4).
      { destruct Hinv as (Hloader & Hcdn & Hcounter).
        minv E4; unfold configInvariant; simpl_state; rewrite Hloader;
          (split; [destruct (_configLoader st); reflexivity | auto]). }
      unfold requestConfigIfExpired in Hrun.
      apply bind_Some in Hrun as (expires & st9 & E9 & Hrun). minv E9.
      apply bind_Some in Hrun as (now' & st10 & E10 & Hrun). minv E10.
      destruct (_ >? _).
      * minv Hrun. destruct Hmid as (? & ? & ?). unfold configInvariant. simpl_state. auto.
      * apply (requestConfig_invariant _ _) in Hrun; [exact Hrun|].
        destruct Hmid as (? & ? & ?). unfold configInvariant. simpl_state. auto.
    + destruct Hinv as (Hloader & Hcdn & Hcounter).
      unfold requestCDNConfig in Hrun.
      apply bind_Some in Hrun as (pending & st1 & E1 & Hrun). minv E1.
      apply bind_Some in Hrun as (main & st2 & E2 & Hrun). minv E2.
      destruct (negb (_cdnConfigLoadRequestId st2 =? 0) || _) eqn:Eguard.
      * minv Hrun. unfold configInvariant. auto.
      * apply orb_false_elim in Eguard as [Hpending _].
        apply negb_false_iff in Hpending. rewrite Hpending in Hcdn.
        apply bind_Some in Hrun as (requestId & st3 & E3 & Hrun). minv Hrun.
        pose proof (keeps_send (fun s => (_configLoader s, liveConfigLoaders s,
                                          liveCdnConfigRequests s))
                      ltac:(blind) _ _ _ _ _ _ _ _ _ E3) as Hkept.
        inversion Hkept as [[Hk1 Hk2 Hk3]]. clear Hkept.
        pose proof (send_to_main_counter _ _ _ _ _ _ _ E3) as Hcounter'.
        apply send_to_main in E3 as (_ & _ & Hid & _).
        pose proof (GetNextRequestId_in_range _ Hcounter) as Hnext.
        destruct (Allocator.GetNextRequestId (GlobalAtomicRequestId st2)) as [id counter'].
        simpl in Hid, Hcounter'. subst requestId. destruct Hnext as (Hpos & Hrange & _).
        unfold configInvariant. simpl_state.
        rewrite Hk1, Hk2, Hk3, Hcounter'.
        split; [exact Hloader|]. split; [|exact Hrange].
        destruct (Z.eqb_spec id 0); lia.
    + destruct Hinv as (Hloader & Hcdn & Hcounter).
      unfold cdnConfigDone in Hrun. minv Hrun.
      unfold configInvariant. simpl_state. split; [exact Hloader|].
      split; [|exact Hcounter].
      destruct (Z.eqb (_cdnConfigLoadRequestId st) 0); simpl; lia.
  - destruct Hinv as (Hloader & Hcdn & Hcounter).
    unfold configInvariant. rewrite H1, H2, H3, H4. auto.
Qed.

(** C8: from a state where the records of the loader and of the CDN
    configuration request agree with what is alive, whatever calls follow,
    at most one config loader and at most one CDN configuration request are
    alive; [requestConfig] changes nothing while a loader is active or in
    key-destroyer mode, and [requestCDNConfig] changes nothing while a
    request is pending or when there is no main DC. *)
Theorem config_loader_and_cdn_request_single (st : Private) :
  configInvariant st ->
  (forall st', rtc configStep st st' ->
     (liveConfigLoaders st' <= 1)%nat /\ (liveCdnConfigRequests st' <= 1)%nat)
  /\ (forall st0,
        notNull (_configLoader st0) = true \/ _mode st0 = KeysDestroyer ->
        requestConfig st0 = Some (tt, st0))
  /\ (forall st0,
        _cdnConfigLoadRequestId st0 <> 0 \/ _mainDcId st0 = kNoneMainDc ->
        requestCDNConfig st0 = Some (tt, st0)).
Proof.
  intros Hinv. split; [|split].
  - intros st' Hsteps.
    assert (Hinv' : configInvariant st').
    { induction Hsteps as [|st0 st1 st2 Hstep _ IH]; [exact Hinv|].
      apply IH. exact (configStep_invariant _ _ Hinv Hstep). }
    destruct Hinv' as (Hloader & Hcdn & _). rewrite Hloader.
    split; [destruct (notNull (_configLoader st')); lia|].
    destruct (Z.eqb (_cdnConfigLoadRequestId st') 0); lia.
  - intros st0 Hguard. unfold requestConfig, isKeysDestroyer, bind, gets.
    destruct Hguard as [Hloader|Hmode]; [rewrite Hloader; reflexivity|].
    rewrite Hmode, orb_true_r. reflexivity.
  - intros st0 Hguard. unfold requestCDNConfig, bind, gets.
    destruct Hguard as [Hpending|Hmain].
    + destruct (Z.eqb_spec (_cdnConfigLoadRequestId st0) 0); [contradiction|]. reflexivity.
    + rewrite Hmain, Z.eqb_refl, orb_true_r. reflexivity.
Qed.

End ConfigProperties.

(** C8 on the example instance: after [start] a loader is active, and a
    second [requestConfig] leaves the state as it is, with one loader alive. *)
Lemma config_loader_and_cdn_request_single_witness :
  requestConfig startedPrivate = Some (tt, startedPrivate)
  /\ (liveConfigLoaders startedPrivate <= 1)%nat.
Proof.
  assert (Hinv : configInvariant startedPrivate).
  { vm_compute. split; [reflexivity|]. split; [lia|]. split; congruence. }
  destruct (@config_loader_and_cdn_request_single exampleCollaborators startedPrivate Hinv)
    as (Hlive & Hconfig & _).
  split.
  - apply Hconfig. left. reflexivity.
  - apply (Hlive startedPrivate). apply rtc_refl.
Defined.

(** ** 4.E, 4.J Sessions, [send] and [cancel] *)

Section SendCancelProperties.

Context `{collab : Collaborators}.


Lemma getSession_found fuel shiftedDcId st session :
  shiftedDcId <> 0 ->
  (BareDcId shiftedDcId = 0 -> is_Some (_mainSession st)) ->
  _sessions st !! resolvedDcId st shiftedDcId = Some session ->
  getSession_fuel fuel shiftedDcId st = Some (session, st).
Proof.
  intros Hnz Hmain Hfound. unfold resolvedDcId in Hfound.
  destruct fuel; simpl; unfold mainSessionAsserted, findSession;
    (destruct (Z.eqb_spec shiftedDcId 0); [contradiction|]);
    (destruct (Z.eqb_spec (BareDcId shiftedDcId) 0) as [Hz|_];
     [destruct (Hmain Hz) as [main Hm]; unfold bind, gets, ret; rewrite Hm;
      rewrite Hm in Hfound; simpl in Hfound |- *; rewrite Hfound; reflexivity
     |unfold bind, gets, ret; rewrite Hfound; reflexivity]).
Qed.







(** *** The fuel of [getSession] is enough *)

Lemma bind_ext {A B : Type} (m : M A) (k1 k2 : A -> M B) st :
  (forall a st1, m st = Some (a, st1) -> k1 a st1 = k2 a st1) ->
  bind m k1 st = bind m k2 st.
Proof.
  intros Hk. unfold bind. destruct (m st) as [[a st1]|] eqn:E; [|reflexivity].
  apply Hk. reflexivity.
Qed.

Lemma getSession_fuel_stored fuel shiftedDcId st :
  BareDcId shiftedDcId <> 0 ->
  is_Some (_sessions st !! shiftedDcId) ->
  getSession_fuel fuel shiftedDcId st = getSession_fuel 0 shiftedDcId st.
Proof.
  intros Hbare [session Hstored].
  destruct fuel as [|fuel]; [reflexivity|]. simpl.
  destruct (shiftedDcId =? 0); [reflexivity|].
  destruct (Z.eqb_spec (BareDcId shiftedDcId) 0); [contradiction|].
  unfold findSession, bind, ret, gets. rewrite Hstored. reflexivity.
Qed.

Lemma scheduleKeyDestroy_over_stored fuel shiftedDcId st :
  BareDcId shiftedDcId <> 0 ->
  is_Some (_sessions st !! shiftedDcId) ->
  scheduleKeyDestroy_over (getSession_fuel fuel) shiftedDcId st
  = scheduleKeyDestroy_over (getSession_fuel 0) shiftedDcId st.
Proof.
  intros Hbare Hstored.
  assert (Hsend : forall data callbacks st0,
            _sessions st0 = _sessions st ->
            send_over (getSession_fuel fuel) data callbacks shiftedDcId 0 sendNeedsLayer 0 st0
            = send_over (getSession_fuel 0) data callbacks shiftedDcId 0 sendNeedsLayer 0 st0).
  { intros data callbacks st0 Hsame. unfold send_over.
    apply bind_ext. intros counter st1 E1. minv E1.
    destruct (Allocator.GetNextRequestId _) as [requestId counter'].
    apply bind_ext. intros [] st2 E2. minv E2.
    unfold sendRequest_over, bind.
    rewrite getSession_fuel_stored by (simpl_state; rewrite ?Hsame; assumption).
    reflexivity. }
  unfold scheduleKeyDestroy_over, performKeyDestroy_over, isKeysDestroyer.
  apply bind_ext. intros destroyer st1 E1. minv E1.
  apply bind_ext. intros [] st2 E2.
  assert (st2 = st1) as ->.
  { destruct (_mode st1); [discriminate E2|]. minv E2. reflexivity. }
  destruct (dcTypeIsCdn shiftedDcId).
  - apply bind_ext. intros d st3 E3. minv E3.
    apply bind_ext. intros [] st4 E4.
    assert (st4 = st3) as ->.
    { destruct (_mode st3); [discriminate E4|]. minv E4. reflexivity. }
    unfold bind. rewrite Hsend by reflexivity. reflexivity.
  - unfold bind. rewrite Hsend by reflexivity. reflexivity.
Qed.

Lemma startSession_over_fuel fuel shiftedDcId st :
  startSession_over (getSession_fuel fuel) shiftedDcId st
  = startSession_over (getSession_fuel 0) shiftedDcId st.
Proof.
  unfold startSession_over, findSession, isKeysDestroyer.
  apply bind_ext. intros [] st0 E0.
  destruct (Z.eqb_spec (BareDcId shiftedDcId) 0) as [|Hbare]; [discriminate E0|].
  apply bind_ext. intros dc st1 E1.
  apply bind_ext. intros present st2 E2. minv E2.
  apply bind_ext. intros result st3 E3.
  assert (Hstored : is_Some (_sessions st3 !! shiftedDcId)).
  { destruct (_sessions st2 !! shiftedDcId) as [stored|] eqn:Estored.
    - minv E3. rewrite Estored. eauto.
    - minv E3. simpl_state. rewrite lookup_insert_eq. eauto. }
  apply bind_ext. intros [] st4 E4. minv E4.
  apply bind_ext. intros destroyer st5 E5. minv E5.
  unfold bind, when. destruct (_mode st3); [reflexivity|].
  rewrite scheduleKeyDestroy_over_stored by (simpl_state; assumption).
  reflexivity.
Qed.

(** Any fuel above 1 gives what 1 gives: [getSession] never gives up for
    lack of it. *)
Lemma getSession_fuel_enough fuel shiftedDcId st :
  getSession_fuel (S fuel) shiftedDcId st = getSession shiftedDcId st.
Proof.
  unfold getSession. simpl.
  destruct (shiftedDcId =? 0); [reflexivity|].
  apply bind_ext. intros target st1 E1.
  apply bind_ext. intros found st2 E2.
  destruct found; [reflexivity|].
  rewrite startSession_over_fuel. reflexivity.
Qed.

Lemma getSession_unfold shiftedDcId :
  getSession shiftedDcId
  = if shiftedDcId =? 0 then mainSessionAsserted
    else
      target <- (if BareDcId shiftedDcId =? 0
                 then main <- mainSessionAsserted;;
                      ret (shiftedDcId + BareDcId (getDcWithShift main))
                 else ret shiftedDcId);;
      found <- findSession target;;
      match found with
      | Some session => ret session
      | None => startSession_over (getSession_fuel 0) target
      end.
Proof. reflexivity. Qed.





(** *** [cancel] *)











End SendCancelProperties.

Lemma sessionsStored_startedPrivate : @sessionsStored exampleCollaborators startedPrivate.
Proof.
  split.
  - intros shiftedDcId session.
    change (_sessions startedPrivate) with ({[ 2 := mkSession 0 2 ]} : gmap Z Session).
    intros Hin. apply lookup_singleton_Some in Hin as [<- <-].
    split; [reflexivity|]. split; [lia | vm_compute; discriminate].
  - intros main Hmain. vm_compute in Hmain. injection Hmain as <-. reflexivity.
Qed.


(** ** 4.I The key destroyer *)

Lemma firedCount_app events more :
  firedCount (events ++ more) = (firedCount events + firedCount more)%nat.
Proof. unfold firedCount. rewrite List.filter_app, length_app. reflexivity. Qed.

Section KeyDestroyerProperties.

Context `{collab : Collaborators}.

Lemma nextDcId_iter n shiftedDcId :
  nextDcIdAdvances -> 0 < shiftedDcId ->
  shiftedDcId <= Nat.iter n destroyKeyNextDcId shiftedDcId
  /\ BareDcId (Nat.iter n destroyKeyNextDcId shiftedDcId) = BareDcId shiftedDcId.
Proof.
  intros Hnext Hpos. induction n as [|n [IHle IHbare]]; simpl.
  - split; [lia | reflexivity].
  - destruct (Hnext (Nat.iter n destroyKeyNextDcId shiftedDcId)) as [Hlt Hbare]; [lia|].
    split; [lia | congruence].
Qed.

(** The id the loop stops at has no key, and is reached by
    [destroyKeyNextDcId] alone. *)
Lemma freeDestroyDcId_free fuel keys shiftedDcId free :
  freeDestroyDcId fuel keys shiftedDcId = Some free ->
  keys !! free = None
  /\ exists n, free = Nat.iter n destroyKeyNextDcId shiftedDcId.
Proof.
  revert shiftedDcId. induction fuel as [|fuel IH]; intros shiftedDcId; simpl;
    destruct (keys !! shiftedDcId) eqn:Ekey; intros Hfree;
    try discriminate.
  - injection Hfree as <-. split; [exact Ekey | exists 0%nat; reflexivity].
  - destruct (IH _ Hfree) as [Hnone [n ->]].
    split; [exact Hnone|]. exists (S n). rewrite Nat.iter_succ_r. reflexivity.
  - injection Hfree as <-. split; [exact Ekey | exists 0%nat; reflexivity].
Qed.

(** The loop of [start] ends: the ids it tries are all different, and only
    as many as there are keys can be taken. *)
Lemma freeDestroyDcId_total fuel (keys taken : gmap Z AuthKey) shiftedDcId :
  nextDcIdAdvances -> 0 < shiftedDcId ->
  (size taken <= fuel)%nat ->
  (forall k, shiftedDcId <= k -> is_Some (keys !! k) -> is_Some (taken !! k)) ->
  is_Some (freeDestroyDcId fuel keys shiftedDcId).
Proof.
  intros Hnext. revert taken shiftedDcId.
  induction fuel as [|fuel IH]; intros taken shiftedDcId Hpos Hsize Htaken; simpl;
    destruct (keys !! shiftedDcId) as [key|] eqn:Ekey; eauto.
  - destruct (Htaken shiftedDcId) as [k Hk]; [lia | eauto |].
    assert (taken = ∅) as -> by (apply map_size_empty_inv; lia).
    rewrite lookup_empty in Hk. discriminate.
  - destruct (Hnext shiftedDcId Hpos) as [Hlt _].
    apply (IH (delete shiftedDcId taken)); [lia | |].
    + rewrite map_size_delete_Some by (apply Htaken; [lia | eauto]). lia.
    + intros k Hle Hkey. rewrite lookup_delete_ne by lia. apply Htaken; [lia | exact Hkey].
Qed.

(** The state [placeKey] leaves in key-destroyer mode. *)
Lemma placeKey_destroyer key st :
  nextDcIdAdvances ->
  _mode st = KeysDestroyer ->
  0 < key_dcId key ->
  keysHaveDcs st ->
  exists n,
    let shiftedDcId := Nat.iter (S n) destroyKeyNextDcId (key_dcId key) in
    _keysForWrite st !! shiftedDcId = None
    /\ placeKey key st
       = Some (tt,
               set_dcenters
                 (<[shiftedDcId := mkDcenter (BareDcId shiftedDcId) (Some key)]>
                    (_dcenters st))
                 (set_keysForWrite (<[shiftedDcId := key]> (_keysForWrite st)) st)).
Proof.
  intros Hnext Hmode Hpos Hdcs.
  destruct (Hnext _ Hpos) as [Hlt _].
  destruct (freeDestroyDcId_total (size (_keysForWrite st)) (_keysForWrite st)
              (_keysForWrite st) (destroyKeyNextDcId (key_dcId key)) Hnext)
    as [free Hfree]; [lia | lia | auto |].
  destruct (freeDestroyDcId_free _ _ _ _ Hfree) as [Hnone [n Hn]].
  exists n. cbn zeta. rewrite Nat.iter_succ_r, <- Hn.
  split; [exact Hnone|].
  unfold placeKey, isKeysDestroyer, addDc, findDc, bind, gets, modify, ret.
  rewrite Hmode. rewrite Hfree. simpl_state.
  unfold emplace. rewrite (Hdcs free), Hnone. cbn [fmap option_fmap option_map].
  rewrite lookup_insert_eq. reflexivity.
Qed.

(** Past [getSession], [sendRequest] cannot fail: the request reaches the
    session. *)
Lemma sendRequest_over_runs (gs : Z -> M Session) requestId request callbacks
    shiftedDcId msCanWait needsLayer afterRequestId st session st1 :
  gs shiftedDcId st = Some (session, st1) ->
  exists sent st',
    sendRequest_over gs requestId request callbacks shiftedDcId msCanWait needsLayer
      afterRequestId st = Some (tt, st')
    /\ trace st' = trace st1 ++ [SessionSendPrepared session sent msCanWait]
    /\ forall (C : Type) (f : Private -> C), requestBlind f -> f st' = f st1.
Proof.
  intros Hgs. unfold sendRequest_over. rewrite (bind_eq _ _ _ _ _ Hgs).
  unfold storeRequest, registerRequest, getRequest, crl_now, emit.
  unfold bind, gets, modify, when, ret.
  destruct (negb (notNull (_requestMap st1 !! requestId)));
    destruct (notNull (onDone callbacks) || notNull (onFail callbacks));
    destruct (afterRequestId =? 0);
    do 2 eexists; (split; [reflexivity|]); simpl_state;
    (split; [reflexivity|]);
    intros C f [Ht Hk Hc Hp Hm Hr]; unfold ignores in *;
    repeat first [rewrite Ht | rewrite Hk | rewrite Hc | rewrite Hp | rewrite Hm
                 | rewrite Hr]; reflexivity.
Qed.

Lemma send_over_runs (gs : Z -> M Session) data callbacks shiftedDcId msCanWait
    needsLayer afterRequestId st session :
  (forall counter,
     gs shiftedDcId (set_GlobalAtomicRequestId counter st)
     = Some (session, set_GlobalAtomicRequestId counter st)) ->
  exists requestId sent st',
    send_over gs data callbacks shiftedDcId msCanWait needsLayer afterRequestId st
    = Some (requestId, st')
    /\ trace st' = trace st ++ [SessionSendPrepared session sent msCanWait]
    /\ forall (C : Type) (f : Private -> C), requestBlind f -> f st' = f st.
Proof.
  intros Hgs. unfold send_over. unfold bind at 1, gets at 1.
  destruct (Allocator.GetNextRequestId (GlobalAtomicRequestId st)) as [requestId counter'].
  unfold bind at 1, modify at 1.
  destruct (sendRequest_over_runs gs requestId (mkRequest data 0 false None 0) callbacks
              shiftedDcId msCanWait needsLayer afterRequestId _ _ _ (Hgs counter'))
    as (sent & st' & Hrun & Htrace & Hframe).
  exists requestId, sent, st'. rewrite (bind_eq _ _ _ _ _ Hrun).
  split; [reflexivity|]. split; [exact Htrace|].
  intros C f Hblind. rewrite (Hframe C f Hblind). apply Hblind.
Qed.

Lemma scheduleKeyDestroy_over_runs (gs : Z -> M Session) shiftedDcId st session :
  _mode st = KeysDestroyer ->
  (forall counter,
     gs shiftedDcId (set_GlobalAtomicRequestId counter st)
     = Some (session, set_GlobalAtomicRequestId counter st)) ->
  exists sent st',
    scheduleKeyDestroy_over gs shiftedDcId st = Some (tt, st')
    /\ trace st' = trace st ++ [SessionSendPrepared session sent 0]
    /\ forall (C : Type) (f : Private -> C), requestBlind f -> f st' = f st.
Proof.
  intros Hmode Hgs.
  unfold scheduleKeyDestroy_over, performKeyDestroy_over, isKeysDestroyer.
  unfold bind at 1 2, gets at 1. rewrite Hmode. unfold Assert, ret at 1.
  destruct (dcTypeIsCdn shiftedDcId).
  - unfold bind at 1 2, gets at 1. rewrite Hmode. unfold ret at 1.
    destruct (send_over_runs gs (Serialize MTPDestroy_auth_key)
                (mkHandler (Some (DestroyCallback shiftedDcId))
                   (Some (DestroyCallback shiftedDcId)))
                shiftedDcId 0 sendNeedsLayer 0 st session Hgs)
      as (requestId & sent & st' & Hrun & Hsent).
    exists sent, st'. rewrite (bind_eq _ _ _ _ _ Hrun). split; [reflexivity | exact Hsent].
  - destruct (send_over_runs gs (Serialize MTPauth_LogOut)
                (mkHandler (Some (LogoutCallback shiftedDcId))
                   (Some (LogoutCallback shiftedDcId)))
                shiftedDcId 0 sendNeedsLayer 0 st session Hgs)
      as (requestId & sent & st' & Hrun & Hsent).
    exists sent, st'. rewrite (bind_eq _ _ _ _ _ Hrun). split; [reflexivity | exact Hsent].
Qed.

(** [startSession] in key-destroyer mode, for a DC that has its block and no
    session yet: the session is stored, the key destruction is scheduled
    through it, and the DC registry is as it was. *)
Lemma startSession_destroyer shiftedDcId st :
  _mode st = KeysDestroyer ->
  shiftedDcId <> 0 ->
  BareDcId shiftedDcId <> 0 ->
  is_Some (_dcenters st !! shiftedDcId) ->
  _sessions st !! shiftedDcId = None ->
  exists session st',
    startSession shiftedDcId st = Some (session, st')
    /\ getDcWithShift session = shiftedDcId
    /\ _sessions st' = <[shiftedDcId := session]> (_sessions st)
    /\ _dcenters st' = _dcenters st
    /\ firedCount (trace st') = firedCount (trace st).
Proof.
  intros Hmode Hnz Hbare [dc Hdc] Hfresh.
  unfold startSession, startSession_over.
  unfold Assert, bind at 1. destruct (Z.eqb_spec (BareDcId shiftedDcId) 0); [contradiction|].
  cbn [negb]. unfold ret at 1.
  unfold getDcById, findDc, bind at 1 2, gets at 1. rewrite Hdc. unfold ret at 1.
  unfold findSession, bind at 1, gets at 1. rewrite Hfresh.
  unfold bind at 1 2 3 4, gets at 1, modify at 1 2, ret at 1. simpl_state.
  unfold bind at 1, emit at 1, modify at 1.
  unfold isKeysDestroyer, bind at 1, gets at 1. simpl_state. rewrite Hmode.
  unfold when.
  set (session := mkSession (nextPtr st) shiftedDcId).
  set (started := set_trace _ _).
  destruct (scheduleKeyDestroy_over_runs getSession shiftedDcId started session)
    as (sent & st' & Hrun & Htrace & Hframe).
  { exact Hmode. }
  { intros counter. apply getSession_found; [exact Hnz | intros; contradiction |].
    unfold resolvedDcId. destruct (Z.eqb_spec (BareDcId shiftedDcId) 0); [contradiction|].
    unfold started. simpl_state. apply lookup_insert_eq. }
  pose proof (Hframe _ (fun s => (_sessions s, _dcenters s)) ltac:(blind)) as Hkept.
  injection Hkept as Hs Hd.
  exists session, st'. rewrite (bind_eq _ _ _ _ _ Hrun).
  split; [reflexivity|]. split; [reflexivity|].
  rewrite Hs, Hd, Htrace. unfold started. simpl_state.
  split; [reflexivity|]. split; [reflexivity|].
  rewrite !firedCount_app. unfold firedCount at 2 3. simpl. lia.
Qed.

Lemma placeKey_keysHaveDcs shiftedDcId key st :
  keysHaveDcs st ->
  keysHaveDcs
    (set_dcenters
       (<[shiftedDcId := mkDcenter (BareDcId shiftedDcId) (Some key)]> (_dcenters st))
       (set_keysForWrite (<[shiftedDcId := key]> (_keysForWrite st)) st)).
Proof.
  intros Hdcs k. simpl_state.
  destruct (Z.eq_dec shiftedDcId k) as [<-|Hne].
  - rewrite !lookup_insert_eq. reflexivity.
  - rewrite !lookup_insert_ne by exact Hne. apply Hdcs.
Qed.

Lemma set_dcenters_keysForWrite_same st :
  set_dcenters (_dcenters st) (set_keysForWrite (_keysForWrite st) st) = st.
Proof. destruct st; reflexivity. Qed.

Lemma set_dcenters_keysForWrite_twice D K D' K' st :
  set_dcenters D' (set_keysForWrite K' (set_dcenters D (set_keysForWrite K st)))
  = set_dcenters D' (set_keysForWrite K' st).
Proof. destruct st; reflexivity. Qed.

(** The loop of [start] over the keys, in key-destroyer mode: every key gets
    an id of its own, free before, and only the two registries change. *)
Lemma placeKeys_destroyer keys st :
  nextDcIdAdvances ->
  _mode st = KeysDestroyer ->
  Forall (fun key => 0 < key_dcId key) keys ->
  keysHaveDcs st ->
  exists ids K D,
    forEach placeKey keys st = Some (tt, set_dcenters D (set_keysForWrite K st))
    /\ Forall2 placedUnder ids keys
    /\ NoDup ids
    /\ (forall id, id ∈ ids -> _keysForWrite st !! id = None)
    /\ K = list_to_map (zip ids keys) ∪ _keysForWrite st
    /\ keysHaveDcs (set_dcenters D (set_keysForWrite K st)).
Proof.
  intros Hnext. revert st.
  induction keys as [|key rest IH]; intros st Hmode Hkeys Hdcs.
  - exists [], (_keysForWrite st), (_dcenters st).
    rewrite set_dcenters_keysForWrite_same. simpl.
    split; [reflexivity|]. split; [constructor|]. split; [constructor|].
    split; [intros id Hin; inversion Hin|].
    split; [rewrite (left_id_L ∅ (∪)); reflexivity | exact Hdcs].
  - apply Forall_cons in Hkeys as [Hkey Hrest].
    destruct (placeKey_destroyer key st Hnext Hmode Hkey Hdcs) as (n & Hfree & Hplace).
    cbn zeta in Hfree, Hplace.
    set (id := Nat.iter (S n) destroyKeyNextDcId (key_dcId key)) in *.
    set (st1 := set_dcenters _ _) in Hplace.
    destruct (IH st1) as (ids & K & D & Hrun & Hplaced & Hnodup & Hnone & HK & Hdcs');
      [exact Hmode | exact Hrest | apply placeKey_keysHaveDcs; exact Hdcs |].
    unfold st1 in Hrun, Hdcs'. rewrite set_dcenters_keysForWrite_twice in Hrun, Hdcs'.
    unfold st1 in Hnone, HK. simpl_state_in Hnone. simpl_state_in HK.
    assert (Hnotin : id ∉ ids).
    { intros Hin. specialize (Hnone id Hin). rewrite lookup_insert_eq in Hnone.
      discriminate. }
    exists (id :: ids), K, D.
    split; [simpl; rewrite (bind_eq _ _ _ _ _ Hplace); exact Hrun|].
    split; [constructor; [exists n; reflexivity | exact Hplaced]|].
    split; [constructor; assumption|].
    split.
    { intros k Hin. apply elem_of_cons in Hin as [->|Hin]; [exact Hfree|].
      specialize (Hnone k Hin). apply lookup_insert_None in Hnone as [Hk _]. exact Hk. }
    split; [|exact Hdcs'].
    rewrite HK. simpl. rewrite <- insert_union_l. symmetry. apply insert_union_r.
    apply not_elem_of_list_to_map_1. rewrite fst_zip; [exact Hnotin|].
    rewrite (Forall2_length _ _ _ Hplaced). reflexivity.
Qed.

(** The loop of [start] over the DC registry, in key-destroyer mode. *)
Lemma startSessions_destroyer ids st :
  _mode st = KeysDestroyer ->
  NoDup ids ->
  (forall id, id ∈ ids ->
     id <> 0 /\ BareDcId id <> 0
     /\ is_Some (_dcenters st !! id) /\ _sessions st !! id = None) ->
  exists st',
    forEach (fun shiftedDcId => startSession shiftedDcId;; ret tt) ids st = Some (tt, st')
    /\ _dcenters st' = _dcenters st
    /\ destroyerFrame st' = destroyerFrame st
    /\ firedCount (trace st') = firedCount (trace st)
    /\ (forall id, id ∈ ids ->
          exists session, _sessions st' !! id = Some session
                          /\ getDcWithShift session = id)
    /\ (forall id, id ∉ ids -> _sessions st' !! id = _sessions st !! id).
Proof.
  revert st. induction ids as [|id rest IH]; intros st Hmode Hnodup Hids.
  - exists st. simpl. split; [reflexivity|]. repeat split; try reflexivity.
    intros id Hin. inversion Hin.
  - apply NoDup_cons in Hnodup as [Hnotin Hnodup].
    destruct (Hids id) as (Hnz & Hbare & Hdc & Hfresh); [left|].
    destruct (startSession_destroyer id st Hmode Hnz Hbare Hdc Hfresh)
      as (session & st1 & Hstart & Hsession & Hsessions & Hdcs & Hfired).
    pose proof (keeps_startSession destroyerFrame ltac:(blind) id _ _ _ Hstart) as Hframe.
    assert (Hmode1 : _mode st1 = KeysDestroyer).
    { unfold destroyerFrame in Hframe. injection Hframe as -> _. exact Hmode. }
    destruct (IH st1) as (st' & Hrun & Hdcs' & Hframe' & Hfired' & Hstarted & Hothers).
    { exact Hmode1. }
    { exact Hnodup. }
    { intros k Hin. destruct (Hids k) as (? & ? & ? & ?); [right; exact Hin|].
      rewrite Hdcs, Hsessions. rewrite lookup_insert_ne by (intros ->; contradiction).
      auto. }
    exists st'. simpl. rewrite (bind_eq _ _ _ _ _ (bind_eq _ _ _ _ _ Hstart)).
    unfold ret at 1. split; [exact Hrun|].
    split; [congruence|]. split; [congruence|]. split; [congruence|].
    split.
    + intros k Hin. apply elem_of_cons in Hin as [->|Hin]; [|apply Hstarted; exact Hin].
      exists session. rewrite (Hothers id Hnotin), Hsessions, lookup_insert_eq. auto.
    + intros k Hk. apply not_elem_of_cons in Hk as [Hne Hk].
      rewrite (Hothers k Hk), Hsessions. apply lookup_insert_ne. congruence.
Qed.

Lemma dcentersKeys_registry st :
  NoDup (dcentersKeys st)
  /\ forall id, id ∈ dcentersKeys st <-> is_Some (_dcenters st !! id).
Proof.
  unfold dcentersKeys.
  change (map fst (map_to_list (_dcenters st))) with ((map_to_list (_dcenters st)).*1).
  split.
  - rewrite merge_sort_Permutation. apply NoDup_fst_map_to_list.
  - intros id. rewrite merge_sort_Permutation, list_elem_of_fmap. split.
    + intros ([k dc] & -> & Hin). apply elem_of_map_to_list in Hin. simpl. eauto.
    + intros [dc Hdc]. exists (id, dc). split; [reflexivity|].
      apply elem_of_map_to_list. exact Hdc.
Qed.

Lemma placedUnder_positive id key :
  nextDcIdAdvances -> 0 < key_dcId key -> placedUnder id key ->
  key_dcId key < id /\ BareDcId id = BareDcId (key_dcId key).
Proof.
  intros Hnext Hpos [n ->]. rewrite Nat.iter_succ_r.
  destruct (Hnext _ Hpos) as [Hlt Hbare].
  destruct (nextDcId_iter n (destroyKeyNextDcId (key_dcId key)) Hnext) as [Hle Hsame];
    [lia|].
  split; [lia | congruence].
Qed.

(** [start] in key-destroyer mode on an instance with nothing registered
    yet. *)
Lemma start_destroyer keys configMainDcId st :
  nextDcIdAdvances ->
  _mode st = KeysDestroyer ->
  _keysForWrite st = ∅ -> _dcenters st = ∅ -> _sessions st = ∅ ->
  (if configMainDcId =? kNotSetMainDc then _mainDcId st else configMainDcId)
  = kNoneMainDc ->
  Forall (fun key => 0 < key_dcId key /\ BareDcId (key_dcId key) <> 0) keys ->
  exists ids st',
    start keys configMainDcId st = Some (tt, st')
    /\ Forall2 placedUnder ids keys
    /\ NoDup ids
    /\ _keysForWrite st' = list_to_map (zip ids keys)
    /\ keysHaveDcs st'
    /\ (forall id, is_Some (_dcenters st' !! id) <-> id ∈ ids)
    /\ (forall id, id ∈ ids ->
          exists session, _sessions st' !! id = Some session
                          /\ getDcWithShift session = id)
    /\ firedCount (trace st') = firedCount (trace st)
    /\ _mode st' = KeysDestroyer
    /\ _mainSession st' = _mainSession st.
Proof.
  intros Hnext Hmode Hkeys0 Hdcs0 Hsessions0 Hmain Hkeys.
  destruct (placeKeys_destroyer keys st Hnext Hmode) as
    (ids & K & D & Hplace & Hplaced & Hnodup & _ & HK & Hdcs).
  { eapply Forall_impl; [exact Hkeys|]. intros key [Hpos _]. exact Hpos. }
  { intros k. rewrite Hkeys0, Hdcs0, !lookup_empty. reflexivity. }
  rewrite Hkeys0, (right_id_L ∅ (∪)) in HK.
  assert (Hids : forall id, id ∈ ids -> 0 < id /\ BareDcId id <> 0).
  { intros id Hin. apply list_elem_of_lookup in Hin as [i Hi].
    destruct (Forall2_lookup_l _ _ _ _ _ Hplaced Hi) as (key & Hkey & Hunder).
    apply (Forall_lookup_1 _ _ _ _ Hkeys) in Hkey as [Hpos Hbare].
    destruct (placedUnder_positive id key Hnext Hpos Hunder) as [Hlt Hsame].
    split; [lia | congruence]. }
  assert (Hregistry : forall id, is_Some (D !! id) <-> id ∈ ids).
  { intros id. specialize (Hdcs id). simpl_state_in Hdcs. rewrite Hdcs, HK.
    rewrite fmap_is_Some, <- not_eq_None_Some, <- not_elem_of_list_to_map.
    rewrite fst_zip by (rewrite (Forall2_length _ _ _ Hplaced); reflexivity).
    split; [apply dec_stable | auto]. }
  unfold start. rewrite (bind_eq _ _ _ _ _ Hplace).
  set (st1 := set_dcenters D (set_keysForWrite K st)) in *.
  set (st2 := if configMainDcId =? kNotSetMainDc then st1
              else set_mainDcIdForced true (set_mainDcId configMainDcId st1)).
  assert (Hwhen : when (negb (configMainDcId =? kNotSetMainDc))
                    (modify (set_mainDcId configMainDcId);;
                     modify (set_mainDcIdForced true)) st1 = Some (tt, st2)).
  { unfold st2. destruct (configMainDcId =? kNotSetMainDc); reflexivity. }
  rewrite (bind_eq _ _ _ _ _ Hwhen).
  assert (Hsame : _mode st2 = KeysDestroyer /\ _dcenters st2 = D
                  /\ _keysForWrite st2 = K /\ _sessions st2 = ∅
                  /\ trace st2 = trace st /\ _mainSession st2 = _mainSession st
                  /\ _mainDcId st2 = kNoneMainDc /\ _configLoader st2 = _configLoader st).
  { unfold st2, st1. destruct (configMainDcId =? kNotSetMainDc); simpl_state; auto 10. }
  destruct Hsame as (Hmode2 & Hdcs2 & Hkeys2 & Hsessions2 & Htrace2 & Hmain2 & Hid2 & Hloader2).
  clearbody st2. clear Hwhen.
  unfold isKeysDestroyer, bind at 1, gets at 1. rewrite Hmode2.
  unfold bind at 1, gets at 1. rewrite Hid2.
  unfold bind at 2, gets at 1.
  destruct (dcentersKeys_registry st2) as [Hnodup2 Hin2].
  destruct (startSessions_destroyer (dcentersKeys st2) st2 Hmode2 Hnodup2)
    as (st3 & Hrun & Hdcs3 & Hframe3 & Hfired3 & Hstarted & _).
  { intros id Hin. apply Hin2 in Hin as Hdc. rewrite Hdcs2 in Hdc.
    destruct (Hids id) as [Hpos Hbare]; [apply Hregistry; exact Hdc|].
    rewrite Hdcs2, Hsessions2, lookup_empty. repeat split; [lia | exact Hbare | exact Hdc]. }
  unfold bind at 1. rewrite Hrun.
  unfold destroyerFrame in Hframe3.
  injection Hframe3 as Hmode3 Hkeys3 Hmain3 Hid3 Hforced3 Hloader3 Hdestroy3.
  rewrite Z.eqb_refl. unfold bind at 1, Assert. cbn [eqb]. unfold ret at 1.
  unfold requestConfig, isKeysDestroyer, bind, gets, ret.
  rewrite Hmode3, Hmode2, orb_true_r.
  exists ids, st3. split; [reflexivity|].
  split; [exact Hplaced|]. split; [exact Hnodup|].
  split; [congruence|].
  split.
  { intros k. rewrite Hdcs3, Hkeys3, Hdcs2, Hkeys2. specialize (Hdcs k).
    simpl_state_in Hdcs. exact Hdcs. }
  split; [intros id; rewrite Hdcs3, Hdcs2; apply Hregistry|].
  split.
  { intros id Hin. apply Hstarted, Hin2. rewrite Hdcs2. apply Hregistry. exact Hin. }
  split; [congruence|]. split; congruence.
Qed.

Lemma completedKeyDestroy_outcome shiftedDcId st :
  _mode st = KeysDestroyer ->
  _mainSession st = None ->
  exists st',
    completedKeyDestroy shiftedDcId st = Some (tt, st')
    /\ _dcenters st' = delete shiftedDcId (_dcenters st)
    /\ _dcentersToDestroy st'
       = _dcentersToDestroy st ++ option_list (_dcenters st !! shiftedDcId)
    /\ _keysForWrite st' = delete shiftedDcId (_keysForWrite st)
    /\ _sessions st' = delete shiftedDcId (_sessions st)
    /\ _sessionsToDestroy st'
       = _sessionsToDestroy st ++ option_list (_sessions st !! shiftedDcId)
    /\ trace st' = trace st ++ completedEvents shiftedDcId st
    /\ _mode st' = KeysDestroyer
    /\ _mainSession st' = None.
Proof.
  intros Hmode Hmain.
  unfold completedKeyDestroy, completedEvents, isKeysDestroyer, removeDc, findDc,
    killSession, checkIfMainAndKill, removeSession, findSession.
  unfold bind at 1 2, gets at 1. rewrite Hmode. unfold Assert, ret at 1.
  destruct (_dcenters st !! shiftedDcId) as [dc|] eqn:Edc;
    destruct (_sessions st !! shiftedDcId) as [session|] eqn:Esession.
  all: unfold bind, gets, modify, emit, modify, ret, when;
    repeat progress (unfold ret, isSession; simpl_state;
                     rewrite ?Edc, ?Esession, ?Hmain);
    rewrite ?(delete_id _ _ Edc);
    destruct (bool_decide _); eexists; (split; [reflexivity|]); simpl_state;
    rewrite ?(delete_id _ _ Esession), ?app_nil_r, <- ?app_assoc;
    auto 10.
Qed.

Lemma keyWasPossiblyDestroyed_step shiftedDcId st st' :
  keyWasPossiblyDestroyed shiftedDcId st = Some (tt, st') -> destroyerStep st st'.
Proof.
  unfold keyWasPossiblyDestroyed, isKeysDestroyer. intros Hrun. minv Hrun.
  apply (destroyerStep_other _ _ [InvokeQueuedCompletedKeyDestroy shiftedDcId]);
    reflexivity.
Qed.

Lemma firedCount_completedEvents shiftedDcId st :
  firedCount (completedEvents shiftedDcId st)
  = if bool_decide (delete shiftedDcId (_dcenters st) = ∅) then 1%nat else 0%nat.
Proof.
  unfold completedEvents. rewrite !firedCount_app.
  destruct (_sessions st !! shiftedDcId), (bool_decide _); reflexivity.
Qed.

Lemma destroyerStep_fired st st' :
  _mode st = KeysDestroyer -> _mainSession st = None ->
  destroyerStep st st' ->
  _mode st' = KeysDestroyer /\ _mainSession st' = None
  /\ (_dcenters st = ∅ -> _dcenters st' = ∅)
  /\ firedCount (trace st')
     = (firedCount (trace st)
        + (if bool_decide (_dcenters st' = ∅) && negb (bool_decide (_dcenters st = ∅))
           then 1 else 0))%nat.
Proof.
  intros Hmode Hmain [shiftedDcId [dc Hdc] Hrun | events Hdcs Hmode' Hmain' Htrace Hquiet].
  - destruct (completedKeyDestroy_outcome shiftedDcId st Hmode Hmain)
      as (st1 & Hrun1 & Hdcs & _ & _ & _ & _ & Htrace & Hmode1 & Hmain1).
    rewrite Hrun in Hrun1. injection Hrun1 as <-.
    split; [exact Hmode1|]. split; [exact Hmain1|].
    assert (Hnonempty : _dcenters st <> ∅).
    { intros Hempty. rewrite Hempty, lookup_empty in Hdc. discriminate. }
    split; [intros Hempty; contradiction|].
    rewrite Htrace, firedCount_app, firedCount_completedEvents, Hdcs.
    rewrite (bool_decide_eq_false_2 _ Hnonempty), andb_true_r. reflexivity.
  - split; [congruence|]. split; [congruence|]. split; [congruence|].
    rewrite Htrace, firedCount_app, Hquiet, Hdcs.
    destruct (bool_decide (_dcenters st = ∅)); simpl; lia.
Qed.

(** Over a run, [allKeysDestroyed] has fired once if the DC registry, not
    empty at first, is empty now, and not at all otherwise. *)
Lemma destroyerRun_fired st st' :
  _mode st = KeysDestroyer -> _mainSession st = None ->
  destroyerRun st st' ->
  _mode st' = KeysDestroyer /\ _mainSession st' = None
  /\ (_dcenters st = ∅ -> _dcenters st' = ∅)
  /\ firedCount (trace st')
     = (firedCount (trace st)
        + (if bool_decide (_dcenters st' = ∅) && negb (bool_decide (_dcenters st = ∅))
           then 1 else 0))%nat.
Proof.
  intros Hmode Hmain Hrun. induction Hrun as [st|st st1 st2 Hstep Hrun IH].
  - split; [exact Hmode|]. split; [exact Hmain|]. split; [auto|].
    destruct (bool_decide (_dcenters st = ∅)); simpl; lia.
  - destruct (destroyerStep_fired st st1 Hmode Hmain Hstep)
      as (Hmode1 & Hmain1 & Hempty1 & Hfired1).
    destruct (IH Hmode1 Hmain1) as (Hmode2 & Hmain2 & Hempty2 & Hfired2).
    split; [exact Hmode2|]. split; [exact Hmain2|]. split; [auto|].
    rewrite Hfired2, Hfired1.
    destruct (bool_decide (_dcenters st = ∅)) eqn:E0;
      destruct (bool_decide (_dcenters st1 = ∅)) eqn:E1;
      destruct (bool_decide (_dcenters st2 = ∅)) eqn:E2; simpl; try lia.
    + apply bool_decide_eq_true in E0. apply bool_decide_eq_false in E1.
      contradiction E1. auto.
    + apply bool_decide_eq_true in E1. apply bool_decide_eq_false in E2.
      contradiction E2. auto.
Qed.

(** C9: in key-destroyer mode [start], on an instance with nothing
    registered, puts every input key under a shifted DC id of its own,
    reached from the DC id of the key by [destroyKeyNextDcId] (again for each
    id already taken), with a DC block and a session for each; after any run
    of steps from there, [completedKeyDestroy] moves the DC block of its id
    out of the registry, erases the key and kills the session; and over the
    run [allKeysDestroyed] has fired once if the DC registry is empty, fired
    by the completion that emptied it, and not at all if it is not. *)
Theorem key_destroyer_places_keys_and_fires_once keys configMainDcId st :
  nextDcIdAdvances ->
  _mode st = KeysDestroyer ->
  _mainSession st = None ->
  _keysForWrite st = ∅ -> _dcenters st = ∅ -> _sessions st = ∅ ->
  (if configMainDcId =? kNotSetMainDc then _mainDcId st else configMainDcId)
  = kNoneMainDc ->
  Forall (fun key => 0 < key_dcId key /\ BareDcId (key_dcId key) <> 0) keys ->
  keys <> [] ->
  exists ids st1,
    start keys configMainDcId st = Some (tt, st1)
    /\ Forall2 placedUnder ids keys
    /\ NoDup ids
    /\ _keysForWrite st1 = list_to_map (zip ids keys)
    /\ keysHaveDcs st1
    /\ (forall id, id ∈ ids ->
          exists session, _sessions st1 !! id = Some session
                          /\ getDcWithShift session = id)
    /\ firedCount (trace st1) = firedCount (trace st)
    /\ forall st2, destroyerRun st1 st2 ->
         (forall shiftedDcId, exists st3,
            completedKeyDestroy shiftedDcId st2 = Some (tt, st3)
            /\ _dcenters st3 = delete shiftedDcId (_dcenters st2)
            /\ _dcentersToDestroy st3
               = _dcentersToDestroy st2 ++ option_list (_dcenters st2 !! shiftedDcId)
            /\ _keysForWrite st3 = delete shiftedDcId (_keysForWrite st2)
            /\ _sessions st3 = delete shiftedDcId (_sessions st2)
            /\ trace st3 = trace st2 ++ completedEvents shiftedDcId st2)
         /\ firedCount (trace st2)
            = (firedCount (trace st)
               + (if bool_decide (_dcenters st2 = ∅) then 1 else 0))%nat.
Proof.
  intros Hnext Hmode Hmain Hkeys0 Hdcs0 Hsessions0 Hconfig Hkeys Hsome.
  destruct (start_destroyer keys configMainDcId st Hnext Hmode Hkeys0 Hdcs0 Hsessions0
              Hconfig Hkeys)
    as (ids & st1 & Hstart & Hplaced & Hnodup & Hwrite & Hdcs & Hregistry & Hstarted
        & Hfired & Hmode1 & Hmain1).
  exists ids, st1. do 6 (split; [assumption|]). split; [exact Hfired|].
  intros st2 Hrun. rewrite Hmain in Hmain1.
  destruct (destroyerRun_fired st1 st2 Hmode1 Hmain1 Hrun)
    as (Hmode2 & Hmain2 & _ & Hfired2).
  split.
  - intros shiftedDcId.
    destruct (completedKeyDestroy_outcome shiftedDcId st2 Hmode2 Hmain2)
      as (st3 & Hrun3 & ? & ? & ? & ? & _ & ? & _).
    exists st3. auto 7.
  - rewrite Hfired2, Hfired.
    assert (Hnonempty : _dcenters st1 <> ∅).
    { destruct ids as [|id ids].
      - apply Forall2_nil_inv_l in Hplaced. contradiction.
      - intros Hempty. destruct (proj2 (Hregistry id)) as [dc Hdc]; [left|].
        rewrite Hempty, lookup_empty in Hdc. discriminate. }
    rewrite (bool_decide_eq_false_2 _ Hnonempty), andb_true_r. reflexivity.
Qed.

End KeyDestroyerProperties.

Lemma exampleCollaborators_nextDcIdAdvances : @nextDcIdAdvances exampleCollaborators.
Proof.
  intros shiftedDcId Hpos. unfold destroyKeyNextDcId, BareDcId, exampleCollaborators.
  rewrite !Z.quot_div_nonneg, (Z.rem_mod_nonneg shiftedDcId) by lia.
  pose proof (Z.div_mod shiftedDcId 10000 ltac:(lia)) as Hsplit.
  pose proof (Z.mod_pos_bound shiftedDcId 10000 ltac:(lia)) as Hrem.
  assert (Hquot : 0 <= shiftedDcId / 10000) by (apply Z.div_pos; lia).
  set (shift := if shiftedDcId / 10000 =? 0 then 256 else shiftedDcId / 10000 + 1).
  assert (Hshift : shiftedDcId / 10000 < shift).
  { unfold shift. destruct (Z.eqb_spec (shiftedDcId / 10000) 0); lia. }
  split; [lia|].
  rewrite Z.rem_mod_nonneg by lia.
  rewrite (Z.mul_comm 10000 shift), Z_mod_plus_full. apply Z.mod_mod. lia.
Qed.

(** C9 on the example instance: [start] gives the three keys three ids, and
    when the DC registry is empty after a run [allKeysDestroyed] has fired
    once. *)
Lemma key_destroyer_places_keys_and_fires_once_witness :
  exists (ids : list Z) st1,
    @start exampleCollaborators exampleKeys 0 destroyerPrivate = Some (tt, st1)
    /\ NoDup ids /\ length ids = 3%nat
    /\ forall st2, @destroyerRun exampleCollaborators st1 st2 ->
         _dcenters st2 = ∅ -> firedCount (trace st2) = 1%nat.
Proof.
  destruct (@key_destroyer_places_keys_and_fires_once exampleCollaborators
              exampleKeys 0 destroyerPrivate)
    as (ids & st1 & Hstart & Hplaced & Hnodup & _ & _ & _ & _ & Hrun).
  - exact exampleCollaborators_nextDcIdAdvances.
  - reflexivity.
  - reflexivity.
  - reflexivity.
  - reflexivity.
  - reflexivity.
  - reflexivity.
  - repeat constructor; vm_compute; discriminate.
  - discriminate.
  - exists ids, st1. split; [exact Hstart|]. split; [exact Hnodup|].
    split; [exact (Forall2_length _ _ _ Hplaced)|].
    intros st2 Hsteps Hempty. destruct (Hrun st2 Hsteps) as [_ Hfired].
    rewrite Hfired, (bool_decide_eq_true_2 _ Hempty). reflexivity.
Defined.

(** The run of the example computed: the two keys of DC 2 are placed at
    shifts 256 and 257, the key of DC 4 at shift 256, and after the three
    completions [allKeysDestroyed] is the last event and the only one of its
    kind. *)
Example destroyer_example_run :
  let st1 := stateAfter (@start exampleCollaborators exampleKeys 0) destroyerPrivate in
  let st2 := stateAfter (forEach (@completedKeyDestroy exampleCollaborators)
                           [2570002; 2560002; 2560004]) st1 in
  dcentersKeys st1 = [2560002; 2560004; 2570002]
  /\ _keysForWrite st1 !! 2570002 = Some (mkAuthKey 2 2)
  /\ _dcenters st2 = ∅
  /\ firedCount (trace st2) = 1%nat
  /\ last (trace st2) = Some AllKeysDestroyedFired.
Proof. vm_compute. repeat split; reflexivity. Qed.

(** ** 4.G The [_MIGRATE_] branch *)

Section MigrateProperties.

Context `{collab : Collaborators}.

Lemma emplace_lookup {V : Type} (k : Z) (v : V) (m : gmap Z V) :
  is_Some (emplace k v m !! k).
Proof.
  unfold emplace. destruct (m !! k) eqn:E.
  - rewrite E. eauto.
  - rewrite lookup_insert_eq. eauto.
Qed.

(** [getDcById] always gives a DC block, adding one if it has to. *)
Lemma getDcById_runs shiftedDcId st :
  exists dc st', getDcById shiftedDcId st = Some (dc, st').
Proof.
  unfold getDcById, findDc, addDc. unfold bind at 1, gets at 1.
  destruct (_dcenters st !! shiftedDcId) as [dc|]; [unfold ret; eauto|].
  set (dcId := if isTemporaryDcId (BareDcId shiftedDcId) then _ else _).
  clearbody dcId.
  assert (Hadd : exists dc st', addDc dcId None st = Some (dc, st')).
  { unfold addDc, findDc, bind, modify, gets. simpl_state.
    destruct (emplace_lookup dcId (mkDcenter (BareDcId dcId) None) (_dcenters st))
      as [dc Hdc].
    rewrite Hdc. unfold ret. eauto. }
  unfold addDc in Hadd.
  destruct (dcId =? shiftedDcId).
  - unfold bind at 1, ret at 1. exact Hadd.
  - unfold bind at 1, gets at 1. destruct (_dcenters st !! dcId); [unfold ret; eauto|].
    exact Hadd.
Qed.

(** In normal mode [startSession] schedules nothing: it changes the DC
    registry, the sessions and the trace, and fails only on an id with no DC
    in it. *)
Lemma startSession_normal shiftedDcId st :
  _mode st = Normal ->
  BareDcId shiftedDcId <> 0 ->
  exists session st',
    startSession shiftedDcId st = Some (session, st')
    /\ session = default (mkSession (nextPtr st) shiftedDcId) (_sessions st !! shiftedDcId)
    /\ _sessions st' = <[shiftedDcId := session]> (_sessions st)
    /\ forall (C : Type) (f : Private -> C),
         ignores f set_trace -> ignores f set_sessions -> ignores f set_nextPtr ->
         ignores f set_dcenters ->
         f st' = f st.
Proof.
  intros Hmode Hbare. unfold startSession, startSession_over.
  unfold Assert, bind at 1. destruct (Z.eqb_spec (BareDcId shiftedDcId) 0); [contradiction|].
  cbn [negb]. unfold ret at 1.
  destruct (getDcById_runs shiftedDcId st) as (dc & st1 & Hdc).
  rewrite (bind_eq _ _ _ _ _ Hdc).
  assert (Hkept : forall (C : Type) (f : Private -> C),
            ignores f set_dcenters -> f st1 = f st).
  { intros C f Hf. exact (keeps_getDcById f shiftedDcId Hf _ _ _ Hdc). }
  pose proof (Hkept _ (fun s => (_mode s, _sessions s, nextPtr s))
                ltac:(intros ? ?; reflexivity)) as Hsame.
  injection Hsame as Hmode1 Hsessions1 Hptr1. rewrite Hmode in Hmode1.
  unfold findSession, isKeysDestroyer, bind at 1, gets at 1. rewrite Hsessions1.
  destruct (_sessions st !! shiftedDcId) as [stored|] eqn:Estored.
  - unfold bind, ret, emit, modify, gets, when. simpl_state. rewrite Hmode1.
    exists stored. eexists. split; [reflexivity|]. simpl_state.
    split; [reflexivity|]. split; [rewrite Hsessions1, insert_id; auto|].
    intros C f Ht Hs Hp Hd. rewrite Ht. apply Hkept. exact Hd.
  - unfold bind, ret, emit, modify, gets, when. simpl_state. rewrite Hmode1, Hptr1.
    do 2 eexists. split; [reflexivity|]. simpl_state.
    split; [reflexivity|]. split; [rewrite Hsessions1; reflexivity|].
    intros C f Ht Hs Hp Hd. rewrite Ht, Hs, Hp. apply Hkept. exact Hd.
Qed.

Lemma startSession_unfold shiftedDcId st :
  startSession shiftedDcId st = startSession_over (getSession_fuel 0) shiftedDcId st.
Proof. unfold startSession, getSession. apply startSession_over_fuel. Qed.

Lemma getSession_normal shiftedDcId st :
  _mode st = Normal ->
  shiftedDcId <> 0 -> BareDcId shiftedDcId <> 0 ->
  exists session st',
    getSession shiftedDcId st = Some (session, st')
    /\ session = default (mkSession (nextPtr st) shiftedDcId) (_sessions st !! shiftedDcId)
    /\ _sessions st' = <[shiftedDcId := session]> (_sessions st)
    /\ forall (C : Type) (f : Private -> C),
         ignores f set_trace -> ignores f set_sessions -> ignores f set_nextPtr ->
         ignores f set_dcenters ->
         f st' = f st.
Proof.
  intros Hmode Hnz Hbare. rewrite getSession_unfold.
  destruct (Z.eqb_spec shiftedDcId 0); [contradiction|].
  destruct (Z.eqb_spec (BareDcId shiftedDcId) 0); [contradiction|].
  unfold bind at 1, ret at 1. unfold findSession, bind at 1, gets at 1.
  destruct (_sessions st !! shiftedDcId) as [stored|] eqn:Estored.
  - exists stored, st. unfold ret. split; [reflexivity|]. split; [reflexivity|].
    split; [rewrite insert_id; auto | reflexivity].
  - rewrite <- startSession_unfold.
    destruct (startSession_normal shiftedDcId st Hmode Hbare)
      as (session & st' & Hrun & Hsession & Hrest).
    rewrite Estored in Hsession. exists session, st'. auto.
Qed.

Lemma removeSession_outcome shiftedDcId st :
  removeSession shiftedDcId st
  = Some (_sessions st !! shiftedDcId,
          match _sessions st !! shiftedDcId with
          | Some session =>
              set_sessions (delete shiftedDcId (_sessions st))
                (set_sessionsToDestroy (_sessionsToDestroy st ++ [session])
                   (set_trace (trace st ++ [SessionKill session]) st))
          | None => st
          end).
Proof.
  unfold removeSession, findSession, bind at 1, gets at 1.
  destruct (_sessions st !! shiftedDcId); reflexivity.
Qed.

Lemma checkIfMainAndKill_outcome shiftedDcId st :
  exists st',
    checkIfMainAndKill shiftedDcId st
    = Some (from_option (fun session => isSession session (_mainSession st)) false
              (_sessions st !! shiftedDcId), st')
    /\ _sessions st' = delete shiftedDcId (_sessions st)
    /\ forall (C : Type) (f : Private -> C),
         ignores f set_trace -> ignores f set_sessions -> ignores f set_sessionsToDestroy ->
         f st' = f st.
Proof.
  unfold checkIfMainAndKill. rewrite (bind_eq _ _ _ _ _ (removeSession_outcome _ _)).
  destruct (_sessions st !! shiftedDcId) as [session|] eqn:Esession.
  - unfold bind, gets, ret. simpl_state. eexists. split; [reflexivity|]. simpl_state.
    split; [reflexivity|]. intros C f Ht Hs Hd. rewrite Hs, Hd, Ht. reflexivity.
  - unfold ret. exists st. split; [reflexivity|].
    split; [rewrite delete_id; auto | reflexivity].
Qed.

Lemma sessionsStored_same st st' :
  _sessions st' = _sessions st -> _mainSession st' = _mainSession st ->
  sessionsStored st -> sessionsStored st'.
Proof. unfold sessionsStored. intros -> ->. auto. Qed.

(** [killSession] on the main session, in normal mode: the session of the
    main DC id is started anew and becomes the main one. *)
Lemma killSession_main old main st :
  _mode st = Normal ->
  _mainSession st = Some main ->
  _sessions st !! old = Some main ->
  BareDcId (_mainDcId st) <> 0 ->
  exists main' st',
    killSession old st = Some (tt, st')
    /\ getDcWithShift main' = _mainDcId st
    /\ _mainSession st' = Some main'
    /\ _sessions st'
       = <[_mainDcId st := main']> (delete (_mainDcId st) (delete old (_sessions st)))
    /\ forall (C : Type) (f : Private -> C),
         ignores f set_trace -> ignores f set_sessions -> ignores f set_nextPtr ->
         ignores f set_dcenters -> ignores f set_sessionsToDestroy ->
         ignores f set_mainSession ->
         f st' = f st.
Proof.
  intros Hmode Hmain Hold Hbare. unfold killSession.
  destruct (checkIfMainAndKill_outcome old st) as (sb & Hkill & Hsessionsb & Hframeb).
  rewrite Hold, Hmain in Hkill. cbn [from_option isSession] in Hkill.
  rewrite Nat.eqb_refl in Hkill. rewrite (bind_eq _ _ _ _ _ Hkill). unfold when.
  pose proof (Hframeb _ (fun s => (_mode s, _mainDcId s))
                ltac:(intros ? ?; reflexivity) ltac:(intros ? ?; reflexivity)
                ltac:(intros ? ?; reflexivity)) as Hb.
  injection Hb as Hmodeb Hidb. rewrite Hmode in Hmodeb.
  assert (Hinner : exists main' sd,
            (mainDcId <- gets _mainDcId;;
             checkIfMainAndKill mainDcId;;
             session <- startSession mainDcId;;
             modify (set_mainSession (Some session))) sb = Some (tt, sd)
            /\ getDcWithShift main' = _mainDcId st
            /\ _mainSession sd = Some main'
            /\ _sessions sd
               = <[_mainDcId st := main']> (delete (_mainDcId st) (delete old (_sessions st)))
            /\ forall (C : Type) (f : Private -> C),
                 ignores f set_trace -> ignores f set_sessions -> ignores f set_nextPtr ->
                 ignores f set_dcenters -> ignores f set_sessionsToDestroy ->
                 ignores f set_mainSession ->
                 f sd = f st).
  { unfold bind at 1, gets at 1. rewrite Hidb.
    destruct (checkIfMainAndKill_outcome (_mainDcId st) sb)
      as (sc & Hagain & Hsessionsc & Hframec).
    rewrite (bind_eq _ _ _ _ _ Hagain).
    pose proof (Hframec _ (fun s => _mode s)
                  ltac:(intros ? ?; reflexivity) ltac:(intros ? ?; reflexivity)
                  ltac:(intros ? ?; reflexivity)) as Hmodec.
    simpl in Hmodec. rewrite Hmodeb in Hmodec.
    destruct (startSession_normal (_mainDcId st) sc Hmodec Hbare)
      as (session & sd & Hstart & Hsession & Hsessionsd & Hframed).
    rewrite (bind_eq _ _ _ _ _ Hstart). unfold modify.
    rewrite Hsessionsc, lookup_delete_eq in Hsession. simpl in Hsession.
    exists session. eexists. split; [reflexivity|]. simpl_state.
    split; [rewrite Hsession; reflexivity|]. split; [reflexivity|].
    split; [rewrite Hsessionsd, Hsessionsc, Hsessionsb; reflexivity|].
    intros C f Ht Hs Hp Hd Hq Hm.
    rewrite Hm, (Hframed C f Ht Hs Hp Hd), (Hframec C f Ht Hs Hq).
    apply Hframeb; assumption. }
  destruct Hinner as (main' & sd & Hrun & Hshift & Hmain' & Hsessions' & Hframe').
  rewrite (bind_eq _ _ _ _ _ Hrun). unfold emit, modify.
  exists main'. eexists. split; [reflexivity|]. simpl_state.
  split; [exact Hshift|]. split; [exact Hmain'|]. split; [exact Hsessions'|].
  intros C f Ht Hs Hp Hd Hq Hm. rewrite Ht. apply Hframe'; assumption.
Qed.

Lemma setMainDcId_normal newMain main st :
  _mode st = Normal ->
  _mainSession st = Some main ->
  sessionsStored st ->
  0 < newMain -> BareDcId newMain <> 0 ->
  exists main' st',
    setMainDcId newMain st = Some (tt, st')
    /\ _mainSession st' = Some main'
    /\ getDcWithShift main' = newMain
    /\ _mainDcId st' = newMain
    /\ sessionsStored st'
    /\ forall (C : Type) (f : Private -> C), mainBlind f -> f st' = f st.
Proof.
  intros Hmode Hmain [Hstored Hmainstored] Hpos Hbare.
  unfold setMainDcId. unfold bind at 1, gets at 1. rewrite Hmain.
  unfold bind at 1 2, modify at 1 2.
  set (sa := set_mainDcId newMain (set_mainDcIdForced true st)).
  destruct (Z.eqb_spec (getDcWithShift main) newMain) as [Hsame|Hdiff]; cbn [negb];
    unfold when.
  - unfold bind, ret, emit, modify.
    exists main. eexists. split; [reflexivity|]. unfold sa. simpl_state.
    split; [exact Hmain|]. split; [exact Hsame|]. split; [reflexivity|].
    split; [split; assumption|].
    intros C f []. rewrite mainBlind_trace0, mainBlind_mainDcId0.
    apply mainBlind_mainDcIdForced0.
  - destruct (killSession_main (getDcWithShift main) main sa)
      as (main' & sd & Hkill & Hshift & Hmain' & Hsessions' & Hframe').
    { exact Hmode. }
    { exact Hmain. }
    { unfold sa. simpl_state. apply Hmainstored. exact Hmain. }
    { unfold sa. simpl_state. exact Hbare. }
    unfold sa in Hshift, Hsessions'. simpl_state_in Hshift. simpl_state_in Hsessions'.
    rewrite (bind_eq _ _ _ _ _ Hkill). unfold emit, modify.
    exists main'. eexists. split; [reflexivity|]. simpl_state.
    split; [exact Hmain'|]. split; [exact Hshift|].
    split.
    { apply (Hframe' _ (fun s => _mainDcId s)); intros ? ?; reflexivity. }
    split.
    { split.
      - intros k session. simpl_state. rewrite Hsessions'.
        destruct (Z.eq_dec newMain k) as [<-|Hne].
        + rewrite lookup_insert_eq. intros E. injection E as <-. auto.
        + rewrite lookup_insert_ne by exact Hne.
          rewrite lookup_delete_ne by exact Hne.
          intros Hin. apply lookup_delete_Some in Hin as [_ Hin]. apply Hstored. exact Hin.
      - intros m Hm. simpl_state_in Hm. simpl_state.
        rewrite Hmain' in Hm. injection Hm as <-.
        rewrite Hsessions', Hshift. apply lookup_insert_eq. }
    intros C f []. rewrite mainBlind_trace0, (Hframe' C f) by assumption.
    unfold sa. rewrite mainBlind_mainDcId0. apply mainBlind_mainDcIdForced0.
Qed.

Lemma sessionsStored_started shiftedDcId session st st' :
  sessionsStored st ->
  0 < shiftedDcId -> BareDcId shiftedDcId <> 0 ->
  session = default (mkSession (nextPtr st) shiftedDcId) (_sessions st !! shiftedDcId) ->
  _sessions st' = <[shiftedDcId := session]> (_sessions st) ->
  _mainSession st' = _mainSession st ->
  sessionsStored st' /\ getDcWithShift session = shiftedDcId.
Proof.
  intros [Hstored Hmainstored] Hpos Hbare Hsession Hsessions Hmain.
  unfold sessionsStored. rewrite Hsessions, Hmain.
  destruct (_sessions st !! shiftedDcId) as [stored|] eqn:Estored; simpl in Hsession;
    subst session.
  - rewrite (insert_id _ _ _ Estored).
    split; [split; assumption|]. apply (Hstored _ _ Estored).
  - split; [|reflexivity]. split.
    + intros k s. destruct (Z.eq_dec shiftedDcId k) as [<-|Hne].
      * rewrite lookup_insert_eq. intros E. injection E as <-. auto.
      * rewrite lookup_insert_ne by exact Hne. apply Hstored.
    + intros m Hm. specialize (Hmainstored m Hm).
      rewrite lookup_insert_ne by congruence. exact Hmainstored.
Qed.

(** A [_MIGRATE_] error on a request that is stored and routed, in normal
    mode: the request goes to the session of the new DC, under the new
    routing, and only the main DC, the sessions and the routing change. *)
Lemma migrate_once requestId newdc cur request st :
  _mode st = Normal ->
  sessionsStored st ->
  requestId <> 0 -> newdc <> 0 ->
  _requestsByDc st !! requestId = Some cur -> cur <> 0 ->
  _requestMap st !! requestId = Some request ->
  (cur < 0 -> is_Some (_mainSession st)) ->
  0 < migrateTarget newdc cur -> BareDcId (migrateTarget newdc cur) <> 0 ->
  exists session before st',
    onErrorDefault_migrate requestId newdc st = Some (true, st')
    /\ _requestsByDc st' = <[requestId := migrateRouting newdc cur]> (_requestsByDc st)
    /\ (cur < 0 -> _mainDcId st' = newdc /\ _mainSession st' = Some session)
    /\ (0 < cur -> _mainDcId st' = _mainDcId st /\ _mainSession st' = _mainSession st)
    /\ getDcWithShift session = migrateTarget newdc cur
    /\ _sessions st' !! migrateTarget newdc cur = Some session
    /\ trace st' = before ++ [SessionSendPrepared session request 0]
    /\ sessionsStored st'
    /\ forall (C : Type) (f : Private -> C),
         mainBlind f -> ignores f set_requestsByDc -> f st' = f st.
Proof.
  intros Hmode Hstored Hid Hnew Hroute Hcur Hrequest Hmain Hpos Hbare.
  unfold onErrorDefault_migrate, migrateRouting in *.
  destruct (Z.eqb_spec requestId 0); [contradiction|].
  unfold queryRequestByDc, bind at 1, gets at 1. rewrite Hroute. cbn [from_option id].
  destruct (Z.eqb_spec cur 0); [contradiction|].
  destruct (Z.eqb_spec newdc 0); [contradiction|]. cbn [orb].
  unfold migrateTarget in *.
  destruct (Z.ltb_spec cur 0) as [Hneg|Hnonneg]; cbv iota in *.
  - destruct (Hmain Hneg) as [main Hmain0].
    destruct (setMainDcId_normal newdc main st Hmode Hmain0 Hstored Hpos Hbare)
      as (main' & sa & Hset & Hmain' & Hshift & Hmainid & Hstored' & Hframe).
    assert (Hfirst : (setMainDcId newdc;; ret newdc) st = Some (newdc, sa)).
    { rewrite (bind_eq _ _ _ _ _ Hset). reflexivity. }
    rewrite (bind_eq _ _ _ _ _ Hfirst). unfold bind at 1, gets at 1.
    rewrite (Hframe _ (fun s => _requestMap s) ltac:(blind)), Hrequest.
    assert (Hin : _sessions sa !! newdc = Some main').
    { rewrite <- Hshift. apply Hstored'. exact Hmain'. }
    assert (Hsession : getSession newdc sa = Some (main', sa)).
    { apply getSession_found; [exact Hnew | intros; contradiction |].
      unfold resolvedDcId. destruct (Z.eqb_spec (BareDcId newdc) 0); [contradiction|].
      exact Hin. }
    rewrite (bind_eq _ _ _ _ _ Hsession).
    unfold registerRequest, emit, bind, modify, ret.
    exists main', (trace sa). eexists. split; [reflexivity|]. simpl_state.
    split; [rewrite (Hframe _ (fun s => _requestsByDc s) ltac:(blind)); reflexivity|].
    split; [auto|]. split; [lia|].
    split; [exact Hshift|]. split; [exact Hin|]. split; [reflexivity|].
    split; [apply (sessionsStored_same sa); [reflexivity | reflexivity | exact Hstored']|].
    intros C f Hblind Hr. rewrite (mainBlind_trace _ Hblind), Hr. apply Hframe. exact Hblind.
  - unfold bind at 1, ret at 1. unfold bind at 1, gets at 1. rewrite Hrequest.
    set (target := ShiftDcId newdc (GetDcIdShift cur)) in *.
    destruct (getSession_normal target st Hmode) as
      (session & sa & Hrun & Hsession & Hsessions & Hframe); [lia | exact Hbare |].
    rewrite (bind_eq _ _ _ _ _ Hrun).
    pose proof (Hframe _ (fun s => (_mainSession s, _mainDcId s, _requestsByDc s))
                  ltac:(intros ? ?; reflexivity) ltac:(intros ? ?; reflexivity)
                  ltac:(intros ? ?; reflexivity) ltac:(intros ? ?; reflexivity)) as Hsame.
    injection Hsame as Hmain1 Hmainid1 Hroute1.
    destruct (sessionsStored_started target session st sa Hstored Hpos Hbare Hsession
                Hsessions Hmain1) as [Hstored' Hshift].
    unfold registerRequest, emit, bind, modify, ret.
    exists session, (trace sa). eexists. split; [reflexivity|]. simpl_state.
    split; [rewrite Hroute1; reflexivity|].
    split; [lia|]. split; [auto|].
    split; [exact Hshift|].
    split; [rewrite Hsessions; apply lookup_insert_eq|]. split; [reflexivity|].
    split; [apply (sessionsStored_same sa); [reflexivity | reflexivity | exact Hstored']|].
    intros C f Hblind Hr. rewrite (mainBlind_trace _ Hblind), Hr.
    destruct Hblind. apply Hframe; assumption.
Qed.

(** C2: on an error whose type matches [(FILE|PHONE|NETWORK|USER)_MIGRATE_N]
    for a request that is stored and routed, [onErrorDefault] returns [true];
    a request to the main DC (negative routing) makes [N] the main DC, and no
    authorization is exported: no request is added and the tables of the
    exports are as they were; any other request is routed to [N] with the
    shift of its current routing; the routing is registered with the sign it
    had, and the stored payload goes to the session of the target; and the
    same error once more on the same request succeeds again and leaves the
    routing and the main DC as the first left them. *)
Theorem migrate_reroutes_and_replays requestId error newdc cur request st :
  match_migrate (err_type error) = Some newdc ->
  _mode st = Normal ->
  sessionsStored st ->
  requestId <> 0 -> newdc <> 0 ->
  _requestsByDc st !! requestId = Some cur -> cur <> 0 ->
  _requestMap st !! requestId = Some request ->
  (cur < 0 -> is_Some (_mainSession st)) ->
  0 < migrateTarget newdc cur -> BareDcId (migrateTarget newdc cur) <> 0 ->
  (0 < cur -> GetDcIdShift (migrateTarget newdc cur) = GetDcIdShift cur) ->
  exists session before st1,
    onErrorDefault requestId error st = Some (true, st1)
    /\ _requestsByDc st1 = <[requestId := migrateRouting newdc cur]> (_requestsByDc st)
    /\ migrateRouting newdc cur
       = (if cur <? 0 then - newdc else ShiftDcId newdc (GetDcIdShift cur))
    /\ (cur < 0 <-> migrateRouting newdc cur < 0)
    /\ (cur < 0 -> _mainDcId st1 = newdc /\ _mainSession st1 = Some session)
    /\ _authExportRequests st1 = _authExportRequests st
    /\ _authWaiters st1 = _authWaiters st
    /\ _requestMap st1 = _requestMap st
    /\ GlobalAtomicRequestId st1 = GlobalAtomicRequestId st
    /\ getDcWithShift session = migrateTarget newdc cur
    /\ trace st1 = before ++ [SessionSendPrepared session request 0]
    /\ exists session2 before2 st2,
         onErrorDefault requestId error st1 = Some (true, st2)
         /\ _requestsByDc st2 = _requestsByDc st1
         /\ _mainDcId st2 = _mainDcId st1
         /\ getDcWithShift session2 = migrateTarget newdc cur
         /\ trace st2 = before2 ++ [SessionSendPrepared session2 request 0].
Proof.
  intros Hmatch Hmode Hstored Hid Hnew Hroute Hcur Hrequest Hmain Hpos Hbare Hshift.
  unfold onErrorDefault. rewrite Hmatch.
  destruct (migrate_once requestId newdc cur request st Hmode Hstored Hid Hnew Hroute
              Hcur Hrequest Hmain Hpos Hbare)
    as (session & before & st1 & Hrun & Hroute1 & Hmain1 & Hother1 & Hsession & Hin
        & Htrace & Hstored1 & Hframe).
  pose proof (Hframe _ (fun s => (_mode s, _authExportRequests s, _authWaiters s,
                                  _requestMap s, GlobalAtomicRequestId s))
                ltac:(blind) ltac:(intros ? ?; reflexivity)) as Hsame.
  injection Hsame as Hmode1 Hexports Hwaiters Hmap Hcounter.
  assert (Hsign : cur < 0 <-> migrateRouting newdc cur < 0).
  { unfold migrateRouting. destruct (Z.ltb_spec cur 0); lia. }
  assert (Htarget : migrateTarget newdc (migrateRouting newdc cur) = migrateTarget newdc cur).
  { unfold migrateRouting, migrateTarget in *.
    destruct (Z.ltb_spec cur 0) as [Hneg|Hnonneg].
    - destruct (Z.ltb_spec (- newdc) 0); [reflexivity | lia].
    - destruct (Z.ltb_spec (ShiftDcId newdc (GetDcIdShift cur)) 0); [lia|].
      rewrite Hshift by lia. reflexivity. }
  assert (Hrouting : migrateRouting newdc (migrateRouting newdc cur)
                     = migrateRouting newdc cur).
  { unfold migrateRouting at 1 3. rewrite Htarget.
    destruct (Z.ltb_spec cur 0), (Z.ltb_spec (migrateRouting newdc cur) 0);
      [reflexivity | lia | lia | reflexivity]. }
  destruct (migrate_once requestId newdc (migrateRouting newdc cur) request st1)
    as (session2 & before2 & st2 & Hrun2 & Hroute2 & Hmain2 & Hother2 & Hsession2 & _
        & Htrace2 & _).
  { rewrite Hmode1. exact Hmode. }
  { exact Hstored1. }
  { exact Hid. }
  { exact Hnew. }
  { rewrite Hroute1. apply lookup_insert_eq. }
  { unfold migrateRouting. destruct (cur <? 0); lia. }
  { rewrite Hmap. exact Hrequest. }
  { intros Hneg. apply Hsign in Hneg. destruct (Hmain1 Hneg) as [_ ->]. eauto. }
  { rewrite Htarget. exact Hpos. }
  { rewrite Htarget. exact Hbare. }
  exists session, before, st1. split; [exact Hrun|]. split; [exact Hroute1|].
  split; [unfold migrateRouting, migrateTarget; destruct (cur <? 0); reflexivity|].
  split; [exact Hsign|]. split; [exact Hmain1|].
  do 4 (split; [assumption|]). split; [exact Hsession|]. split; [exact Htrace|].
  exists session2, before2, st2. rewrite Htarget in Hsession2.
  split; [exact Hrun2|].
  split; [rewrite Hroute2, Hrouting, Hroute1; apply insert_insert_eq|].
  split; [|split; assumption].
  destruct (Z.lt_total cur 0) as [Hneg|[Hzero|Hposcur]]; [| contradiction |].
  - destruct (Hmain1 Hneg) as [-> _]. apply Hmain2, Hsign. exact Hneg.
  - apply Hother2. unfold migrateRouting. destruct (Z.ltb_spec cur 0); lia.
Qed.

End MigrateProperties.

(** C2 on the example instance: request 11, sent to DC 2 with shift 3, is
    told [FILE_MIGRATE_4]; its routing becomes DC 4 with shift 3, and stays
    so when the error comes again. *)
Lemma migrate_reroutes_and_replays_witness :
  let st := set_requestMap {[ 11 := mkRequest examplePayload 11 false None 0 ]}
              (set_requestsByDc {[ 11 := 30002 ]} startedPrivate) in
  let error := mkRPCError 303 "FILE_MIGRATE_4" in
  exists st1 st2,
    @onErrorDefault exampleCollaborators 11 error st = Some (true, st1)
    /\ _requestsByDc st1 !! 11 = Some 30004
    /\ @onErrorDefault exampleCollaborators 11 error st1 = Some (true, st2)
    /\ _requestsByDc st2 !! 11 = Some 30004.
Proof.
  intros st error.
  destruct (@migrate_reroutes_and_replays exampleCollaborators 11 error 4 30002
              (mkRequest examplePayload 11 false None 0) st)
    as (session & before & st1 & Hrun & Hroute & _ & _ & _ & _ & _ & _ & _ & _ & _
        & session2 & before2 & st2 & Hrun2 & Hroute2 & _).
  - vm_compute. reflexivity.
  - vm_compute. reflexivity.
  - apply (sessionsStored_same startedPrivate);
      [vm_compute; reflexivity | vm_compute; reflexivity
      | exact sessionsStored_startedPrivate].
  - discriminate.
  - discriminate.
  - vm_compute. reflexivity.
  - discriminate.
  - vm_compute. reflexivity.
  - intros Hneg. vm_compute in Hneg. discriminate.
  - vm_compute. reflexivity.
  - vm_compute. discriminate.
  - intros _. vm_compute. reflexivity.
  - exists st1, st2. split; [exact Hrun|].
    assert (Hfirst : _requestsByDc st1 !! 11 = Some 30004).
    { rewrite Hroute. apply lookup_insert_eq. }
    split; [exact Hfirst|]. split; [exact Hrun2|].
    rewrite Hroute2. exact Hfirst.
Defined.

(** The run of a [USER_MIGRATE_4] on request 12, sent to the main DC 2,
    computed: DC 4 becomes the main one, the routing is -4, the payload goes
    to the new main session, no request is added, and a second
    [USER_MIGRATE_4] changes neither the routing nor the main DC. *)
Example migrate_main_example_run :
  let st := set_requestMap {[ 12 := mkRequest examplePayload 12 false None 0 ]}
              (set_requestsByDc {[ 12 := -2 ]} startedPrivate) in
  let error := mkRPCError 303 "USER_MIGRATE_4" in
  let st1 := stateAfter (@onErrorDefault exampleCollaborators 12 error) st in
  let st2 := stateAfter (@onErrorDefault exampleCollaborators 12 error) st1 in
  _mainDcId st1 = 4
  /\ _requestsByDc st1 !! 12 = Some (-4)
  /\ option_map getDcWithShift (_mainSession st1) = Some 4
  /\ last (trace st1)
     = Some (SessionSendPrepared (mkSession 2 4)
               (mkRequest examplePayload 12 false None 0) 0)
  /\ _requestMap st1 = _requestMap st
  /\ _authExportRequests st1 = ∅
  /\ _requestsByDc st2 = _requestsByDc st1
  /\ _mainDcId st2 = 4.
Proof. vm_compute. repeat split; reflexivity. Qed.

(** * More properties of the instance *)

(** ** 4.G Errors of the connection layer *)

Section LayerProperties.

Context `{collab : Collaborators}.

Lemma onErrorDefault_layer_branch requestId error st :
  err_type error = "CONNECTION_NOT_INITED"%string
  \/ err_type error = "CONNECTION_LAYER_INVALID"%string ->
  0 <= err_code error < 500 -> err_code error <> 401 ->
  onErrorDefault requestId error st = onErrorDefault_layer requestId st.
Proof.
  intros Htype Hcode Hauth. unfold onErrorDefault.
  assert (Hlow : (err_code error <? 0) = false) by (apply Z.ltb_ge; lia).
  assert (Hhigh : (err_code error >=? 500) = false) by (rewrite Z.geb_leb; apply Z.leb_gt; lia).
  assert (H401 : (err_code error =? 401) = false) by (apply Z.eqb_neq; exact Hauth).
  destruct Htype as [-> | ->];
    (replace (match_migrate _) with (@None Z) by (vm_compute; reflexivity));
    (replace (match_flood_wait _) with (@None Z) by (vm_compute; reflexivity));
    rewrite Hlow, Hhigh, H401; cbn [orb andb notNull];
    unfold bind at 1, gets at 1;
    (replace (String.eqb _ "FILE_ID_INVALID") with false by (vm_compute; reflexivity));
    rewrite andb_false_r; cbn [orb andb];
    reflexivity.
Qed.

Lemma alter_stored {V : Type} (f : V -> V) (k : Z) (v : V) (m : gmap Z V) :
  m !! k = Some v -> alter f k m = <[k := f v]> m.
Proof.
  intros Hk. apply map_eq. intros i. destruct (Z.eq_dec k i) as [<-|Hne].
  - rewrite lookup_alter_eq, lookup_insert_eq, Hk. reflexivity.
  - rewrite lookup_alter_ne, lookup_insert_ne by exact Hne. reflexivity.
Qed.

(** X1: a [CONNECTION_NOT_INITED] or [CONNECTION_LAYER_INVALID] error on a
    request that is stored and routed, in normal mode, is handled: the
    payload is marked as needing the layer, in the request map too, and goes
    to the session of the DC the request is routed to; routing, handlers
    and the delayed queue stay as they are. *)
Theorem layer_error_resends_with_layer requestId error request cur st :
  err_type error = "CONNECTION_NOT_INITED"%string
  \/ err_type error = "CONNECTION_LAYER_INVALID"%string ->
  0 <= err_code error < 500 -> err_code error <> 401 ->
  _mode st = Normal ->
  _requestMap st !! requestId = Some request ->
  _requestsByDc st !! requestId = Some cur ->
  cur <> 0 -> BareDcId (Z.abs cur) <> 0 ->
  exists session before st',
    onErrorDefault requestId error st = Some (true, st')
    /\ trace st' = before ++ [SessionSendPrepared session (setNeedsLayer request) 0]
    /\ _sessions st' !! Z.abs cur = Some session
    /\ _requestMap st' = <[requestId := setNeedsLayer request]> (_requestMap st)
    /\ _requestsByDc st' = _requestsByDc st
    /\ _parserMap st' = _parserMap st
    /\ _delayedRequests st' = _delayedRequests st.
Proof.
  intros Htype Hcode Hauth Hmode Hrequest Hroute Hcur Hbare.
  rewrite (onErrorDefault_layer_branch _ _ _ Htype Hcode Hauth).
  unfold onErrorDefault_layer, queryRequestByDc.
  unfold bind at 1, gets at 1. rewrite Hrequest.
  unfold bind at 1, gets at 1. rewrite Hroute. cbn [from_option id].
  destruct (Z.eqb_spec cur 0); [contradiction|].
  destruct (getSession_normal (Z.abs cur) st Hmode) as
    (session & sa & Hrun & _ & Hsessions & Hframe); [lia | exact Hbare |].
  rewrite (bind_eq _ _ _ _ _ Hrun).
  pose proof (Hframe _ (fun s => (_requestMap s, _requestsByDc s, _parserMap s,
                                  _delayedRequests s))
                ltac:(intros ? ?; reflexivity) ltac:(intros ? ?; reflexivity)
                ltac:(intros ? ?; reflexivity) ltac:(intros ? ?; reflexivity)) as Hsame.
  injection Hsame as Hmap Hrouting Hparser Hqueue.
  unfold alterRequest, emit, bind, modify, ret.
  exists session, (trace sa). eexists. split; [reflexivity|]. simpl_state.
  split; [reflexivity|].
  split; [rewrite Hsessions; apply lookup_insert_eq|].
  split; [rewrite Hmap; apply alter_stored; exact Hrequest|].
  auto.
Qed.

End LayerProperties.

(** X1 on the example instance: request 7, routed to DC 2 with shift 3, is
    re-sent with the layer. *)
Lemma layer_error_resends_with_layer_witness :
  let request := mkRequest examplePayload 7 false None 0 in
  let st := set_requestMap {[ 7 := request ]}
              (set_requestsByDc {[ 7 := 30002 ]} startedPrivate) in
  exists st',
    @onErrorDefault exampleCollaborators 7 (mkRPCError 400 "CONNECTION_LAYER_INVALID") st
    = Some (true, st')
    /\ _requestMap st' !! 7 = Some (mkRequest examplePayload 7 true None 0).
Proof.
  intros request st.
  destruct (@layer_error_resends_with_layer exampleCollaborators 7
              (mkRPCError 400 "CONNECTION_LAYER_INVALID") request 30002 st)
    as (session & before & st' & Hrun & _ & _ & Hmap & _).
  - right. reflexivity.
  - simpl. lia.
  - discriminate.
  - vm_compute. reflexivity.
  - vm_compute. reflexivity.
  - vm_compute. reflexivity.
  - discriminate.
  - vm_compute. discriminate.
  - exists st'. split; [exact Hrun|]. rewrite Hmap. apply lookup_insert_eq.
Defined.

(** ** 4.G [MSG_WAIT_FAILED] *)

Lemma insertBeforeAfter_before requestId afterRequestId due front back :
  hasRequest requestId front = false ->
  hasRequest afterRequestId front = false ->
  requestId <> afterRequestId ->
  insertBeforeAfter requestId afterRequestId (front ++ (afterRequestId, due) :: back)
  = Some (front ++ (requestId, due) :: (afterRequestId, due) :: back).
Proof.
  intros Hr Ha Hne. induction front as [|[first second] front IH]; simpl in *.
  - destruct (Z.eqb_spec afterRequestId requestId); [congruence|].
    rewrite Z.eqb_refl. reflexivity.
  - apply orb_false_elim in Hr as [Hr1 Hr]. apply orb_false_elim in Ha as [Ha1 Ha].
    rewrite Hr1, Ha1, (IH Hr Ha). reflexivity.
Qed.

Lemma insertBeforeAfter_absent requestId afterRequestId queue :
  hasRequest requestId queue = false ->
  hasRequest afterRequestId queue = false ->
  insertBeforeAfter requestId afterRequestId queue = Some queue.
Proof.
  induction queue as [|[first second] queue IH]; simpl; [reflexivity|].
  intros Hr Ha.
  apply orb_false_elim in Hr as [Hr1 Hr]. apply orb_false_elim in Ha as [Ha1 Ha].
  rewrite Hr1, Ha1, (IH Hr Ha). reflexivity.
Qed.

Lemma insertBeforeAfter_bound (P : Z -> bool) requestId afterRequestId queue queue' :
  insertBeforeAfter requestId afterRequestId queue = Some queue' ->
  forallb (fun entry => P (snd entry)) queue = true ->
  forallb (fun entry => P (snd entry)) queue' = true.
Proof.
  revert queue'. induction queue as [|[first second] queue IH]; simpl; intros queue' Hrun Hall.
  - injection Hrun as <-. reflexivity.
  - apply andb_prop in Hall as [Hfirst Hall].
    destruct (first =? requestId); [discriminate|].
    destruct (first =? afterRequestId).
    + injection Hrun as <-. simpl. rewrite Hfirst, Hall. reflexivity.
    + destruct (insertBeforeAfter requestId afterRequestId queue) as [inner|]; [|discriminate].
      injection Hrun as <-. simpl. rewrite Hfirst, (IH inner eq_refl Hall). reflexivity.
Qed.

Lemma insertBeforeAfter_sorted requestId afterRequestId queue queue' :
  sortedByDue queue = true ->
  insertBeforeAfter requestId afterRequestId queue = Some queue' ->
  sortedByDue queue' = true.
Proof.
  revert queue'. induction queue as [|[first second] queue IH]; simpl; intros queue' Hs Hrun.
  - injection Hrun as <-. reflexivity.
  - apply andb_prop in Hs as [Hall Hs].
    destruct (first =? requestId); [discriminate|].
    destruct (first =? afterRequestId).
    + injection Hrun as <-. simpl. rewrite Z.leb_refl, Hall, Hs. reflexivity.
    + destruct (insertBeforeAfter requestId afterRequestId queue) as [inner|] eqn:Einner;
        [|discriminate].
      injection Hrun as <-. simpl. rewrite (IH inner Hs eq_refl), andb_true_r.
      exact (insertBeforeAfter_bound (fun due => second <=? due) _ _ _ _ Einner Hall).
Qed.

Section WaitFailedProperties.

Context `{collab : Collaborators}.

Lemma onErrorDefault_waitFailed_branch requestId error st :
  err_type error = "MSG_WAIT_FAILED"%string ->
  0 <= err_code error < 500 -> err_code error <> 401 ->
  onErrorDefault requestId error st = onErrorDefault_waitFailed requestId st.
Proof.
  intros Htype Hcode Hauth. unfold onErrorDefault.
  assert (Hlow : (err_code error <? 0) = false) by (apply Z.ltb_ge; lia).
  assert (Hhigh : (err_code error >=? 500) = false)
    by (rewrite Z.geb_leb; apply Z.leb_gt; lia).
  assert (H401 : (err_code error =? 401) = false) by (apply Z.eqb_neq; exact Hauth).
  rewrite Htype.
  (replace (match_migrate _) with (@None Z) by (vm_compute; reflexivity)).
  (replace (match_flood_wait _) with (@None Z) by (vm_compute; reflexivity)).
  rewrite Hlow, Hhigh, H401. cbn [orb andb notNull].
  unfold bind at 1, gets at 1.
  (replace (String.eqb _ "FILE_ID_INVALID") with false by (vm_compute; reflexivity)).
  rewrite andb_false_r. cbn [orb andb]. reflexivity.
Qed.

Lemma waitFailed_same_dc requestId afterRequestId request cur st :
  _requestMap st !! requestId = Some request ->
  req_after request = Some afterRequestId ->
  _requestsByDc st !! requestId = Some cur ->
  _requestsByDc st !! afterRequestId = Some cur ->
  cur <> 0 ->
  afterRequestId ∉ default [] (_authWaiters st !! BareDcId (Z.abs cur)) ->
  onErrorDefault_waitFailed requestId st
  = match insertBeforeAfter requestId afterRequestId (_delayedRequests st) with
    | None => Some (true, withWaiters (BareDcId (Z.abs cur)) st)
    | Some queue' =>
        (checkDelayedRequests;; ret true)
          (set_delayedRequests queue' (withWaiters (BareDcId (Z.abs cur)) st))
    end.
Proof.
  intros Hrequest Hafter Hroute Hrouteafter Hcur Hwaiting.
  unfold onErrorDefault_waitFailed, queryRequestByDc.
  unfold bind at 1, gets at 1. rewrite Hrequest, Hafter.
  unfold bind at 1, gets at 1. rewrite Hroute. cbn [notNull].
  unfold bind at 1, gets at 1. rewrite Hrouteafter.
  rewrite Z.eqb_refl. cbn [negb]. unfold when, bind at 1, ret at 1.
  destruct (Z.eqb_spec cur 0); [contradiction|].
  unfold authWaitersRef. unfold bind at 1 2, modify at 1, gets at 1.
  fold (withWaiters (BareDcId (Z.abs cur)) st).
  assert (Hsame : default [] (_authWaiters (withWaiters (BareDcId (Z.abs cur)) st)
                              !! BareDcId (Z.abs cur))
                  = default [] (_authWaiters st !! BareDcId (Z.abs cur))).
  { unfold withWaiters. simpl_state. unfold emplace.
    destruct (_authWaiters st !! BareDcId (Z.abs cur)) eqn:E.
    - rewrite E. reflexivity.
    - rewrite lookup_insert_eq. reflexivity. }
  rewrite Hsame. rewrite (bool_decide_eq_false_2 _ Hwaiting).
  unfold bind at 1, gets at 1.
  replace (_delayedRequests (withWaiters (BareDcId (Z.abs cur)) st))
    with (_delayedRequests st) by reflexivity.
  destruct (insertBeforeAfter requestId afterRequestId (_delayedRequests st));
    reflexivity.
Qed.

(** X2: a [MSG_WAIT_FAILED] error on a request whose dependency is routed to
    the same DC and waits in the delayed queue puts the request into the
    queue right before its dependency, due at the same time: the queue
    stays sorted, nothing is sent for the request, and what follows is the
    check of the queue. *)
Theorem wait_failed_queues_before_dependency
    requestId afterRequestId error request cur due front back st :
  err_type error = "MSG_WAIT_FAILED"%string ->
  0 <= err_code error < 500 -> err_code error <> 401 ->
  _requestMap st !! requestId = Some request ->
  req_after request = Some afterRequestId ->
  _requestsByDc st !! requestId = Some cur ->
  _requestsByDc st !! afterRequestId = Some cur ->
  cur <> 0 ->
  afterRequestId ∉ default [] (_authWaiters st !! BareDcId (Z.abs cur)) ->
  _delayedRequests st = front ++ (afterRequestId, due) :: back ->
  hasRequest requestId front = false ->
  hasRequest afterRequestId front = false ->
  requestId <> afterRequestId ->
  sortedByDue (_delayedRequests st) = true ->
  exists st1,
    onErrorDefault requestId error st = (checkDelayedRequests;; ret true) st1
    /\ _delayedRequests st1 = front ++ (requestId, due) :: (afterRequestId, due) :: back
    /\ sortedByDue (_delayedRequests st1) = true
    /\ _requestMap st1 = _requestMap st
    /\ _requestsByDc st1 = _requestsByDc st
    /\ trace st1 = trace st.
Proof.
  intros Htype Hcode Hauth Hrequest Hafter Hroute Hrouteafter Hcur Hwaiting Hqueue
    Hfront Hfrontafter Hne Hsorted.
  rewrite (onErrorDefault_waitFailed_branch _ _ _ Htype Hcode Hauth).
  rewrite (waitFailed_same_dc _ _ _ _ _ Hrequest Hafter Hroute Hrouteafter Hcur Hwaiting).
  pose proof (insertBeforeAfter_before requestId afterRequestId due front back
                Hfront Hfrontafter Hne) as Hinsert.
  rewrite <- Hqueue in Hinsert. rewrite Hinsert.
  eexists. split; [reflexivity|]. simpl_state. split; [reflexivity|].
  split; [|auto].
  apply (insertBeforeAfter_sorted requestId afterRequestId (_delayedRequests st));
    assumption.
Qed.

(** X3: a [MSG_WAIT_FAILED] error on a request whose dependency is routed to
    the same DC but neither waits for an authorization import nor is in the
    delayed queue is answered as handled, yet the request is neither sent
    nor queued: the queue, the request map and the trace are as they were
    when the queue is checked. *)
Theorem wait_failed_without_queued_dependency_drops
    requestId afterRequestId error request cur st :
  err_type error = "MSG_WAIT_FAILED"%string ->
  0 <= err_code error < 500 -> err_code error <> 401 ->
  _requestMap st !! requestId = Some request ->
  req_after request = Some afterRequestId ->
  _requestsByDc st !! requestId = Some cur ->
  _requestsByDc st !! afterRequestId = Some cur ->
  cur <> 0 ->
  afterRequestId ∉ default [] (_authWaiters st !! BareDcId (Z.abs cur)) ->
  hasRequest requestId (_delayedRequests st) = false ->
  hasRequest afterRequestId (_delayedRequests st) = false ->
  exists st1,
    onErrorDefault requestId error st = (checkDelayedRequests;; ret true) st1
    /\ _delayedRequests st1 = _delayedRequests st
    /\ _requestMap st1 = _requestMap st
    /\ _requestsByDc st1 = _requestsByDc st
    /\ trace st1 = trace st
    /\ (_delayedRequests st = [] ->
        exists st2, onErrorDefault requestId error st = Some (true, st2)
                    /\ trace st2 = trace st /\ _delayedRequests st2 = []).
Proof.
  intros Htype Hcode Hauth Hrequest Hafter Hroute Hrouteafter Hcur Hwaiting Hid Hdep.
  rewrite (onErrorDefault_waitFailed_branch _ _ _ Htype Hcode Hauth).
  rewrite (waitFailed_same_dc _ _ _ _ _ Hrequest Hafter Hroute Hrouteafter Hcur Hwaiting).
  rewrite (insertBeforeAfter_absent _ _ _ Hid Hdep).
  eexists. split; [reflexivity|]. simpl_state. do 4 (split; [reflexivity|]).
  intros Hempty. rewrite Hempty.
  unfold checkDelayedRequests, crl_now, bind, gets, modify, ret. simpl_state.
  eexists. split; [reflexivity|]. simpl_state. auto.
Qed.

(** X4: a [MSG_WAIT_FAILED] error on a request whose dependency is routed
    to another DC, in normal mode, gives the dependency up: the stored
    request loses it and is marked as needing the layer, and goes to the
    session of its own DC at once; the delayed queue and the routing stay as
    they are. *)
Theorem wait_failed_on_other_dc_drops_dependency
    requestId afterRequestId error request cur other st :
  err_type error = "MSG_WAIT_FAILED"%string ->
  0 <= err_code error < 500 -> err_code error <> 401 ->
  _mode st = Normal ->
  _requestMap st !! requestId = Some request ->
  req_after request = Some afterRequestId ->
  _requestsByDc st !! requestId = Some cur ->
  _requestsByDc st !! afterRequestId = Some other ->
  cur <> other ->
  cur <> 0 -> BareDcId (Z.abs cur) <> 0 ->
  exists session before st',
    onErrorDefault requestId error st = Some (true, st')
    /\ trace st'
       = before ++ [SessionSendPrepared session (setNeedsLayer (clearAfter request)) 0]
    /\ _sessions st' !! Z.abs cur = Some session
    /\ _requestMap st'
       = <[requestId := setNeedsLayer (clearAfter request)]> (_requestMap st)
    /\ _requestsByDc st' = _requestsByDc st
    /\ _delayedRequests st' = _delayedRequests st
    /\ _authWaiters st' = _authWaiters st.
Proof.
  intros Htype Hcode Hauth Hmode Hrequest Hafter Hroute Hrouteafter Hother Hcur Hbare.
  rewrite (onErrorDefault_waitFailed_branch _ _ _ Htype Hcode Hauth).
  unfold onErrorDefault_waitFailed, queryRequestByDc.
  unfold bind at 1, gets at 1. rewrite Hrequest, Hafter.
  unfold bind at 1, gets at 1. rewrite Hroute. cbn [notNull].
  unfold bind at 1, gets at 1. rewrite Hrouteafter.
  destruct (Z.eqb_spec cur other); [contradiction|]. cbn [negb].
  unfold when, alterRequest, bind at 1, modify at 1.
  destruct (Z.eqb_spec cur 0); [contradiction|].
  set (dropped := set_requestMap _ st).
  destruct (getSession_normal (Z.abs cur) dropped Hmode) as
    (session & sa & Hrun & _ & Hsessions & Hframe); [lia | exact Hbare |].
  rewrite (bind_eq _ _ _ _ _ Hrun).
  pose proof (Hframe _ (fun s => (_requestMap s, _requestsByDc s, _delayedRequests s,
                                  _authWaiters s))
                ltac:(intros ? ?; reflexivity) ltac:(intros ? ?; reflexivity)
                ltac:(intros ? ?; reflexivity) ltac:(intros ? ?; reflexivity)) as Hsame.
  injection Hsame as Hmap Hrouting Hqueue Hwaiters.
  unfold emit, bind, modify, ret.
  exists session, (trace sa). eexists. split; [reflexivity|]. simpl_state.
  split; [reflexivity|].
  split; [rewrite Hsessions; apply lookup_insert_eq|].
  split; [|auto].
  rewrite Hmap. unfold dropped. simpl_state.
  rewrite (alter_stored clearAfter _ _ _ Hrequest).
  rewrite (alter_stored setNeedsLayer requestId (clearAfter request))
    by apply lookup_insert_eq.
  apply insert_insert_eq.
Qed.

End WaitFailedProperties.

(** What [dependentExample] holds for requests 7 and 5. *)
Lemma dependentExample_values routing5 queued :
  let st := dependentExample routing5 queued in
  _requestMap st !! 7 = Some (mkRequest examplePayload 7 false (Some 5) 0)
  /\ _requestsByDc st !! 7 = Some 30002
  /\ _requestsByDc st !! 5 = Some routing5
  /\ _delayedRequests st = (if queued then [(5, 9000)] else [])
  /\ _mode st = Normal.
Proof. destruct queued; vm_compute; repeat split; reflexivity. Qed.

(** X2 on the example instance: request 7 is queued before request 5, at
    9000 ms too. *)
Lemma wait_failed_queues_before_dependency_witness :
  exists st1,
    @onErrorDefault exampleCollaborators 7 (mkRPCError 400 "MSG_WAIT_FAILED")
      (dependentExample 30002 true)
    = (@checkDelayedRequests exampleCollaborators;; ret true) st1
    /\ _delayedRequests st1 = [(7, 9000); (5, 9000)].
Proof.
  destruct (dependentExample_values 30002 true) as (Hmap & Hroute & Hroute5 & Hqueue & _).
  destruct (@wait_failed_queues_before_dependency exampleCollaborators 7 5
              (mkRPCError 400 "MSG_WAIT_FAILED")
              (mkRequest examplePayload 7 false (Some 5) 0) 30002 9000 [] []
              (dependentExample 30002 true))
    as (st1 & Hrun & Hqueue1 & _).
  - reflexivity.
  - simpl. lia.
  - discriminate.
  - exact Hmap.
  - reflexivity.
  - exact Hroute.
  - exact Hroute5.
  - discriminate.
  - vm_compute. intros Hin. inversion Hin.
  - exact Hqueue.
  - reflexivity.
  - reflexivity.
  - discriminate.
  - vm_compute. reflexivity.
  - exists st1. split; [exact Hrun | exact Hqueue1].
Defined.

(** X3 on the example instance: with request 5 not in the queue, the error
    on request 7 is handled and nothing happens. *)
Lemma wait_failed_without_queued_dependency_drops_witness :
  exists st2,
    @onErrorDefault exampleCollaborators 7 (mkRPCError 400 "MSG_WAIT_FAILED")
      (dependentExample 30002 false)
    = Some (true, st2)
    /\ trace st2 = trace (dependentExample 30002 false)
    /\ _delayedRequests st2 = [].
Proof.
  destruct (dependentExample_values 30002 false) as (Hmap & Hroute & Hroute5 & Hqueue & _).
  destruct (@wait_failed_without_queued_dependency_drops exampleCollaborators 7 5
              (mkRPCError 400 "MSG_WAIT_FAILED")
              (mkRequest examplePayload 7 false (Some 5) 0) 30002
              (dependentExample 30002 false))
    as (st1 & _ & _ & _ & _ & _ & Hempty).
  - reflexivity.
  - simpl. lia.
  - discriminate.
  - exact Hmap.
  - reflexivity.
  - exact Hroute.
  - exact Hroute5.
  - discriminate.
  - vm_compute. intros Hin. inversion Hin.
  - vm_compute. reflexivity.
  - vm_compute. reflexivity.
  - exact (Hempty Hqueue).
Defined.

(** X4 on the example instance: request 5 is routed to DC 4, and request 7
    goes out again without its dependency. *)
Lemma wait_failed_on_other_dc_drops_dependency_witness :
  exists st',
    @onErrorDefault exampleCollaborators 7 (mkRPCError 400 "MSG_WAIT_FAILED")
      (dependentExample 30004 true)
    = Some (true, st')
    /\ _requestMap st' !! 7 = Some (mkRequest examplePayload 7 true None 0)
    /\ _delayedRequests st' = [(5, 9000)].
Proof.
  destruct (dependentExample_values 30004 true) as (Hmap & Hroute & Hroute5 & Hqueue & Hmode).
  destruct (@wait_failed_on_other_dc_drops_dependency exampleCollaborators 7 5
              (mkRPCError 400 "MSG_WAIT_FAILED")
              (mkRequest examplePayload 7 false (Some 5) 0) 30002 30004
              (dependentExample 30004 true))
    as (session & before & st' & Hrun & _ & _ & Hmap' & _ & Hqueue' & _).
  - reflexivity.
  - simpl. lia.
  - discriminate.
  - exact Hmode.
  - exact Hmap.
  - reflexivity.
  - exact Hroute.
  - exact Hroute5.
  - discriminate.
  - discriminate.
  - vm_compute. discriminate.
  - exists st'. split; [exact Hrun|].
    split; [rewrite Hmap'; apply lookup_insert_eq|].
    rewrite Hqueue'. exact Hqueue.
Defined.

(** ** Handlers *)

Section HandlerProperties.

Context `{collab : Collaborators}.

(** What [unregisterRequest] leaves of a request. *)
Lemma unregisterRequest_outcome requestId st :
  exists st',
    unregisterRequest requestId st = Some (tt, st')
    /\ _requestsDelays st' = delete requestId (_requestsDelays st)
    /\ _requestMap st' = delete requestId (_requestMap st)
    /\ _requestsByDc st' = delete requestId (_requestsByDc st)
    /\ _parserMap st' = _parserMap st
    /\ trace st' = trace st.
Proof.
  unfold unregisterRequest, bind, modify. eexists. split; [reflexivity|].
  simpl_state. auto.
Qed.




(** X7: when the error is one the fail handler may take itself and the
    handler declines it, the policy is asked next; if the policy declines
    too, the same fail handler is called a second time with the same error,
    and the request is to be cleaned. *)
Theorem rpcErrorOccured_calls_declining_handler_twice
    requestId callback error st st1 :
  isDefaultHandledError error = true ->
  failResult callback requestId error = false ->
  onErrorDefault requestId error
    (set_trace (trace st ++ [FailCalled requestId callback error]) st)
  = Some (false, st1) ->
  rpcErrorOccured requestId (Some callback) error st
  = Some (true, set_trace (trace st1 ++ [FailCalled requestId callback error]) st1).
Proof.
  intros Hdefault Hdeclines Hpolicy. unfold rpcErrorOccured. rewrite Hdefault.
  unfold callFail at 1. unfold bind at 1 2, emit at 1, modify at 1, ret at 1.
  rewrite Hdeclines. rewrite (bind_eq _ _ _ _ _ Hpolicy).
  reflexivity.
Qed.

Lemma clearCallbacks_quiet requestId errorCode st :
  errorCode = 0 \/ _parserMap st !! requestId = None ->
  clearCallbacks requestId errorCode st
  = Some (tt, set_parserMap (delete requestId (_parserMap st)) st).
Proof.
  intros Hquiet. unfold clearCallbacks, bind, gets, modify.
  destruct (_parserMap st !! requestId) as [h|] eqn:Eh; [|reflexivity].
  destruct Hquiet as [-> | Hnone]; [reflexivity | discriminate].
Qed.

(** X8: [clearCallbacks] on a list of requests, each with error code 0 or
    without handlers, returns when the list is not empty, calls nothing,
    and forgets the requests of the list and only them: they have no
    handlers, payload, routing or retry delay left, and the entries of the
    other requests are as they were.  On the empty list the precondition of
    the function fails. *)
Theorem clearCallbacks_ids_forgets_listed ids st :
  ids <> [] ->
  Forall (fun clearRequest =>
            snd clearRequest = 0 \/ _parserMap st !! fst clearRequest = None) ids ->
  exists st',
    clearCallbacks_ids ids st = Some (tt, st')
    /\ trace st' = trace st
    /\ (forall requestId,
          _parserMap st' !! requestId
          = (if bool_decide (requestId ∈ ids.*1) then None else _parserMap st !! requestId)
          /\ _requestMap st' !! requestId
             = (if bool_decide (requestId ∈ ids.*1) then None
                else _requestMap st !! requestId)
          /\ _requestsByDc st' !! requestId
             = (if bool_decide (requestId ∈ ids.*1) then None
                else _requestsByDc st !! requestId)
          /\ _requestsDelays st' !! requestId
             = (if bool_decide (requestId ∈ ids.*1) then None
                else _requestsDelays st !! requestId))
    /\ clearCallbacks_ids [] st = None.
Proof.
  intros Hsome Hquiet. unfold clearCallbacks_ids.
  destruct ids as [|first rest] eqn:Eids; [contradiction|]. rewrite <- Eids in *.
  replace (negb (Nat.eqb (length ids) 0)) with true by (rewrite Eids; reflexivity).
  unfold Assert at 1, bind at 1, ret at 1. clear Hsome Eids first rest.
  assert (Hloop : exists st',
            forEach (fun clearRequest =>
                       clearCallbacks (fst clearRequest) (snd clearRequest);;
                       unregisterRequest (fst clearRequest)) ids st = Some (tt, st')
            /\ trace st' = trace st
            /\ forall requestId,
                 _parserMap st' !! requestId
                 = (if bool_decide (requestId ∈ ids.*1) then None
                    else _parserMap st !! requestId)
                 /\ _requestMap st' !! requestId
                    = (if bool_decide (requestId ∈ ids.*1) then None
                       else _requestMap st !! requestId)
                 /\ _requestsByDc st' !! requestId
                    = (if bool_decide (requestId ∈ ids.*1) then None
                       else _requestsByDc st !! requestId)
                 /\ _requestsDelays st' !! requestId
                    = (if bool_decide (requestId ∈ ids.*1) then None
                       else _requestsDelays st !! requestId)).
  { revert st Hquiet. induction ids as [|[first code] rest IH]; intros st Hquiet.
    - exists st. cbn [forEach]. split; [reflexivity|]. split; [reflexivity|].
      intros requestId. cbn [fmap list_fmap].
      rewrite bool_decide_eq_false_2 by (intros Hin; inversion Hin).
      auto.
    - apply Forall_cons in Hquiet as [Hfirst Hrest]. cbn [fst snd] in Hfirst.
      cbn [forEach fst snd].
      destruct (unregisterRequest_outcome first
                  (set_parserMap (delete first (_parserMap st)) st))
        as (st1 & Hrun1 & Hdelays & Hmap & Hrouting & Hparser & Htrace).
      assert (Hbody : (clearCallbacks first code;; unregisterRequest first) st
                      = Some (tt, st1)).
      { rewrite (bind_eq _ _ _ _ _ (clearCallbacks_quiet _ _ _ Hfirst)). exact Hrun1. }
      rewrite (bind_eq _ _ _ _ _ Hbody). simpl_state_in Hdelays. simpl_state_in Hmap.
      simpl_state_in Hrouting. simpl_state_in Hparser. simpl_state_in Htrace.
      destruct (IH st1) as (st' & Hrun & Htrace' & Htables).
      { eapply Forall_impl; [exact Hrest|]. intros [k c] [Hc | Hnone]; [left; exact Hc|].
        right. cbn [fst] in *. rewrite Hparser.
        destruct (Z.eq_dec first k) as [<-|Hne];
          [apply lookup_delete_eq | rewrite lookup_delete_ne by exact Hne; exact Hnone]. }
      exists st'. split; [exact Hrun|]. split; [congruence|].
      intros requestId. destruct (Htables requestId) as (Hp & Hm & Hr & Hd).
      rewrite Hp, Hm, Hr, Hd, Hparser, Hmap, Hrouting, Hdelays.
      cbn [fmap list_fmap fst].
      destruct (bool_decide (requestId ∈ rest.*1)) eqn:Erest.
      + apply bool_decide_eq_true in Erest.
        rewrite bool_decide_eq_true_2 by (right; exact Erest). auto.
      + apply bool_decide_eq_false in Erest.
        destruct (Z.eq_dec first requestId) as [<-|Hne].
        * rewrite bool_decide_eq_true_2 by left. rewrite !lookup_delete_eq. auto.
        * rewrite bool_decide_eq_false_2
            by (intros Hin; apply elem_of_cons in Hin as [->|Hin]; contradiction).
          rewrite !lookup_delete_ne by exact Hne. auto. }
  destruct Hloop as (st' & Hrun & Htrace & Htables).
  exists st'. split; [exact Hrun|]. split; [exact Htrace|]. split; [exact Htables|].
  reflexivity.
Qed.

End HandlerProperties.



(** X7 on the example instance with handlers that may take any error: the
    fail handler of request 9 declines a [PEER_ID_INVALID] error, the policy
    has nothing for it, and the handler is called again. *)
Lemma rpcErrorOccured_calls_declining_handler_twice_witness :
  let error := mkRPCError 400 "PEER_ID_INVALID" in
  exists st',
    @rpcErrorOccured strictCollaborators 9 (Some (UserCallback 1)) error startedPrivate
    = Some (true, st')
    /\ trace st'
       = trace startedPrivate
         ++ [FailCalled 9 (UserCallback 1) error; FailCalled 9 (UserCallback 1) error].
Proof.
  intros error.
  set (called := set_trace (trace startedPrivate ++ [FailCalled 9 (UserCallback 1) error])
                   startedPrivate).
  pose proof (@rpcErrorOccured_calls_declining_handler_twice strictCollaborators 9
                (UserCallback 1) error startedPrivate called) as Hrun.
  eexists. split.
  - apply Hrun; [reflexivity | reflexivity | vm_compute; reflexivity].
  - vm_compute. reflexivity.
Defined.

(** X8 on the example instance: requests 7 and 8 are cleared, request 8 with
    an error code but no handlers. *)
Lemma clearCallbacks_ids_forgets_listed_witness :
  exists st',
    @clearCallbacks_ids exampleCollaborators [(7, 0); (8, 5)] handledExample
    = Some (tt, st')
    /\ trace st' = trace handledExample
    /\ _parserMap st' !! 7 = None /\ _requestMap st' !! 7 = None.
Proof.
  destruct (@clearCallbacks_ids_forgets_listed exampleCollaborators [(7, 0); (8, 5)]
              handledExample)
    as (st' & Hrun & Htrace & Htables & _).
  - discriminate.
  - constructor; [left; reflexivity|].
    constructor; [right; vm_compute; reflexivity|]. constructor.
  - exists st'. split; [exact Hrun|]. split; [exact Htrace|].
    destruct (Htables 7) as (Hp & Hm & _).
    rewrite Hp, Hm. split; reflexivity.
Defined.

(** ** 4.D, 4.E DC blocks, sessions and the main DC *)

Section RegistryProperties.

Context `{collab : Collaborators}.

Lemma getDcById_outcome shiftedDcId st :
  exists dc st',
    getDcById shiftedDcId st = Some (dc, st')
    /\ match _dcenters st !! shiftedDcId with
       | Some own => dc = own /\ st' = st
       | None =>
           _dcenters st' !! fallbackDcId shiftedDcId = Some dc
           /\ match _dcenters st !! fallbackDcId shiftedDcId with
              | Some shared => dc = shared /\ st' = st
              | None =>
                  dc = mkDcenter (BareDcId (fallbackDcId shiftedDcId)) None
                  /\ st' = set_dcenters (<[fallbackDcId shiftedDcId := dc]> (_dcenters st)) st
              end
       end.
Proof.
  unfold getDcById, addDc, findDc. unfold bind at 1, gets at 1.
  destruct (_dcenters st !! shiftedDcId) as [own|] eqn:Eown.
  - exists own, st. unfold ret. auto.
  - change (if isTemporaryDcId (BareDcId shiftedDcId)
            then let realDcId := getRealIdFromTemporaryDcId (BareDcId shiftedDcId) in
                 if realDcId =? 0 then BareDcId shiftedDcId else realDcId
            else BareDcId shiftedDcId) with (fallbackDcId shiftedDcId).
    cbv zeta.
    change (if isTemporaryDcId (BareDcId shiftedDcId)
            then if getRealIdFromTemporaryDcId (BareDcId shiftedDcId) =? 0
                 then BareDcId shiftedDcId
                 else getRealIdFromTemporaryDcId (BareDcId shiftedDcId)
            else BareDcId shiftedDcId) with (fallbackDcId shiftedDcId).
    set (dcId := fallbackDcId shiftedDcId). clearbody dcId.
    assert (Hadd : _dcenters st !! dcId = None ->
              exists dc st',
                (modify (fun st0 => set_dcenters
                           (emplace dcId (mkDcenter (BareDcId dcId) None) (_dcenters st0)) st0);;
                 found <- gets (fun st0 => _dcenters st0 !! dcId);;
                 match found with Some dc => ret dc | None => failed end) st
                = Some (dc, st')
                /\ dc = mkDcenter (BareDcId dcId) None
                /\ st' = set_dcenters (<[dcId := dc]> (_dcenters st)) st).
    { intros Hnone. unfold bind, modify, gets, ret. simpl_state. unfold emplace.
      rewrite Hnone, lookup_insert_eq. eauto. }
    destruct (Z.eqb_spec dcId shiftedDcId) as [Heq|Hne].
    + unfold bind at 1, ret at 1. cbv beta iota.
      destruct (Hadd ltac:(rewrite Heq; exact Eown)) as (dc & st' & Hrun & Hdc & Hst).
      exists dc, st'. rewrite Hrun. split; [reflexivity|].
      rewrite Hst. simpl_state.
      rewrite lookup_insert_eq. split; [reflexivity|]. rewrite Heq, Eown. rewrite <- Heq. auto.
    + unfold bind at 1, gets at 1. cbv beta iota.
      destruct (_dcenters st !! dcId) as [shared|] eqn:Eshared.
      * exists shared, st. unfold ret. rewrite Eshared. auto.
      * destruct (Hadd eq_refl) as (dc & st' & Hrun & Hdc & Hst).
        exists dc, st'. rewrite Hrun. split; [reflexivity|].
        rewrite Hst. simpl_state. rewrite lookup_insert_eq. auto.
Qed.

(** [getDcById] removes and replaces no block. *)
Lemma getDcById_grows shiftedDcId st dc st' :
  getDcById shiftedDcId st = Some (dc, st') -> _dcenters st ⊆ _dcenters st'.
Proof.
  intros Hrun.
  destruct (getDcById_outcome shiftedDcId st) as (dc' & st'' & Hrun' & Hcases).
  rewrite Hrun in Hrun'. injection Hrun' as <- <-.
  destruct (_dcenters st !! shiftedDcId) as [own|].
  { destruct Hcases as [_ ->]. reflexivity. }
  destruct Hcases as [_ Hcases].
  destruct (_dcenters st !! fallbackDcId shiftedDcId) as [shared|] eqn:Eshared.
  { destruct Hcases as [_ ->]. reflexivity. }
  destruct Hcases as [_ ->]. simpl_state. apply insert_subseteq. exact Eshared.
Qed.

(** X9: [getDcById] always gives a block.  It is the block stored under the
    id if there is one, else the block stored under the bare (or real) DC id
    of the id, which is added, without a key, only when it is missing too.
    No block already stored is removed or replaced, nothing but the
    registry changes, and asking again gives the same block and changes
    nothing. *)
Theorem getDcById_shares_block_of_bare_dc shiftedDcId st :
  exists dc st',
    getDcById shiftedDcId st = Some (dc, st')
    /\ (match _dcenters st !! shiftedDcId with
        | Some own => dc = own /\ st' = st
        | None =>
            _dcenters st' !! fallbackDcId shiftedDcId = Some dc
            /\ match _dcenters st !! fallbackDcId shiftedDcId with
               | Some shared => dc = shared /\ st' = st
               | None =>
                   dc = mkDcenter (BareDcId (fallbackDcId shiftedDcId)) None
                   /\ st' = set_dcenters (<[fallbackDcId shiftedDcId := dc]> (_dcenters st)) st
               end
        end)
    /\ _dcenters st ⊆ _dcenters st'
    /\ getDcById shiftedDcId st' = Some (dc, st').
Proof.
  destruct (getDcById_outcome shiftedDcId st) as (dc & st' & Hrun & Hcases).
  exists dc, st'. split; [exact Hrun|]. split; [exact Hcases|].
  destruct (_dcenters st !! shiftedDcId) as [own|] eqn:Eown.
  { destruct Hcases as [-> ->]. split; [reflexivity | exact Hrun]. }
  destruct Hcases as [Hstored Hcases].
  destruct (_dcenters st !! fallbackDcId shiftedDcId) as [shared|] eqn:Eshared.
  { destruct Hcases as [-> ->]. split; [reflexivity | exact Hrun]. }
  destruct Hcases as [Hdc Hst].
  split; [rewrite Hst; simpl_state; apply insert_subseteq; exact Eshared|].
  destruct (getDcById_outcome shiftedDcId st') as (dc2 & st2 & Hrun2 & Hcases2).
  rewrite Hrun2.
  destruct (_dcenters st' !! shiftedDcId) as [own|] eqn:Eown'.
  - destruct Hcases2 as [-> ->].
    assert (Hsame : fallbackDcId shiftedDcId = shiftedDcId).
    { destruct (Z.eq_dec (fallbackDcId shiftedDcId) shiftedDcId) as [E|Hne]; [exact E|].
      rewrite Hst in Eown'. simpl_state_in Eown'.
      rewrite lookup_insert_ne in Eown' by exact Hne. congruence. }
    rewrite Hsame in Hstored. congruence.
  - destruct Hcases2 as [_ Hcases2]. rewrite Hstored in Hcases2.
    destruct Hcases2 as [-> ->]. reflexivity.
Qed.

End RegistryProperties.

Section MainDcProperties.

Context `{collab : Collaborators}.

Lemma setMainDcId_forces newMain main st st' :
  _mainSession st = Some main ->
  setMainDcId newMain st = Some (tt, st') ->
  _mainDcIdForced st' = true.
Proof.
  intros Hmain. unfold setMainDcId. unfold bind at 1, gets at 1. rewrite Hmain.
  intros Hrun.
  apply bind_Some in Hrun as ([] & s1 & E1 & Hrun). unfold modify in E1. injection E1 as <-.
  apply bind_Some in Hrun as ([] & s2 & E2 & Hrun). unfold modify in E2. injection E2 as <-.
  apply bind_Some in Hrun as ([] & s3 & E3 & Hrun).
  unfold emit, modify in Hrun. injection Hrun as <-. simpl_state.
  assert (Hkept : keeps (fun s => _mainDcIdForced s)
                    (when (negb (getDcWithShift main =? newMain))
                       (killSession (getDcWithShift main)))).
  { apply keeps_when. apply keeps_killSession; [blind | |]; intros ? ?; reflexivity. }
  rewrite (Hkept _ _ _ E3). reflexivity.
Qed.

(** X10: once [setMainDcId] has changed the main DC of an instance with a
    main session (in normal mode, to a DC with a bare id), the change is
    marked as forced, and any [suggestMainDcId] after it is ignored: it
    changes nothing, whatever DC it names. *)
Theorem suggestMainDcId_ignored_after_setMainDcId newMain main st :
  _mode st = Normal ->
  _mainSession st = Some main ->
  sessionsStored st ->
  0 < newMain -> BareDcId newMain <> 0 ->
  exists st',
    setMainDcId newMain st = Some (tt, st')
    /\ _mainDcId st' = newMain
    /\ _mainDcIdForced st' = true
    /\ forall suggested, suggestMainDcId suggested st' = Some (tt, st').
Proof.
  intros Hmode Hmain Hstored Hpos Hbare.
  destruct (setMainDcId_normal newMain main st Hmode Hmain Hstored Hpos Hbare)
    as (main' & st' & Hrun & _ & _ & Hid & _).
  pose proof (setMainDcId_forces _ _ _ _ Hmain Hrun) as Hforced.
  exists st'. split; [exact Hrun|]. split; [exact Hid|]. split; [exact Hforced|].
  intros suggested. unfold suggestMainDcId, bind, gets. rewrite Hforced. reflexivity.
Qed.

Lemma killSession_restarts_main old removed st :
  _mode st = Normal ->
  _sessions st !! old = Some removed ->
  isSession removed (_mainSession st) = true ->
  BareDcId (_mainDcId st) <> 0 ->
  exists main' st',
    killSession old st = Some (tt, st')
    /\ getDcWithShift main' = _mainDcId st
    /\ _mainSession st' = Some main'
    /\ _sessions st'
       = <[_mainDcId st := main']> (delete (_mainDcId st) (delete old (_sessions st))).
Proof.
  intros Hmode Hold Hismain Hbare. unfold killSession.
  destruct (checkIfMainAndKill_outcome old st) as (sb & Hkill & Hsessionsb & Hframeb).
  rewrite Hold in Hkill. cbn [from_option] in Hkill. rewrite Hismain in Hkill.
  rewrite (bind_eq _ _ _ _ _ Hkill). unfold when.
  pose proof (Hframeb _ (fun s => (_mode s, _mainDcId s))
                ltac:(intros ? ?; reflexivity) ltac:(intros ? ?; reflexivity)
                ltac:(intros ? ?; reflexivity)) as Hb.
  injection Hb as Hmodeb Hidb. rewrite Hmode in Hmodeb.
  assert (Hinner : exists main' sd,
            (mainDcId <- gets _mainDcId;;
             checkIfMainAndKill mainDcId;;
             session <- startSession mainDcId;;
             modify (set_mainSession (Some session))) sb = Some (tt, sd)
            /\ getDcWithShift main' = _mainDcId st
            /\ _mainSession sd = Some main'
            /\ _sessions sd
               = <[_mainDcId st := main']> (delete (_mainDcId st) (delete old (_sessions st)))).
  { unfold bind at 1, gets at 1. rewrite Hidb.
    destruct (checkIfMainAndKill_outcome (_mainDcId st) sb)
      as (sc & Hagain & Hsessionsc & Hframec).
    rewrite (bind_eq _ _ _ _ _ Hagain).
    pose proof (Hframec _ (fun s => _mode s)
                  ltac:(intros ? ?; reflexivity) ltac:(intros ? ?; reflexivity)
                  ltac:(intros ? ?; reflexivity)) as Hmodec.
    simpl in Hmodec. rewrite Hmodeb in Hmodec.
    destruct (startSession_normal (_mainDcId st) sc Hmodec Hbare)
      as (session & sd & Hstart & Hsession & Hsessionsd & _).
    rewrite (bind_eq _ _ _ _ _ Hstart). unfold modify.
    rewrite Hsessionsc, lookup_delete_eq in Hsession. simpl in Hsession.
    exists session. eexists. split; [reflexivity|]. simpl_state.
    split; [rewrite Hsession; reflexivity|]. split; [reflexivity|].
    rewrite Hsessionsd, Hsessionsc, Hsessionsb. reflexivity. }
  destruct Hinner as (main' & sd & Hrun & Hshift & Hmain' & Hsessions').
  rewrite (bind_eq _ _ _ _ _ Hrun). unfold emit, modify.
  exists main'. eexists. split; [reflexivity|]. simpl_state. auto.
Qed.

(** X11: in normal mode [killSession] keeps the sessions in order, whatever
    id it is given: afterwards every session is still stored under the
    shifted DC id it was built with, the main session - there is one after
    if there was one before - is one of the sessions stored, and no session
    is left under the id killed unless it is the main DC id, where the main
    session is started anew. *)
Theorem killSession_keeps_main_session shiftedDcId st :
  _mode st = Normal ->
  sessionsStored st ->
  0 < _mainDcId st -> BareDcId (_mainDcId st) <> 0 ->
  exists st',
    killSession shiftedDcId st = Some (tt, st')
    /\ sessionsStored st'
    /\ (is_Some (_mainSession st) <-> is_Some (_mainSession st'))
    /\ (_sessions st' !! shiftedDcId = None
        \/ shiftedDcId = _mainDcId st
           /\ _mainSession st' = _sessions st' !! shiftedDcId)
    /\ _mainDcId st' = _mainDcId st.
Proof.
  intros Hmode Hstored Hpos Hbare.
  destruct (_sessions st !! shiftedDcId) as [removed|] eqn:Eremoved.
  - destruct (isSession removed (_mainSession st)) eqn:Eismain.
    + destruct (killSession_restarts_main shiftedDcId removed st Hmode Eremoved Eismain Hbare)
        as (main' & st' & Hrun & Hshift & Hmain' & Hsessions').
      pose proof (keeps_killSession (fun s => _mainDcId s) ltac:(blind) shiftedDcId
                    ltac:(intros ? ?; reflexivity) ltac:(intros ? ?; reflexivity)
                    _ _ _ Hrun) as Hid.
      simpl in Hid.
      exists st'. split; [exact Hrun|].
      destruct Hstored as [Hall Hmainstored].
      split.
      { split.
        - intros k session. rewrite Hsessions'.
          destruct (Z.eq_dec (_mainDcId st) k) as [<-|Hne].
          + rewrite lookup_insert_eq. intros E. injection E as <-. auto.
          + rewrite lookup_insert_ne by exact Hne. rewrite lookup_delete_ne by exact Hne.
            intros Hin. apply lookup_delete_Some in Hin as [_ Hin]. apply Hall. exact Hin.
        - intros m Hm. rewrite Hmain' in Hm. injection Hm as <-.
          rewrite Hsessions', Hshift. apply lookup_insert_eq. }
      split.
      { rewrite Hmain'. destruct (_mainSession st); [split; eauto | discriminate Eismain]. }
      split; [|exact Hid].
      destruct (Z.eq_dec (_mainDcId st) shiftedDcId) as [Heq|Hne].
      * right. split; [congruence|]. rewrite Hsessions', Hmain', Heq, lookup_insert_eq.
        reflexivity.
      * left. rewrite Hsessions', lookup_insert_ne by exact Hne.
        rewrite lookup_delete_ne by exact Hne. apply lookup_delete_eq.
    + unfold killSession.
      destruct (checkIfMainAndKill_outcome shiftedDcId st) as (sb & Hkill & Hsessionsb & Hframeb).
      rewrite Eremoved in Hkill. cbn [from_option] in Hkill. rewrite Eismain in Hkill.
      rewrite (bind_eq _ _ _ _ _ Hkill). unfold when, bind, ret, emit, modify.
      pose proof (Hframeb _ (fun s => (_mainSession s, _mainDcId s))
                    ltac:(intros ? ?; reflexivity) ltac:(intros ? ?; reflexivity)
                    ltac:(intros ? ?; reflexivity)) as Hb.
      injection Hb as Hmainb Hidb.
      eexists. split; [reflexivity|]. simpl_state. rewrite Hsessionsb, Hmainb, Hidb.
      destruct Hstored as [Hall Hmainstored].
      split.
      { split.
        - intros k session. simpl_state. rewrite Hsessionsb.
          intros Hin. apply lookup_delete_Some in Hin as [_ Hin]. apply Hall. exact Hin.
        - intros m Hm. simpl_state. simpl_state_in Hm. rewrite Hmainb in Hm. rewrite Hsessionsb.
          specialize (Hmainstored m Hm).
          rewrite lookup_delete_ne; [exact Hmainstored|].
          intros Heq. rewrite <- Heq, Eremoved in Hmainstored.
          injection Hmainstored as ->. rewrite Hm in Eismain. simpl in Eismain.
          rewrite Nat.eqb_refl in Eismain. discriminate. }
      split; [reflexivity|]. split; [left; apply lookup_delete_eq | reflexivity].
  - unfold killSession.
    destruct (checkIfMainAndKill_outcome shiftedDcId st) as (sb & Hkill & Hsessionsb & Hframeb).
    rewrite Eremoved in Hkill. cbn [from_option] in Hkill.
    rewrite (bind_eq _ _ _ _ _ Hkill). unfold when, bind, ret, emit, modify.
    pose proof (Hframeb _ (fun s => (_mainSession s, _mainDcId s))
                  ltac:(intros ? ?; reflexivity) ltac:(intros ? ?; reflexivity)
                  ltac:(intros ? ?; reflexivity)) as Hb.
    injection Hb as Hmainb Hidb.
    eexists. split; [reflexivity|]. simpl_state. rewrite Hsessionsb, Hmainb, Hidb.
    rewrite (delete_id _ _ Eremoved).
    split.
    { apply (sessionsStored_same st); simpl_state;
        [rewrite Hsessionsb; apply delete_id; exact Eremoved | exact Hmainb | exact Hstored]. }
    split; [reflexivity|]. split; [left; exact Eremoved | reflexivity].
Qed.

End MainDcProperties.

(** X10 on the example instance: after the main DC is set to 4, a
    suggestion of DC 5 changes nothing. *)
Lemma suggestMainDcId_ignored_after_setMainDcId_witness :
  exists st',
    @setMainDcId exampleCollaborators 4 startedPrivate = Some (tt, st')
    /\ _mainDcId st' = 4
    /\ @suggestMainDcId exampleCollaborators 5 st' = Some (tt, st').
Proof.
  destruct (@suggestMainDcId_ignored_after_setMainDcId exampleCollaborators 4
              (mkSession 0 2) startedPrivate)
    as (st' & Hrun & Hid & _ & Hignored).
  - vm_compute. reflexivity.
  - vm_compute. reflexivity.
  - exact sessionsStored_startedPrivate.
  - lia.
  - vm_compute. discriminate.
  - exists st'. auto.
Defined.

(** X11 on the example instance: killing the session of DC 2, the main one,
    leaves a main session. *)
Lemma killSession_keeps_main_session_witness :
  exists st',
    @killSession exampleCollaborators 2 startedPrivate = Some (tt, st')
    /\ is_Some (_mainSession st')
    /\ @sessionsStored exampleCollaborators st'.
Proof.
  destruct (@killSession_keeps_main_session exampleCollaborators 2 startedPrivate)
    as (st' & Hrun & Hstored & Hmain & _).
  - vm_compute. reflexivity.
  - exact sessionsStored_startedPrivate.
  - vm_compute. reflexivity.
  - vm_compute. discriminate.
  - exists st'. split; [exact Hrun|]. split; [|exact Hstored].
    apply Hmain. vm_compute. eauto.
Defined.

(** ** 4.B, 4.J Sending and cancelling *)

Section SendProperties.

Context `{collab : Collaborators}.

(** [getSession] in normal mode, for the main DC or for an id with a DC in
    it: it returns, touching the DC registry, the sessions and the trace
    only. *)
Lemma getSession_normal_or_main shiftedDcId st :
  _mode st = Normal ->
  (shiftedDcId = 0 /\ is_Some (_mainSession st))
  \/ (shiftedDcId <> 0 /\ BareDcId shiftedDcId <> 0) ->
  exists session st',
    getSession shiftedDcId st = Some (session, st')
    /\ (if shiftedDcId =? 0 then _mainSession st = Some session
        else _sessions st' !! shiftedDcId = Some session)
    /\ forall (C : Type) (f : Private -> C),
         ignores f set_trace -> ignores f set_sessions -> ignores f set_nextPtr ->
         ignores f set_dcenters ->
         f st' = f st.
Proof.
  intros Hmode [[-> [main Hmain]] | [Hnz Hbare]].
  - exists main, st. rewrite getSession_unfold. cbn [Z.eqb].
    unfold mainSessionAsserted, bind, gets, ret. rewrite Hmain. auto.
  - destruct (getSession_normal shiftedDcId st Hmode Hnz Hbare)
      as (session & st' & Hrun & _ & Hsessions & Hframe).
    exists session, st'. split; [exact Hrun|].
    destruct (Z.eqb_spec shiftedDcId 0); [contradiction|].
    split; [rewrite Hsessions; apply lookup_insert_eq | exact Hframe].
Qed.

(** X12: [sendRequest] in normal mode, to the main DC or to an id with a DC
    in it.  The session gets the payload under the id given, with the layer
    flag asked for, the time of sending, and as dependency the request
    stored under [afterRequestId], none if nothing is stored there.  The
    routing is registered as minus the DC of the session for the main DC and
    as that DC otherwise.  Payload and handlers are stored only where the
    id has none yet: an id in use keeps what it has, while the session still
    gets the new payload; handlers are stored only if one of the two is
    set. *)
Theorem sendRequest_registers_signed_routing
    requestId request callbacks shiftedDcId msCanWait needsLayer afterRequestId st :
  _mode st = Normal ->
  (shiftedDcId = 0 /\ is_Some (_mainSession st))
  \/ (shiftedDcId <> 0 /\ BareDcId shiftedDcId <> 0) ->
  let stored := mkRequest (req_data request) requestId (req_needsLayer request)
                  (req_after request) (req_lastSentTime request) in
  let after := if afterRequestId =? 0 then req_after request
               else option_map req_requestId
                      (emplace requestId stored (_requestMap st) !! afterRequestId) in
  let sent := mkRequest (req_data request) requestId needsLayer after
                (clock st (ticks st)) in
  exists session before st',
    sendRequest requestId request callbacks shiftedDcId msCanWait needsLayer
      afterRequestId st = Some (tt, st')
    /\ trace st' = before ++ [SessionSendPrepared session sent msCanWait]
    /\ _requestsByDc st'
       = <[requestId := if shiftedDcId =? 0 then - getDcWithShift session
                        else getDcWithShift session]> (_requestsByDc st)
    /\ _requestMap st'
       = match _requestMap st !! requestId with
         | Some _ => _requestMap st
         | None => <[requestId := sent]> (_requestMap st)
         end
    /\ _parserMap st'
       = (if notNull (onDone callbacks) || notNull (onFail callbacks)
          then emplace requestId callbacks (_parserMap st)
          else _parserMap st)
    /\ (if shiftedDcId =? 0 then _mainSession st = Some session
        else _sessions st' !! shiftedDcId = Some session).
Proof.
  intros Hmode Htarget stored after sent.
  destruct (getSession_normal_or_main shiftedDcId st Hmode Htarget)
    as (session & sa & Hrun & Hsession & Hframe).
  unfold sendRequest, sendRequest_over. fold getSession.
  rewrite (bind_eq _ _ _ _ _ Hrun).
  pose proof (Hframe _ (fun s => (_requestMap s, _parserMap s, _requestsByDc s,
                                  clock s, ticks s))
                ltac:(intros ? ?; reflexivity) ltac:(intros ? ?; reflexivity)
                ltac:(intros ? ?; reflexivity) ltac:(intros ? ?; reflexivity)) as Hsame.
  injection Hsame as Hmap Hparser Hrouting Hclock Hticks.
  assert (Hsessions : forall s, _sessions s = _sessions sa ->
            (if shiftedDcId =? 0 then _mainSession st = Some session
             else _sessions s !! shiftedDcId = Some session)).
  { intros s Hs. destruct (shiftedDcId =? 0); [exact Hsession | rewrite Hs; exact Hsession]. }
  unfold storeRequest, registerRequest, getRequest, crl_now, emit.
  unfold bind, gets, modify, when, ret. simpl_state.
  unfold sent, after, stored. rewrite <- Hmap, <- Hparser, <- Hrouting, <- Hclock, <- Hticks.
  exists session.
  destruct (_requestMap sa !! requestId) as [old|] eqn:Eold;
    destruct (notNull (onDone callbacks) || notNull (onFail callbacks));
    destruct (afterRequestId =? 0);
    cbn [negb notNull]; simpl_state;
    eexists; eexists; (split; [reflexivity|]); simpl_state;
    (split; [reflexivity|]); (split; [reflexivity|]);
    (split; [unfold emplace; rewrite ?Eold; simpl_state;
             rewrite ?insert_insert_eq; reflexivity|]);
    (split; [reflexivity|]); apply Hsessions; reflexivity.
Qed.

(** X13: [cancel] of an id with no routing tells no session and starts
    none; it still forgets the payload, the handlers and the delay stored
    under the id. *)
Theorem cancel_without_routing_tells_no_session requestId st :
  requestId <> 0 ->
  _requestsByDc st !! requestId = None ->
  exists st',
    cancel requestId st = Some (tt, st')
    /\ trace st' = trace st
    /\ _sessions st' = _sessions st
    /\ _requestMap st' = delete requestId (_requestMap st)
    /\ _parserMap st' = delete requestId (_parserMap st)
    /\ _requestsDelays st' = delete requestId (_requestsDelays st)
    /\ _requestsByDc st' = _requestsByDc st.
Proof.
  intros Hid Hrouting.
  unfold cancel. destruct (Z.eqb_spec requestId 0) as [|_]; [contradiction|].
  unfold queryRequestByDc, unregisterRequest, clearCallbacks.
  unfold bind, gets, modify, ret. rewrite Hrouting. simpl_state.
  eexists. split.
  - destruct (_parserMap st !! requestId); reflexivity.
  - destruct (_parserMap st !! requestId) eqn:Eparser; simpl_state;
      rewrite ?(delete_id _ _ Hrouting), ?(delete_id _ _ Eparser);
      repeat split; try reflexivity;
      apply delete_id; apply lookup_delete_eq.
Qed.

End SendProperties.

Lemma sendRequest_registers_signed_routing_witness :
  exists st',
    @sendRequest exampleCollaborators 7 (mkRequest examplePayload 0 false None 0)
      (mkHandler None None) 0 0 true 0 startedPrivate = Some (tt, st')
    /\ _requestsByDc st' !! 7 = Some (-2)
    /\ _requestMap st' !! 7 = Some (mkRequest examplePayload 7 true None 0)
    /\ _parserMap st' = _parserMap startedPrivate.
Proof.
  destruct (@sendRequest_registers_signed_routing exampleCollaborators 7
              (mkRequest examplePayload 0 false None 0) (mkHandler None None)
              0 0 true 0 startedPrivate)
    as (session & before & st' & Hrun & _ & Hrouting & Hmap & Hparser & Hsession).
  - reflexivity.
  - left. split; [reflexivity|]. eexists. vm_compute. reflexivity.
  - exists st'. split; [exact Hrun|].
    vm_compute in Hsession. injection Hsession as <-.
    rewrite Hrouting, Hmap, Hparser. vm_compute. auto.
Defined.

Lemma cancel_without_routing_tells_no_session_witness :
  exists st',
    @cancel exampleCollaborators 7 startedPrivate = Some (tt, st')
    /\ trace st' = trace startedPrivate.
Proof.
  destruct (@cancel_without_routing_tells_no_session exampleCollaborators 7
              startedPrivate)
    as (st' & Hrun & Htrace & _).
  - discriminate.
  - vm_compute. reflexivity.
  - exists st'. split; assumption.
Defined.

(** ** 4.G The end of an authorization import *)

Lemma sentRequests_app events more :
  sentRequests (events ++ more) = sentRequests events ++ sentRequests more.
Proof. apply omap_app. Qed.

Lemma omap_agree {A B : Type} (f g : A -> option B) (l : list A) :
  (forall x, x ∈ l -> f x = g x) -> omap f l = omap g l.
Proof.
  induction l as [|x l IH]; intros Hfg; [reflexivity|].
  cbn [omap list_omap]. rewrite (Hfg x) by (left). rewrite IH; [reflexivity|].
  intros y Hy. apply Hfg. right. exact Hy.
Qed.

Section ImportProperties.

Context `{collab : Collaborators}.

(** [getSession] in normal mode hands no payload to a session. *)
Lemma getSession_normal_sends_nothing shiftedDcId st session st' :
  _mode st = Normal ->
  shiftedDcId <> 0 -> BareDcId shiftedDcId <> 0 ->
  getSession shiftedDcId st = Some (session, st') ->
  sentRequests (trace st') = sentRequests (trace st).
Proof.
  intros Hmode Hnz Hbare. rewrite getSession_unfold.
  destruct (Z.eqb_spec shiftedDcId 0); [contradiction|].
  destruct (Z.eqb_spec (BareDcId shiftedDcId) 0); [contradiction|].
  unfold bind at 1, ret at 1. unfold findSession, bind at 1, gets at 1.
  destruct (_sessions st !! shiftedDcId) as [stored|] eqn:Estored.
  - unfold ret. intros [= _ <-]. reflexivity.
  - unfold startSession_over.
    unfold Assert, bind at 1. destruct (Z.eqb_spec (BareDcId shiftedDcId) 0); [contradiction|].
    cbn [negb]. unfold ret at 1.
    destruct (getDcById_runs shiftedDcId st) as (dc & st1 & Hdc).
    rewrite (bind_eq _ _ _ _ _ Hdc).
    pose proof (keeps_getDcById (fun s => (_mode s, _sessions s, trace s)) shiftedDcId
                  ltac:(intros ? ?; reflexivity) _ _ _ Hdc) as Hsame.
    injection Hsame as Hmode1 Hsessions1 Htrace1. rewrite Hmode in Hmode1.
    unfold findSession, isKeysDestroyer, bind at 1, gets at 1. rewrite Hsessions1, Estored.
    unfold bind, ret, emit, modify, gets, when. simpl_state. rewrite Hmode1.
    intros [= _ <-]. simpl_state. rewrite sentRequests_app, Htrace1. apply app_nil_r.
Qed.

(** One waiter of [importDone], not routed to the main DC. *)
Lemma resendImported_outcome newdc waitedRequestId st :
  _mode st = Normal ->
  (forall routing,
     _requestsByDc st !! waitedRequestId = Some routing ->
     0 <= routing /\ 0 < importedRouting newdc routing
     /\ BareDcId (importedRouting newdc routing) <> 0) ->
  exists st',
    resendImported newdc waitedRequestId st = Some (tt, st')
    /\ _requestsByDc st'
       = match resendable st waitedRequestId with
         | Some _ => alter (importedRouting newdc) waitedRequestId (_requestsByDc st)
         | None => _requestsByDc st
         end
    /\ sentRequests (trace st')
       = sentRequests (trace st) ++ option_list (resendable st waitedRequestId)
    /\ forall (C : Type) (f : Private -> C),
         ignores f set_trace -> ignores f set_sessions -> ignores f set_nextPtr ->
         ignores f set_dcenters -> ignores f set_requestsByDc ->
         f st' = f st.
Proof.
  intros Hmode Hrouting. unfold resendImported, resendable.
  unfold bind at 1, gets at 1.
  destruct (_requestMap st !! waitedRequestId) as [request|] eqn:Erequest.
  2: { exists st. unfold ret. cbn [option_list]. rewrite app_nil_r. auto. }
  unfold changeRequestByDc, bind at 1 2, gets at 1.
  destruct (_requestsByDc st !! waitedRequestId) as [routing|] eqn:Erouting.
  2: { exists st. unfold ret. cbn [option_list]. rewrite app_nil_r. auto. }
  destruct (Hrouting routing eq_refl) as (Hsign & Hpos & Hbare).
  destruct (Z.ltb_spec routing 0) as [?|_]; [lia|].
  fold (importedRouting newdc routing).
  unfold modify at 1, bind at 1, ret at 1.
  destruct (Z.ltb_spec (importedRouting newdc routing) 0) as [?|_]; [lia|].
  unfold when, bind at 1, ret at 1.
  set (sa := set_requestsByDc _ st).
  destruct (getSession_normal (importedRouting newdc routing) sa)
    as (session & sb & Hrun & _ & _ & Hframe).
  { exact Hmode. }
  { lia. }
  { exact Hbare. }
  assert (Hnz : importedRouting newdc routing <> 0) by lia.
  pose proof (getSession_normal_sends_nothing _ sa _ _ Hmode Hnz Hbare Hrun) as Hsent.
  rewrite (bind_eq _ _ _ _ _ Hrun). unfold emit, modify.
  eexists. split; [reflexivity|]. simpl_state.
  split; [|split].
  - rewrite (Hframe _ _requestsByDc) by (intros ? ?; reflexivity).
    unfold sa. simpl_state. apply map_eq. intros id.
    destruct (decide (id = waitedRequestId)) as [->|Hid].
    + rewrite lookup_insert_eq, lookup_alter_eq, Erouting. reflexivity.
    + rewrite lookup_insert_ne, lookup_alter_ne by congruence. reflexivity.
  - rewrite sentRequests_app, Hsent. reflexivity.
  - intros C f Ht Hs Hp Hd Hr. rewrite Ht, (Hframe _ f Ht Hs Hp Hd). apply Hr.
Qed.

(** The loop of [importDone] over waiters that are not routed to the main
    DC, each queued once. *)
Lemma resendImported_all newdc waiters : forall st,
  _mode st = Normal ->
  NoDup waiters ->
  (forall waitedRequestId routing,
     waitedRequestId ∈ waiters ->
     _requestsByDc st !! waitedRequestId = Some routing ->
     0 <= routing /\ 0 < importedRouting newdc routing
     /\ BareDcId (importedRouting newdc routing) <> 0) ->
  exists st',
    forEach (resendImported newdc) waiters st = Some (tt, st')
    /\ (forall id,
          _requestsByDc st' !! id
          = if bool_decide (id ∈ waiters) && notNull (_requestMap st !! id)
            then importedRouting newdc <$> _requestsByDc st !! id
            else _requestsByDc st !! id)
    /\ sentRequests (trace st')
       = sentRequests (trace st) ++ omap (resendable st) waiters
    /\ forall (C : Type) (f : Private -> C),
         ignores f set_trace -> ignores f set_sessions -> ignores f set_nextPtr ->
         ignores f set_dcenters -> ignores f set_requestsByDc ->
         f st' = f st.
Proof.
  induction waiters as [|first rest IH]; intros st Hmode Hnodup Hrouting.
  - exists st. cbn [forEach omap list_omap]. unfold ret. rewrite app_nil_r.
    split; [reflexivity|]. split; [|auto].
    intros id. rewrite bool_decide_eq_false_2 by (apply not_elem_of_nil). reflexivity.
  - apply NoDup_cons in Hnodup as [Hfresh Hnodup].
    destruct (resendImported_outcome newdc first st Hmode) as (s1 & Hrun1 & Hr1 & Hsent1 & Hframe1).
    { intros routing. apply Hrouting. left. }
    pose proof (Hframe1 _ (fun s => (_mode s, _requestMap s))
                  ltac:(intros ? ?; reflexivity) ltac:(intros ? ?; reflexivity)
                  ltac:(intros ? ?; reflexivity) ltac:(intros ? ?; reflexivity)
                  ltac:(intros ? ?; reflexivity)) as Hsame.
    injection Hsame as Hmode1 Hmap1.
    assert (Hother : forall id, id <> first ->
              _requestsByDc s1 !! id = _requestsByDc st !! id).
    { intros id Hid. rewrite Hr1. destruct (resendable st first); [|reflexivity].
      apply lookup_alter_ne. congruence. }
    destruct (IH s1) as (st' & Hrun & Hr & Hsent & Hframe).
    { rewrite Hmode1. exact Hmode. }
    { exact Hnodup. }
    { intros w routing Hw Hat. apply (Hrouting w routing); [right; exact Hw|].
      rewrite <- Hother; [exact Hat|]. intros ->. contradiction. }
    exists st'. cbn [forEach]. rewrite (bind_eq _ _ _ _ _ Hrun1).
    split; [exact Hrun|]. split; [|split].
    + intros id. rewrite Hr, Hmap1.
      destruct (decide (id = first)) as [->|Hid].
      * rewrite (bool_decide_eq_false_2 _ Hfresh).
        rewrite (bool_decide_eq_true_2 (first ∈ first :: rest)) by left.
        cbn [andb]. rewrite Hr1. unfold resendable.
        destruct (_requestMap st !! first); cbn [notNull]; [|reflexivity].
        destruct (_requestsByDc st !! first) eqn:E.
        -- rewrite lookup_alter_eq, E. reflexivity.
        -- rewrite E. reflexivity.
      * rewrite (Hother id Hid).
        replace (bool_decide (id ∈ first :: rest)) with (bool_decide (id ∈ rest));
          [reflexivity|].
        apply bool_decide_ext. rewrite elem_of_cons. tauto.
    + rewrite Hsent, Hsent1, <- app_assoc. f_equal.
      cbn [omap list_omap]. 
      replace (omap (resendable s1) rest) with (omap (resendable st) rest).
      * destruct (resendable st first); reflexivity.
      * apply omap_agree. intros w Hw. unfold resendable. rewrite Hmap1.
        rewrite Hother; [reflexivity|]. intros ->. contradiction.
    + intros C f Ht Hs Hp Hd Hrq. rewrite (Hframe _ f Ht Hs Hp Hd Hrq).
      apply Hframe1; assumption.
Qed.

(** X14: [importDone] in normal mode, for an import request with a routing
    and waiters of its DC that are each queued once and not routed to the
    main DC.  Every waiter that is stored and routed is routed to the DC of
    the import with the shift it had, and its stored payload is handed to a
    session, in the order of the queue; a waiter with no payload or no
    routing is skipped.  The queue of the DC is empty afterwards, and no
    payload is dropped. *)
Theorem importDone_resends_waiters_in_order requestId shifted st :
  let newdc := BareDcId shifted in
  let waiters := default [] (_authWaiters st !! newdc) in
  _mode st = Normal ->
  _requestsByDc st !! requestId = Some shifted ->
  NoDup waiters ->
  (forall waitedRequestId routing,
     waitedRequestId ∈ waiters ->
     _requestsByDc st !! waitedRequestId = Some routing ->
     0 <= routing /\ 0 < importedRouting newdc routing
     /\ BareDcId (importedRouting newdc routing) <> 0) ->
  exists st',
    importDone requestId st = Some (tt, st')
    /\ _authWaiters st' = <[newdc := []]> (_authWaiters st)
    /\ _requestMap st' = _requestMap st
    /\ sentRequests (trace st')
       = sentRequests (trace st) ++ omap (resendable st) waiters
    /\ forall id,
         _requestsByDc st' !! id
         = if bool_decide (id ∈ waiters) && notNull (_requestMap st !! id)
           then importedRouting newdc <$> _requestsByDc st !! id
           else _requestsByDc st !! id.
Proof.
  intros newdc waiters Hmode Hshifted Hnodup Hrouting.
  unfold importDone, queryRequestByDc. unfold bind at 1, gets at 1. rewrite Hshifted.
  fold newdc. unfold authWaitersRef, bind at 1 2, modify at 1, gets at 1. simpl_state.
  set (sa := set_authWaiters _ st).
  assert (Hwaiters : default [] (emplace newdc [] (_authWaiters st) !! newdc) = waiters).
  { unfold waiters, emplace. destruct (_authWaiters st !! newdc) eqn:E.
    - rewrite E. reflexivity.
    - rewrite lookup_insert_eq. reflexivity. }
  assert (Hempty : waiters = [] ->
            emplace newdc [] (_authWaiters st) = <[newdc := []]> (_authWaiters st)).
  { unfold waiters, emplace. destruct (_authWaiters st !! newdc) eqn:E; [|reflexivity].
    cbn [default from_option id]. intros ->. symmetry. apply insert_id. exact E. }
  assert (Hcleared : <[newdc := []]> (emplace newdc [] (_authWaiters st))
                     = <[newdc := []]> (_authWaiters st)).
  { unfold emplace. destruct (_authWaiters st !! newdc); [reflexivity | apply insert_insert_eq]. }
  rewrite Hwaiters. clearbody waiters.
  destruct waiters as [|first rest].
  - cbn [length Nat.eqb negb when]. unfold ret. exists sa. unfold sa. simpl_state.
    split; [reflexivity|]. split; [auto|]. split; [reflexivity|]. split.
    + cbn [omap list_omap]. rewrite app_nil_r. reflexivity.
    + intros id. rewrite bool_decide_eq_false_2 by (apply not_elem_of_nil). reflexivity.
  - cbn [length Nat.eqb negb when].
    destruct (resendImported_all newdc (first :: rest) sa)
      as (sb & Hrun & Hr & Hsent & Hframe); [exact Hmode | exact Hnodup | exact Hrouting |].
    rewrite (bind_eq _ _ _ _ _ Hrun). unfold modify.
    eexists. split; [reflexivity|]. simpl_state.
    pose proof (Hframe _ (fun s => (_authWaiters s, _requestMap s))
                  ltac:(intros ? ?; reflexivity) ltac:(intros ? ?; reflexivity)
                  ltac:(intros ? ?; reflexivity) ltac:(intros ? ?; reflexivity)
                  ltac:(intros ? ?; reflexivity)) as Hsame.
    injection Hsame as Hw Hmap. rewrite Hw, Hmap.
    split; [exact Hcleared|]. split; [reflexivity|]. split; [exact Hsent | exact Hr].
Qed.

End ImportProperties.

Lemma importDone_resends_waiters_in_order_witness :
  exists st',
    @importDone exampleCollaborators 9 waitingExample = Some (tt, st')
    /\ _authWaiters st' !! 3 = Some []
    /\ _requestsByDc st' !! 7 = Some 30003
    /\ sentRequests (trace st')
       = sentRequests (trace waitingExample) ++ [mkRequest examplePayload 7 false None 0].
Proof.
  destruct (@importDone_resends_waiters_in_order exampleCollaborators 9 3 waitingExample)
    as (st' & Hrun & Hwaiters & _ & Hsent & Hrouting).
  - reflexivity.
  - vm_compute. reflexivity.
  - apply (bool_decide_unpack _). vm_compute. reflexivity.
  - intros w routing Hw Hat.
    change (w ∈ [7; 8]) in Hw.
    apply elem_of_cons in Hw as [->|Hw]; [|apply elem_of_cons in Hw as [->|Hw]].
    + vm_compute in Hat. injection Hat as <-. vm_compute. repeat split; discriminate.
    + vm_compute in Hat. discriminate.
    + apply elem_of_nil in Hw. contradiction.
  - exists st'. split; [exact Hrun|]. rewrite Hwaiters, Hrouting, Hsent.
    split; [apply lookup_insert_eq|]. split; vm_compute; reflexivity.
Defined.

(** ** Flat maps in the order of their keys *)

Lemma keysInOrder_keys {V : Type} (m : gmap Z V) :
  StronglySorted Z.le (keysInOrder m)
  /\ NoDup (keysInOrder m)
  /\ forall k, k ∈ keysInOrder m <-> is_Some (m !! k).
Proof.
  unfold keysInOrder. split; [|split].
  - apply (StronglySorted_merge_sort Z.le).
  - rewrite merge_sort_Permutation. apply NoDup_fst_map_to_list.
  - intros k. rewrite merge_sort_Permutation, list_elem_of_fmap. split.
    + intros [[k' v] [-> Hin]]. apply elem_of_map_to_list in Hin. eauto.
    + intros [v Hv]. exists (k, v). split; [reflexivity|].
      apply elem_of_map_to_list. exact Hv.
Qed.

Lemma valuesInOrder_by_key {V : Type} (m : gmap Z V) :
  Forall2 (fun k v => m !! k = Some v) (keysInOrder m) (valuesInOrder m).
Proof.
  unfold valuesInOrder.
  assert (Hall : Forall (fun k => is_Some (m !! k)) (keysInOrder m)).
  { apply Forall_forall. intros k Hk. apply keysInOrder_keys. exact Hk. }
  induction Hall as [|k l [v Hv] _ IH]; [constructor|].
  cbn [omap list_omap]. rewrite Hv. constructor; assumption.
Qed.

Lemma valuesInOrder_values {V : Type} (m : gmap Z V) (v : V) :
  v ∈ valuesInOrder m <-> exists k, m !! k = Some v.
Proof.
  pose proof (valuesInOrder_by_key m) as Hall. split.
  - intros Hin. destruct (proj1 (list_elem_of_lookup _ _) Hin) as [i Hi].
    destruct (Forall2_lookup_r _ _ _ _ _ Hall Hi) as (k & _ & Hk). eauto.
  - intros [k Hk].
    assert (Hin : k ∈ keysInOrder m) by (apply keysInOrder_keys; eauto).
    destruct (proj1 (list_elem_of_lookup _ _) Hin) as [i Hi].
    destruct (Forall2_lookup_l _ _ _ _ _ Hall Hi) as (v' & Hv' & Hk').
    rewrite Hk in Hk'. injection Hk' as <-.
    apply list_elem_of_lookup. eauto.
Qed.

Section ShutdownProperties.

Context `{collab : Collaborators}.

Lemma forEach_emit {A : Type} (event : A -> Event) (l : list A) : forall st,
  forEach (fun x => emit (event x)) l st
  = Some (tt, set_trace (trace st ++ map event l) st).
Proof.
  induction l as [|x l IH]; intros st.
  - cbn [forEach map]. unfold ret. rewrite app_nil_r. destruct st; reflexivity.
  - cbn [forEach map]. unfold bind, emit at 1, modify at 1. rewrite IH. simpl_state.
    rewrite <- app_assoc. destruct st; reflexivity.
Qed.

(** X15: [prepareToDestroy] always returns.  It drops the configuration
    loader, has the requests being cancelled discarded, and then kills
    every session of the instance once, in the order of their shifted DC
    ids; no session and no main session is left, so that asking for the
    main session afterwards fails its assertion.  The tables of the requests
    are as they were. *)
Theorem prepareToDestroy_kills_every_session_once st :
  exists ids killed st',
    prepareToDestroy st = Some (tt, st')
    /\ trace st' = trace st ++ RequestCancellingDiscard :: map SessionKill killed
    /\ StronglySorted Z.le ids /\ NoDup ids
    /\ (forall id, id ∈ ids <-> is_Some (_sessions st !! id))
    /\ Forall2 (fun id session => _sessions st !! id = Some session) ids killed
    /\ _sessions st' = ∅
    /\ _mainSession st' = None
    /\ _configLoader st' = None
    /\ _requestMap st' = _requestMap st
    /\ _requestsByDc st' = _requestsByDc st
    /\ _parserMap st' = _parserMap st
    /\ getSession 0 st' = None.
Proof.
  exists (keysInOrder (_sessions st)), (valuesInOrder (_sessions st)).
  unfold prepareToDestroy, assignConfigLoader.
  unfold bind at 1 2 3 4, modify at 1 2, emit at 1, modify at 1, gets at 1. simpl_state.
  unfold bind at 1. rewrite forEach_emit. unfold modify. simpl_state.
  eexists. split; [reflexivity|]. simpl_state.
  destruct (keysInOrder_keys (_sessions st)) as (Hsorted & Hnodup & Hkeys).
  split; [rewrite <- app_assoc; reflexivity|].
  split; [exact Hsorted|]. split; [exact Hnodup|]. split; [exact Hkeys|].
  split; [apply valuesInOrder_by_key|].
  repeat (split; [reflexivity|]).
  rewrite getSession_unfold. cbn [Z.eqb]. unfold mainSessionAsserted, bind, gets.
  simpl_state. reflexivity.
Qed.

End ShutdownProperties.

Section KeyListProperties.

Context `{collab : Collaborators}.

(** X16: [getKeysForWrite] changes nothing and lists the keys of the
    registry, one for each shifted DC id that has a key, in the ascending
    order of these ids. *)
Theorem getKeysForWrite_lists_keys_by_ascending_id st :
  exists ids keys,
    getKeysForWrite st = Some (keys, st)
    /\ StronglySorted Z.lt ids
    /\ (forall id, id ∈ ids <-> is_Some (_keysForWrite st !! id))
    /\ Forall2 (fun id key => _keysForWrite st !! id = Some key) ids keys
    /\ length keys = size (_keysForWrite st).
Proof.
  exists (keysInOrder (_keysForWrite st)), (valuesInOrder (_keysForWrite st)).
  destruct (keysInOrder_keys (_keysForWrite st)) as (Hsorted & Hnodup & Hkeys).
  split; [reflexivity|]. split; [|split; [exact Hkeys|split]].
  - clear Hkeys. induction Hsorted as [|k l Hs IH Hall]; [constructor|].
    apply NoDup_cons in Hnodup as [Hk Hnodup]. constructor; [auto|].
    apply Forall_forall. intros k' Hk'.
    pose proof (proj1 (Forall_forall _ _) Hall k' Hk').
    assert (k <> k') by (intros ->; contradiction). lia.
  - apply valuesInOrder_by_key.
  - rewrite <- (Forall2_length _ _ _ (valuesInOrder_by_key (_keysForWrite st))).
    unfold keysInOrder. rewrite merge_sort_Permutation, length_map.
    apply length_map_to_list.
Qed.

Lemma ptr_eqb_same (key : AuthKeyPtr) : ptr_eqb key key = true.
Proof. destruct key; [apply Pos.eqb_refl | reflexivity]. Qed.

(** X17: [dcPersistentKeyChanged] for a DC id that is not temporary, and
    [getKeysForWrite] after it.  The registry then holds for the id the key
    object given, none for a null key, and what it held for every other id;
    the list has exactly the keys of the registry.  When the key object
    given is not the one the registry held, it is stored as given and the
    keys are written out. *)
Theorem dcPersistentKeyChanged_then_getKeysForWrite dcId persistentKey st :
  isTemporaryDcId dcId = false ->
  exists st' keys,
    (dcPersistentKeyChanged dcId persistentKey;; getKeysForWrite) st = Some (keys, st')
    /\ ptr_eqb (_keysForWrite st' !! dcId) persistentKey = true
    /\ (forall other, other <> dcId ->
          _keysForWrite st' !! other = _keysForWrite st !! other)
    /\ (forall key, key ∈ keys <-> exists id, _keysForWrite st' !! id = Some key)
    /\ (ptr_eqb (_keysForWrite st !! dcId) persistentKey = false ->
        _keysForWrite st' !! dcId = persistentKey
        /\ trace st' = trace st ++ [TemporaryKeyChangedFired dcId; WriteMtpData]).
Proof.
  intros Htmp.
  unfold dcPersistentKeyChanged, dcTemporaryKeyChanged, getKeysForWrite.
  unfold emit, bind, gets, modify, ret. simpl_state. rewrite Htmp. simpl_state.
  destruct (_keysForWrite st !! dcId) as [key|] eqn:Ekey; cbn [notNull andb negb].
  - destruct (ptr_eqb (Some key) persistentKey) eqn:Eptr; simpl_state.
    + do 2 eexists. split; [reflexivity|]. simpl_state. rewrite Ekey.
      split; [exact Eptr|]. split; [reflexivity|].
      split; [apply valuesInOrder_values | discriminate].
    + destruct persistentKey as [new|]; simpl_state;
        (do 2 eexists; split; [reflexivity|]; simpl_state).
      * rewrite lookup_insert_eq. split; [apply ptr_eqb_same|].
        split; [intros other Hother; apply lookup_insert_ne; congruence|].
        split; [apply valuesInOrder_values|].
        intros _. rewrite <- app_assoc. split; reflexivity.
      * rewrite lookup_delete_eq. split; [reflexivity|].
        split; [intros other Hother; apply lookup_delete_ne; congruence|].
        split; [apply valuesInOrder_values|].
        intros _. rewrite <- app_assoc. split; reflexivity.
  - destruct persistentKey as [new|]; simpl_state;
      (do 2 eexists; split; [reflexivity|]; simpl_state).
    + rewrite lookup_insert_eq. split; [apply ptr_eqb_same|].
      split; [intros other Hother; apply lookup_insert_ne; congruence|].
      split; [apply valuesInOrder_values|].
      intros _. rewrite <- app_assoc. split; reflexivity.
    + rewrite Ekey. split; [reflexivity|]. split; [reflexivity|].
      split; [apply valuesInOrder_values | discriminate].
Qed.

End KeyListProperties.

Lemma dcPersistentKeyChanged_then_getKeysForWrite_witness :
  exists st' keys,
    (@dcPersistentKeyChanged exampleCollaborators 2 (Some (mkAuthKey 5 2));;
     getKeysForWrite) startedPrivate = Some (keys, st')
    /\ _keysForWrite st' !! 2 = Some (mkAuthKey 5 2)
    /\ mkAuthKey 5 2 ∈ keys.
Proof.
  destruct (@dcPersistentKeyChanged_then_getKeysForWrite exampleCollaborators 2
              (Some (mkAuthKey 5 2)) startedPrivate)
    as (st' & keys & Hrun & _ & _ & Hkeys & Hstored).
  - reflexivity.
  - destruct Hstored as [Hstored _]; [vm_compute; reflexivity|].
    exists st', keys. split; [exact Hrun|]. split; [exact Hstored|].
    apply Hkeys. exists 2. exact Hstored.
Defined.

(** ** 4.I Keys added to a key destroyer *)

Section AddKeysProperties.

Context `{collab : Collaborators}.

(** One key of [addKeysForDestroy]. *)
Lemma addKeyForDestroy_outcome key st :
  nextDcIdAdvances ->
  _mode st = KeysDestroyer ->
  0 < key_dcId key -> BareDcId (key_dcId key) <> 0 ->
  keysHaveDcs st -> sessionsUnderKeys st ->
  exists n session st',
    let shiftedDcId := Nat.iter (S n) destroyKeyNextDcId (key_dcId key) in
    _keysForWrite st !! shiftedDcId = None
    /\ addKeyForDestroy key st = Some (tt, st')
    /\ _mode st' = KeysDestroyer
    /\ _keysForWrite st' = <[shiftedDcId := key]> (_keysForWrite st)
    /\ keysHaveDcs st'
    /\ _sessions st' = <[shiftedDcId := session]> (_sessions st)
    /\ getDcWithShift session = shiftedDcId
    /\ firedCount (trace st') = firedCount (trace st).
Proof.
  intros Hnext Hmode Hpos Hbare Hdcs Hsessions.
  destruct (Hnext _ Hpos) as [Hlt _].
  destruct (freeDestroyDcId_total (size (_keysForWrite st)) (_keysForWrite st)
              (_keysForWrite st) (destroyKeyNextDcId (key_dcId key)) Hnext)
    as [free Hfree]; [lia | lia | auto |].
  destruct (freeDestroyDcId_free _ _ _ _ Hfree) as [Hnone [n Hn]].
  exists n. cbn zeta. rewrite Nat.iter_succ_r, <- Hn.
  assert (Hunder : placedUnder free key).
  { exists n. rewrite Nat.iter_succ_r. exact Hn. }
  destruct (placedUnder_positive free key Hnext Hpos Hunder) as [Hgt Hsame].
  unfold addKeyForDestroy. unfold bind at 1, gets at 1. rewrite Hfree.
  unfold addDc, findDc. unfold bind at 1 2 3 4, modify at 1 2, gets at 1. simpl_state.
  unfold emplace. rewrite (Hdcs free), Hnone. cbn [fmap option_fmap option_map].
  rewrite lookup_insert_eq. unfold ret at 1.
  set (sa := set_dcenters _ _).
  destruct (startSession_destroyer free sa) as (session & st' & Hrun & Hshift & Hs & Hd & Hfired).
  { exact Hmode. }
  { lia. }
  { congruence. }
  { unfold sa. simpl_state. rewrite lookup_insert_eq. eauto. }
  { unfold sa. simpl_state. destruct (_sessions st !! free) eqn:E; [|reflexivity].
    destruct (Hsessions free) as [k Hk]; [eauto|]. congruence. }
  pose proof (keeps_startSession destroyerFrame ltac:(blind) free _ _ _ Hrun) as Hframe.
  unfold destroyerFrame in Hframe. injection Hframe as Hmode' Hkeys' _ _ _ _ _.
  exists session, st'. rewrite (bind_eq _ _ _ _ _ Hrun). unfold ret.
  split; [reflexivity|]. split; [reflexivity|].
  split; [rewrite Hmode'; exact Hmode|]. split; [exact Hkeys'|].
  split; [|split; [exact Hs|split; [exact Hshift | exact Hfired]]].
  intros k. rewrite Hd, Hkeys'. apply (placeKey_keysHaveDcs free key st Hdcs k).
Qed.

(** X18: [addKeysForDestroy] fails its expectation on an instance that is
    not a key destroyer.  On a key destroyer it gives every key an id of
    its own that no key was registered under, reached from the DC id of the
    key by [destroyKeyNextDcId], applied once at least; no key registered
    before is replaced; every key added has its DC block and a session of
    its id; the sessions of other ids are left as they were; and
    [allKeysDestroyed] does not fire. *)
Theorem addKeysForDestroy_places_keys_on_free_ids keys st :
  nextDcIdAdvances ->
  keysHaveDcs st -> sessionsUnderKeys st ->
  Forall (fun key => 0 < key_dcId key /\ BareDcId (key_dcId key) <> 0) keys ->
  (_mode st = Normal -> addKeysForDestroy keys st = None)
  /\ (_mode st = KeysDestroyer ->
      exists ids st',
        addKeysForDestroy keys st = Some (tt, st')
        /\ Forall2 placedUnder ids keys
        /\ NoDup ids
        /\ (forall id, id ∈ ids -> _keysForWrite st !! id = None)
        /\ _keysForWrite st' = list_to_map (zip ids keys) ∪ _keysForWrite st
        /\ keysHaveDcs st'
        /\ (forall id, id ∈ ids ->
              exists session, _sessions st' !! id = Some session
                              /\ getDcWithShift session = id)
        /\ (forall id, id ∉ ids -> _sessions st' !! id = _sessions st !! id)
        /\ firedCount (trace st') = firedCount (trace st)).
Proof.
  intros Hnext Hdcs Hsessions Hkeys. split.
  { intros Hmode. unfold addKeysForDestroy, isKeysDestroyer, bind, gets.
    rewrite Hmode. reflexivity. }
  intros Hmode. unfold addKeysForDestroy, isKeysDestroyer.
  unfold bind at 1 2, gets at 1. rewrite Hmode. unfold Assert, ret at 1.
  revert st Hmode Hdcs Hsessions.
  induction keys as [|key rest IH]; intros st Hmode Hdcs Hsessions.
  - exists [], st. cbn [forEach zip zip_with list_to_map foldr]. unfold ret.
    split; [reflexivity|]. split; [constructor|]. split; [constructor|].
    split; [intros id Hin; inversion Hin|].
    split; [rewrite (left_id_L ∅ (∪)); reflexivity|]. split; [exact Hdcs|].
    split; [intros id Hin; inversion Hin|]. split; reflexivity.
  - apply Forall_cons in Hkeys as [[Hpos Hbare] Hrest].
    destruct (addKeyForDestroy_outcome key st Hnext Hmode Hpos Hbare Hdcs Hsessions)
      as (n & session & s1 & Hfree & Hrun1 & Hmode1 & Hkeys1 & Hdcs1 & Hs1 & Hshift & Hfired1).
    cbn zeta in *.
    set (id := Nat.iter (S n) destroyKeyNextDcId (key_dcId key)) in *.
    assert (Hsessions1 : sessionsUnderKeys s1).
    { intros k. rewrite Hs1, Hkeys1. destruct (decide (id = k)) as [<-|Hk].
      - rewrite !lookup_insert_eq. eauto.
      - rewrite !lookup_insert_ne by exact Hk. apply Hsessions. }
    destruct (IH Hrest s1 Hmode1 Hdcs1 Hsessions1)
      as (ids & st' & Hrun & Hplaced & Hnodup & Hnone & HK & Hdcs' & Hstarted & Hothers & Hfired).
    assert (Hnotin : id ∉ ids).
    { intros Hin. specialize (Hnone id Hin). rewrite Hkeys1, lookup_insert_eq in Hnone.
      discriminate. }
    exists (id :: ids), st'.
    split; [cbn [forEach]; rewrite (bind_eq _ _ _ _ _ Hrun1); exact Hrun|].
    split; [constructor; [exists n; reflexivity | exact Hplaced]|].
    split; [constructor; assumption|].
    split.
    { intros k Hin. apply elem_of_cons in Hin as [->|Hin]; [exact Hfree|].
      specialize (Hnone k Hin). rewrite Hkeys1 in Hnone.
      apply lookup_insert_None in Hnone as [Hk _]. exact Hk. }
    split.
    { rewrite HK, Hkeys1. simpl. rewrite <- insert_union_l. symmetry. apply insert_union_r.
      apply not_elem_of_list_to_map_1. rewrite fst_zip; [exact Hnotin|].
      rewrite (Forall2_length _ _ _ Hplaced). reflexivity. }
    split; [exact Hdcs'|].
    split.
    { intros k Hin. apply elem_of_cons in Hin as [->|Hin]; [|apply Hstarted; exact Hin].
      exists session. rewrite (Hothers id Hnotin), Hs1, lookup_insert_eq. auto. }
    split.
    { intros k Hk. apply not_elem_of_cons in Hk as [Hne Hk].
      rewrite (Hothers k Hk), Hs1. apply lookup_insert_ne. congruence. }
    rewrite Hfired. exact Hfired1.
Qed.

End AddKeysProperties.

Lemma addKeysForDestroy_places_keys_on_free_ids_witness :
  exists (ids : list Z) st',
    @addKeysForDestroy exampleCollaborators [mkAuthKey 1 2; mkAuthKey 2 2] destroyerPrivate
    = Some (tt, st')
    /\ NoDup ids /\ length ids = 2%nat
    /\ _keysForWrite st' = list_to_map (zip ids [mkAuthKey 1 2; mkAuthKey 2 2]).
Proof.
  destruct (@addKeysForDestroy_places_keys_on_free_ids exampleCollaborators
              [mkAuthKey 1 2; mkAuthKey 2 2] destroyerPrivate)
    as [_ Hdestroyer].
  - exact exampleCollaborators_nextDcIdAdvances.
  - intros k. change (_dcenters destroyerPrivate) with (∅ : gmap Z Dcenter).
    change (_keysForWrite destroyerPrivate) with (∅ : gmap Z AuthKey).
    rewrite !lookup_empty. reflexivity.
  - intros k. change (_sessions destroyerPrivate) with (∅ : gmap Z Session).
    rewrite lookup_empty. intros [session Hsession]. discriminate.
  - repeat constructor; vm_compute; discriminate.
  - destruct Hdestroyer as (ids & st' & Hrun & Hplaced & Hnodup & _ & Hkeys & _);
      [reflexivity|].
    exists ids, st'. split; [exact Hrun|]. split; [exact Hnodup|].
    split; [exact (Forall2_length _ _ _ Hplaced)|].
    rewrite Hkeys. apply (right_id_L ∅ (∪)).
Defined.

(** ** 4.G A [FILE_ID_INVALID] error is retried once *)

Section BadGuestProperties.

Context `{collab : Collaborators}.

(** X20: an error of code 400 and type [FILE_ID_INVALID].  On a request
    that is in the bad-guest-DC set, [onErrorDefault] does not handle it
    and only takes the request out of the set.  On a request that is not in
    the set, the error is handled exactly when the request is in the set
    afterwards: the next error of this kind on it is the one not handled. *)
Theorem file_id_invalid_is_retried_once requestId error st :
  err_code error = 400 ->
  err_type error = "FILE_ID_INVALID"%string ->
  (requestId ∈ _badGuestDcRequests st ->
   onErrorDefault requestId error st
   = Some (false, set_badGuestDcRequests (_badGuestDcRequests st ∖ {[requestId]}) st))
  /\ (requestId ∉ _badGuestDcRequests st ->
      forall handled st1,
        onErrorDefault requestId error st = Some (handled, st1) ->
        (handled = true <-> requestId ∈ _badGuestDcRequests st1)).
Proof.
  intros Hcode Htype. split.
  - intros Hknown. unfold onErrorDefault. rewrite Hcode, Htype.
    change (match_migrate "FILE_ID_INVALID") with (@None Z).
    change (match_flood_wait "FILE_ID_INVALID") with (@None Z).
    cbn [Z.ltb Z.geb Z.eqb Z.compare Pos.compare Pos.compare_cont Pos.eqb
         orb andb negb notNull].
    unfold bind at 1, gets at 1.
    rewrite (bool_decide_eq_true_2 _ Hknown).
    change (String.eqb "FILE_ID_INVALID" "FILE_ID_INVALID") with true.
    change (String.eqb "FILE_ID_INVALID" "AUTH_KEY_PERM_EMPTY") with false.
    change (String.eqb "FILE_ID_INVALID" "CONNECTION_NOT_INITED") with false.
    change (String.eqb "FILE_ID_INVALID" "CONNECTION_LAYER_INVALID") with false.
    change (String.eqb "FILE_ID_INVALID" "CONNECTION_LANG_CODE_INVALID") with false.
    change (String.eqb "FILE_ID_INVALID" "MSG_WAIT_FAILED") with false.
    cbn [orb andb negb when]. reflexivity.
  - intros Hfresh handled st1 Hrun.
    rewrite onErrorDefault_unauthorized_branch in Hrun.
    2: { rewrite Htype. reflexivity. }
    2: { rewrite Htype. reflexivity. }
    2: { right. rewrite Hcode, Htype. split; [reflexivity | exact Hfresh]. }
    rewrite Hcode, Htype in Hrun.
    change ((400 =? 400) && String.eqb "FILE_ID_INVALID" "FILE_ID_INVALID") with true in Hrun.
    unfold onErrorDefault_unauthorized, queryRequestByDc in Hrun.
    apply bind_Some in Hrun as (shifted & s1 & E1 & Hrun). minv E1.
    apply bind_Some in Hrun as (surface & s2 & E2 & Hrun).
    assert (Hs2 : s2 = s1).
    { unfold mainDcId, hasAuthorization in E2. minv E2; reflexivity. }
    subst s2. destruct surface.
    + cbn [negb andb when] in Hrun. minv Hrun.
      split; [discriminate | intros Hin; contradiction].
    + apply bind_Some in Hrun as (waiters & s3 & E3 & Hrun).
      apply bind_Some in Hrun as ([] & s4 & E4 & Hrun).
      apply bind_Some in Hrun as ([] & s5 & E5 & Hrun).
      apply bind_Some in Hrun as ([] & s6 & E6 & Hrun).
      unfold when in E6. minv E6. minv Hrun. simpl_state.
      split; [intros _; set_solver | reflexivity].
Qed.

End BadGuestProperties.

Lemma file_id_invalid_is_retried_once_witness :
  let error := mkRPCError 400 "FILE_ID_INVALID" in
  let st := set_requestsByDc {[ 7 := 2; 8 := 160003 ]} startedPrivate in
  let st1 := stateAfter (@onErrorDefault exampleCollaborators 8 error) st in
  8 ∈ _badGuestDcRequests st1
  /\ @onErrorDefault exampleCollaborators 8 error st1
     = Some (false, set_badGuestDcRequests (_badGuestDcRequests st1 ∖ {[8]}) st1).
Proof.
  intros error st st1.
  destruct (@file_id_invalid_is_retried_once exampleCollaborators 8 error st
              eq_refl eq_refl) as [_ Hfirst].
  destruct (@file_id_invalid_is_retried_once exampleCollaborators 8 error st1
              eq_refl eq_refl) as [Hsecond _].
  assert (Hin : 8 ∈ _badGuestDcRequests st1).
  { apply (Hfirst ltac:(apply (bool_decide_unpack _); vm_compute; reflexivity) true st1);
      [vm_compute; reflexivity | reflexivity]. }
  split; [exact Hin | exact (Hsecond Hin)].
Defined.

(** ** 4.G A [_MIGRATE_] error on a request with no payload *)

Section MigrateEdgeProperties.

Context `{collab : Collaborators}.

(** X21: an error whose type matches [(FILE|PHONE|NETWORK|USER)_MIGRATE_N]
    on a request with no stored payload is not handled, and nothing is sent
    again.  When the request id is 0, [N] is 0, or the request has no
    routing or one that is not to the main DC, nothing changes at all.  When
    the request is routed to the main DC, the main DC has been changed to
    [N] all the same, and the routing of the request is as it was. *)
Theorem migrate_without_payload_moves_main_dc_only requestId error newdc st :
  match_migrate (err_type error) = Some newdc ->
  _requestMap st !! requestId = None ->
  let routing := default 0 (_requestsByDc st !! requestId) in
  (requestId = 0 \/ newdc = 0 \/ 0 <= routing ->
   onErrorDefault requestId error st = Some (false, st))
  /\ (requestId <> 0 -> routing < 0 ->
      _mode st = Normal -> is_Some (_mainSession st) -> sessionsStored st ->
      0 < newdc -> BareDcId newdc <> 0 ->
      exists main' st',
        onErrorDefault requestId error st = Some (false, st')
        /\ _mainDcId st' = newdc
        /\ _mainSession st' = Some main'
        /\ getDcWithShift main' = newdc
        /\ _requestsByDc st' = _requestsByDc st
        /\ _requestMap st' = _requestMap st).
Proof.
  intros Hmatch Hpayload routing. unfold onErrorDefault. rewrite Hmatch.
  unfold onErrorDefault_migrate, queryRequestByDc. split.
  - intros Hcase. destruct (Z.eqb_spec requestId 0) as [|Hid]; [reflexivity|].
    unfold bind at 1, gets at 1. fold routing.
    destruct (Z.eqb_spec routing 0) as [|Hrouting]; [reflexivity|].
    destruct (Z.eqb_spec newdc 0) as [|Hnew]; [reflexivity|]. cbn [orb].
    destruct (Z.ltb_spec routing 0) as [Hneg|_]; [lia|].
    unfold bind, ret, gets. rewrite Hpayload. reflexivity.
  - intros Hid Hneg Hmode [main Hmain] Hstored Hpos Hbare.
    destruct (Z.eqb_spec requestId 0) as [|_]; [contradiction|].
    unfold bind at 1, gets at 1. fold routing.
    destruct (Z.eqb_spec routing 0) as [|_]; [lia|].
    destruct (Z.eqb_spec newdc 0) as [|_]; [lia|]. cbn [orb].
    destruct (Z.ltb_spec routing 0) as [_|]; [|lia].
    destruct (setMainDcId_normal newdc main st Hmode Hmain Hstored Hpos Hbare)
      as (main' & st' & Hrun & Hmain' & Hshift & Hdc & _ & Hframe).
    unfold bind at 1 2. rewrite Hrun. unfold ret at 1.
    pose proof (Hframe _ (fun s => (_requestMap s, _requestsByDc s))
                  ltac:(split; intros ? ?; reflexivity)) as Hsame.
    injection Hsame as Hmap Hroutes.
    unfold bind, gets, ret. rewrite Hmap, Hpayload.
    exists main', st'. auto 8.
Qed.

End MigrateEdgeProperties.

Lemma migrate_without_payload_moves_main_dc_only_witness :
  let st := set_requestsByDc {[ 7 := -2 ]} startedPrivate in
  exists st',
    @onErrorDefault exampleCollaborators 7 (mkRPCError 303 "USER_MIGRATE_4") st
    = Some (false, st')
    /\ _mainDcId st = 2 /\ _mainDcId st' = 4.
Proof.
  intros st.
  destruct (@migrate_without_payload_moves_main_dc_only exampleCollaborators 7
              (mkRPCError 303 "USER_MIGRATE_4") 4 st) as [_ Hmain].
  - reflexivity.
  - vm_compute. reflexivity.
  - destruct Hmain as (main' & st' & Hrun & Hdc & _).
    + discriminate.
    + vm_compute. reflexivity.
    + vm_compute. reflexivity.
    + eexists. vm_compute. reflexivity.
    + apply (sessionsStored_same startedPrivate);
        [vm_compute; reflexivity | vm_compute; reflexivity
        | exact sessionsStored_startedPrivate].
    + reflexivity.
    + discriminate.
    + exists st'. split; [exact Hrun|]. split; [vm_compute; reflexivity | exact Hdc].
Defined.

(** ** 4.H What a loaded configuration schedules *)

Section ConfigLoadProperties.

Context `{collab : Collaborators}.

(** X19: [configLoadDone] always returns and drops the loader that
    answered.  The time of the load and the time the configuration expires
    are recorded, and the DC options are replaced only by a list that is not
    empty.  When the configuration expires later than now, the next check
    is called in the time left, one hour at most, and no loader is made;
    when it has expired already, a normal instance makes a new loader
    and loads at once, and a key destroyer does nothing more. *)
Theorem configLoadDone_rechecks_within_an_hour (emptyOptions : bool) expiresIn st :
  let loaded := clock st (ticks st) in
  let expiresAt := clock st (S (ticks st)) + expiresIn * 1000 in
  let requestIn := expiresAt - clock st (S (S (ticks st))) in
  let settled := trace st
                 ++ (if emptyOptions : bool then [] else [DcOptionsSetFromList])
                 ++ [ConfigUpdated; WriteSettings] in
  exists st',
    configLoadDone emptyOptions expiresIn st = Some (tt, st')
    /\ _lastConfigLoadedTime st' = loaded
    /\ _configExpiresAt st' = expiresAt
    /\ (0 < requestIn ->
        exists delay,
          trace st' = settled ++ [CallDelayedRequestConfigIfExpired delay]
          /\ delay = Z.min requestIn 3600000 /\ 0 < delay <= 3600000
          /\ _configLoader st' = None)
    /\ (requestIn <= 0 -> _mode st = Normal ->
        trace st' = settled ++ [ConfigLoaderLoad]
        /\ _configLoader st' = Some (nextPtr st)
        /\ liveConfigLoaders st'
           = S (liveConfigLoaders st - (if notNull (_configLoader st) then 1 else 0)))
    /\ (requestIn <= 0 -> _mode st = KeysDestroyer ->
        trace st' = settled /\ _configLoader st' = None).
Proof.
  intros loaded expiresAt requestIn settled.
  unfold configLoadDone, requestConfigIfExpired, requestConfig, makeConfigLoader,
    assignConfigLoader, isKeysDestroyer, when, emit.
  destruct emptyOptions; cbn [negb];
    unfold bind, modify, crl_now, gets, ret; simpl_state;
    fold expiresAt; fold requestIn.
  all: destruct (Z.gtb_spec requestIn 0) as [Hlater|Hexpired]; cbv beta; simpl_state;
    cbn [notNull orb].
  all: try (destruct (_mode st) eqn:Emode; cbv beta).
  all: eexists; (split; [reflexivity|]); simpl_state.
  all: (split; [reflexivity|]); (split; [reflexivity|]).
  all: unfold settled; rewrite <- ?app_assoc; cbn [app notNull].
  all: split; [intros Hlt;
               first [lia
                     | eexists; split; [rewrite <- ?app_assoc; reflexivity|];
                       split; [reflexivity|]; split; [lia | reflexivity]]|].
  all: split; intros Hle Hm;
    first [lia | discriminate Hm
          | rewrite ?Nat.sub_0_r, <- ?app_assoc; repeat split; reflexivity].
Qed.

End ConfigLoadProperties.

(** ** 4.F Entries of the delayed queue that are not known any more *)

Section ForgottenProperties.

Context `{collab : Collaborators}.

Lemma dueAfter_none_due now queue :
  dueUpTo now queue = [] -> dueAfter now queue = queue.
Proof.
  destruct queue as [|[id d] more]; [reflexivity|]. cbn [dueUpTo dueAfter].
  destruct (d >? now); [reflexivity | discriminate].
Qed.

(** The loop of [checkDelayedRequests] over entries that have no routing or
    no payload. *)
Lemma drainDelayed_forgotten now queue : forall st,
  (forall requestId due,
     (requestId, due) ∈ dueUpTo now queue ->
     _requestsByDc st !! requestId = None \/ _requestMap st !! requestId = None) ->
  drainDelayed now queue st
  = Some (tt, match dueUpTo now queue with
              | [] => st
              | _ :: _ => set_delayedRequests (dueAfter now queue) st
              end).
Proof.
  induction queue as [|[requestId due] rest IH]; intros st Hforgotten; [reflexivity|].
  cbn [drainDelayed dueUpTo dueAfter] in *.
  rewrite Z.geb_leb. rewrite Z.gtb_ltb in *.
  destruct (Z.leb_spec due now) as [Hdue|Hlater].
  - destruct (Z.ltb_spec now due) as [?|_]; [lia|].
    unfold bind at 1, modify at 1.
    assert (Hskip : resendDelayed requestId (set_delayedRequests rest st)
                    = Some (tt, set_delayedRequests rest st)).
    { unfold resendDelayed, queryRequestByDc, bind, gets, ret. simpl_state.
      destruct (_requestsByDc st !! requestId) eqn:Erouting; [|reflexivity].
      simpl_state.
      destruct (Hforgotten requestId due) as [Hnone|Hnone]; [left | congruence |].
      rewrite Hnone. reflexivity. }
    rewrite (bind_eq _ _ _ _ _ Hskip). rewrite IH.
    + destruct (dueUpTo now rest) eqn:Eup.
      * rewrite (dueAfter_none_due _ _ Eup). reflexivity.
      * destruct st; reflexivity.
    + intros id d Hin. simpl_state. apply (Hforgotten id d). right. exact Hin.
  - destruct (Z.ltb_spec now due) as [_|?]; [reflexivity | lia].
Qed.

(** X22: when the timer fires and every entry at the head of the delayed
    queue that is due has no routing or no payload any more, as after
    [cancel], [checkDelayedRequests] returns and takes these entries off
    without a call to any session.  The entries from the first one due
    later stay, the timer is called for the first of them, with a delay
    above 0, and for none when the queue is empty. *)
Theorem checkDelayedRequests_drops_forgotten_entries st :
  let now := clock st (ticks st) in
  let queue := _delayedRequests st in
  (forall requestId due,
     (requestId, due) ∈ dueUpTo now queue ->
     _requestsByDc st !! requestId = None \/ _requestMap st !! requestId = None) ->
  exists st',
    checkDelayedRequests st = Some (tt, st')
    /\ _delayedRequests st' = dueAfter now queue
    /\ trace st'
       = trace st ++ match dueAfter now queue with
                     | [] => []
                     | (_, due) :: _ => [TimerCallOnce (due - now)]
                     end
    /\ (forall requestId due rest,
          dueAfter now queue = (requestId, due) :: rest -> 0 < due - now)
    /\ _sessions st' = _sessions st
    /\ _requestMap st' = _requestMap st
    /\ _requestsByDc st' = _requestsByDc st.
Proof.
  intros now queue Hforgotten.
  unfold checkDelayedRequests. unfold bind at 1 2, crl_now at 1, gets at 1. simpl_state.
  fold now queue.
  assert (Hqueue : _delayedRequests st = queue) by reflexivity. clearbody queue.
  rewrite (bind_eq _ _ _ _ _
             (drainDelayed_forgotten now queue (set_ticks (S (ticks st)) st) Hforgotten)).
  assert (Hafter : forall requestId due rest,
            dueAfter now queue = (requestId, due) :: rest -> 0 < due - now).
  { clear. induction queue as [|[id d] more IH]; intros requestId due rest; [discriminate|].
    cbn [dueAfter]. rewrite Z.gtb_ltb. destruct (Z.ltb_spec now d).
    - intros [= -> -> ->]. lia.
    - apply IH. }
  destruct (dueUpTo now queue) as [|entry entries] eqn:Eup.
  - rewrite (dueAfter_none_due _ _ Eup) in *. unfold bind at 1, gets at 1. simpl_state.
    rewrite Hqueue.
    destruct queue as [|[id d] more]; unfold ret, emit, modify; simpl_state;
      eexists; (split; [reflexivity|]); simpl_state; rewrite ?app_nil_r; auto 8.
  - unfold bind at 1, gets at 1. simpl_state.
    destruct (dueAfter now queue) as [|[id d] more]; unfold ret, emit, modify; simpl_state;
      eexists; (split; [reflexivity|]); simpl_state; rewrite ?app_nil_r; auto 8.
Qed.

End ForgottenProperties.

Lemma checkDelayedRequests_drops_forgotten_entries_witness :
  let st := stateAfter (@cancel exampleCollaborators 7)
              (set_delayedRequests [(7, 0); (9, 900000)] handledExample) in
  exists st',
    @checkDelayedRequests exampleCollaborators st = Some (tt, st')
    /\ _delayedRequests st = [(7, 0); (9, 900000)]
    /\ _delayedRequests st' = [(9, 900000)]
    /\ _sessions st' = _sessions st.
Proof.
  intros st.
  assert (Hup : dueUpTo (clock st (ticks st)) (_delayedRequests st) = [(7, 0)])
    by (vm_compute; reflexivity).
  assert (Hafter : dueAfter (clock st (ticks st)) (_delayedRequests st) = [(9, 900000)])
    by (vm_compute; reflexivity).
  destruct (@checkDelayedRequests_drops_forgotten_entries exampleCollaborators st)
    as (st' & Hrun & Hqueue & _ & _ & Hsessions & _).
  - cbv zeta. rewrite Hup. intros requestId due Hin.
    apply list_elem_of_singleton in Hin. injection Hin as -> ->.
    right. vm_compute. reflexivity.
  - exists st'. split; [exact Hrun|]. split; [vm_compute; reflexivity|].
    split; [rewrite Hqueue; exact Hafter | exact Hsessions].
Defined.

(** ** [start] of a normal instance *)

Section StartProperties.

Context `{collab : Collaborators}.

(** In normal mode [startSession] removes and replaces no DC block. *)
Lemma startSession_normal_blocks shiftedDcId st session st' :
  _mode st = Normal ->
  startSession shiftedDcId st = Some (session, st') ->
  _dcenters st ⊆ _dcenters st'.
Proof.
  intros Hmode Hrun. unfold startSession, startSession_over in Hrun.
  apply bind_Some in Hrun as ([] & s0 & E0 & Hrun). minv E0.
  apply bind_Some in Hrun as (dc & s1 & E1 & Hrun).
  pose proof (getDcById_grows _ _ _ _ E1) as Hgrows.
  pose proof (keeps_getDcById _mode shiftedDcId ltac:(intros ? ?; reflexivity) _ _ _ E1)
    as Hmode1.
  rewrite Hmode in Hmode1.
  unfold findSession, isKeysDestroyer in Hrun.
  apply bind_Some in Hrun as (present & s2 & E2 & Hrun). minv E2.
  apply bind_Some in Hrun as (result & s3 & E3 & Hrun).
  assert (H3 : _dcenters s3 = _dcenters s2 /\ _mode s3 = Normal).
  { destruct (_sessions s2 !! shiftedDcId); minv E3; simpl_state; auto. }
  destruct H3 as [Hd3 Hm3].
  apply bind_Some in Hrun as ([] & s4 & E4 & Hrun). minv E4.
  apply bind_Some in Hrun as (destroyer & s5 & E5 & Hrun). minv E5.
  simpl_state_in Hrun. rewrite Hm3 in Hrun. unfold when in Hrun. minv Hrun.
  simpl_state. rewrite Hd3. exact Hgrows.
Qed.

(** The loop of [start] over the keys, in normal mode. *)
Lemma placeKeys_normal keys : forall st,
  _mode st = Normal ->
  forEach placeKey keys st
  = Some (tt,
          set_dcenters
            (foldl (fun registry key =>
                      emplace (key_dcId key)
                        (mkDcenter (BareDcId (key_dcId key)) (Some key)) registry)
               (_dcenters st) keys)
            (set_keysForWrite
               (foldl (fun registry key => <[key_dcId key := key]> registry)
                  (_keysForWrite st) keys)
               st)).
Proof.
  induction keys as [|key rest IH]; intros st Hmode.
  - cbn [forEach foldl]. unfold ret. destruct st; reflexivity.
  - cbn [forEach foldl].
    assert (Hplace : placeKey key st
              = Some (tt, set_dcenters
                            (emplace (key_dcId key)
                               (mkDcenter (BareDcId (key_dcId key)) (Some key))
                               (_dcenters st))
                            (set_keysForWrite (<[key_dcId key := key]> (_keysForWrite st)) st))).
    { unfold placeKey, isKeysDestroyer, addDc, findDc, bind, gets, modify, ret.
      rewrite Hmode. simpl_state.
      destruct (emplace_lookup (key_dcId key)
                  (mkDcenter (BareDcId (key_dcId key)) (Some key)) (_dcenters st))
        as [dc ->]. reflexivity. }
    rewrite (bind_eq _ _ _ _ _ Hplace). rewrite IH by exact Hmode. simpl_state.
    rewrite set_dcenters_keysForWrite_twice. reflexivity.
Qed.

(** X23: [start] of a normal instance.  With no main DC, neither in the
    configuration nor set before, it fails its assertion.  With a main DC
    it registers the keys under their DC ids, the last key given for a DC
    replacing those before it, while the DC block of an id keeps the first
    key it was made with; it makes the main DC the one of the
    configuration, forced, when the configuration sets one; it starts the
    session of the main DC and keeps it as main session; and it requests
    the configuration: a loader is made and loads unless one was active. *)
Theorem start_normal_keeps_last_key_and_starts_main keys configMainDcId st :
  _mode st = Normal ->
  let main := if configMainDcId =? kNotSetMainDc then _mainDcId st else configMainDcId in
  (main = kNoneMainDc -> start keys configMainDcId st = None)
  /\ (main <> kNoneMainDc -> BareDcId main <> 0 ->
      exists session st',
        start keys configMainDcId st = Some (tt, st')
        /\ _keysForWrite st'
           = foldl (fun registry key => <[key_dcId key := key]> registry)
               (_keysForWrite st) keys
        /\ foldl (fun registry key =>
                    emplace (key_dcId key)
                      (mkDcenter (BareDcId (key_dcId key)) (Some key)) registry)
             (_dcenters st) keys ⊆ _dcenters st'
        /\ _mainDcId st' = main
        /\ (configMainDcId <> kNotSetMainDc -> _mainDcIdForced st' = true)
        /\ _mainSession st' = Some session
        /\ session = default (mkSession (nextPtr st) main) (_sessions st !! main)
        /\ _sessions st' = <[main := session]> (_sessions st)
        /\ (_configLoader st = None ->
            is_Some (_configLoader st') /\ last (trace st') = Some ConfigLoaderLoad)
        /\ (is_Some (_configLoader st) -> _configLoader st' = _configLoader st)).
Proof.
  intros Hmode main. unfold start.
  rewrite (bind_eq _ _ _ _ _ (placeKeys_normal keys st Hmode)).
  set (K := foldl _ (_keysForWrite st) keys).
  set (D := foldl _ (_dcenters st) keys).
  set (st1 := set_dcenters D (set_keysForWrite K st)).
  set (st2 := if configMainDcId =? kNotSetMainDc then st1
              else set_mainDcIdForced true (set_mainDcId configMainDcId st1)).
  assert (Hwhen : when (negb (configMainDcId =? kNotSetMainDc))
                    (modify (set_mainDcId configMainDcId);;
                     modify (set_mainDcIdForced true)) st1 = Some (tt, st2)).
  { unfold st2. destruct (configMainDcId =? kNotSetMainDc); reflexivity. }
  rewrite (bind_eq _ _ _ _ _ Hwhen).
  assert (Hsame : _mode st2 = Normal /\ _dcenters st2 = D /\ _keysForWrite st2 = K
                  /\ _sessions st2 = _sessions st /\ nextPtr st2 = nextPtr st
                  /\ _mainDcId st2 = main /\ _configLoader st2 = _configLoader st
                  /\ (configMainDcId <> kNotSetMainDc -> _mainDcIdForced st2 = true)).
  { unfold st2, st1, main.
    destruct (Z.eqb_spec configMainDcId kNotSetMainDc); simpl_state; auto 10. }
  destruct Hsame as (Hmode2 & Hdcs2 & Hkeys2 & Hsessions2 & Hptr2 & Hmain2 & Hloader2 & Hforced2).
  clearbody st2. clear Hwhen.
  split.
  - intros Hnone. unfold isKeysDestroyer, bind at 1, gets at 1. rewrite Hmode2.
    unfold bind at 1, gets at 1. rewrite Hmain2.
    rewrite Hnone, Z.eqb_refl. cbn [negb eqb]. reflexivity.
  - intros Hsome Hbare. unfold isKeysDestroyer, bind at 1, gets at 1. rewrite Hmode2.
    unfold bind at 1, gets at 1. rewrite Hmain2.
    destruct (Z.eqb_spec main kNoneMainDc) as [|_]; [contradiction|].
    cbn [negb eqb].
    destruct (startSession_normal main st2 Hmode2 Hbare)
      as (session & st3 & Hrun & Hsession & Hsessions3 & Hframe).
    pose proof (startSession_normal_blocks _ _ _ _ Hmode2 Hrun) as Hgrows.
    pose proof (Hframe _ (fun s => (_mode s, _keysForWrite s, _mainDcId s, _mainDcIdForced s,
                                    _configLoader s))
                  ltac:(intros ? ?; reflexivity) ltac:(intros ? ?; reflexivity)
                  ltac:(intros ? ?; reflexivity) ltac:(intros ? ?; reflexivity)) as Hkept.
    injection Hkept as Hmode3 Hkeys3 Hmain3 Hforced3 Hloader3.
    assert (Hmid : (started <- startSession main;;
                    modify (set_mainSession (Some started))) st2
                   = Some (tt, set_mainSession (Some session) st3)).
    { rewrite (bind_eq _ _ _ _ _ Hrun). reflexivity. }
    rewrite (bind_eq _ _ _ _ _ Hmid). unfold Assert, bind at 1, ret at 1.
    rewrite Hsessions2, Hptr2 in Hsession. rewrite Hsessions2 in Hsessions3.
    rewrite Hdcs2 in Hgrows.
    unfold requestConfig, isKeysDestroyer, makeConfigLoader, assignConfigLoader.
    unfold bind at 1 2, gets at 1 2. simpl_state. rewrite Hmode3, Hmode2, Hloader3, Hloader2.
    destruct (_configLoader st) as [loader|] eqn:Eloader; cbn [notNull orb].
    + exists session. eexists. unfold ret. split; [reflexivity|]. simpl_state.
      rewrite Hkeys3, Hkeys2, Hmain3, Hmain2, Hforced3, Hloader3, Hloader2.
      split; [reflexivity|]. split; [exact Hgrows|]. split; [reflexivity|].
      split; [exact Hforced2|]. split; [reflexivity|]. split; [exact Hsession|].
      split; [exact Hsessions3|]. split; [discriminate | reflexivity].
    + exists session. unfold bind, gets, modify, emit, modify. simpl_state.
      eexists. split; [reflexivity|]. simpl_state.
      rewrite Hkeys3, Hkeys2, Hmain3, Hmain2, Hforced3.
      split; [reflexivity|]. split; [exact Hgrows|]. split; [reflexivity|].
      split; [exact Hforced2|]. split; [reflexivity|]. split; [exact Hsession|].
      split; [exact Hsessions3|].
      split; [intros _; split; [eauto | apply last_snoc] | intros [? ?]; discriminate].
Qed.

End StartProperties.

Lemma start_normal_keeps_last_key_and_starts_main_witness :
  exists st',
    @start exampleCollaborators [mkAuthKey 1 2; mkAuthKey 2 4; mkAuthKey 3 2] 0
      (freshPrivate Normal 2) = Some (tt, st')
    /\ _keysForWrite st' !! 2 = Some (mkAuthKey 3 2)
    /\ _dcenters st' !! 2 = Some (mkDcenter 2 (Some (mkAuthKey 1 2)))
    /\ _mainSession st' = Some (mkSession 0 2).
Proof.
  destruct (@start_normal_keeps_last_key_and_starts_main exampleCollaborators
              [mkAuthKey 1 2; mkAuthKey 2 4; mkAuthKey 3 2] 0 (freshPrivate Normal 2))
    as [_ Hstarts].
  - reflexivity.
  - destruct Hstarts as (session & st' & Hrun & Hkeys & Hdcs & _ & _ & Hmain & Hsession & _).
    + discriminate.
    + discriminate.
    + exists st'. split; [exact Hrun|]. rewrite Hkeys, Hmain, Hsession.
      split; [vm_compute; reflexivity|]. split; [|vm_compute; reflexivity].
      eapply lookup_weaken; [|exact Hdcs]. vm_compute. reflexivity.
Defined.
